(** * BioAcoustic-Dashboard: the artifact-generation pipeline

    A shallow embedding of [lib/audio_processing] (file_manager.py,
    segment_generator.py, spectrogram_generator.py, processing_manager.py)
    and the properties of its specification.

    Conventions of the embedding:
    - a Python [str] is the list of its Unicode code points;
    - a Python [float] is an IEEE 754 binary64 value, a [spec_float] used at
      precision 53 and maximal exponent 1024, with the Standard Library's
      reference operations;
    - a Python [int] is a [Z];
    - a raised exception is the [Raise] case of [result];
    - the file system, the clock, the sqlite table and the audio back end
      (librosa, soundfile, matplotlib) form the [World] every effectful
      function threads. *)

From Stdlib Require Import ZArith List String Ascii Bool Lia.
From Stdlib Require Import Floats.SpecFloat DecimalString Sorted.
From stdpp Require Import gmap strings list fin_maps.

Local Open Scope Z_scope.

(** ** Python strings *)

Abbreviation str := (list Z).

(** Code points of a UTF-8 encoded byte sequence (well-formed input). *)
Fixpoint utf8_decode (bs : list Z) : list Z :=
  match bs with
  | [] => []
  | b :: r =>
      if b <? 128 then b :: utf8_decode r
      else if b <? 224 then
        match r with
        | b1 :: r1 => ((b - 192) * 64 + (b1 - 128)) :: utf8_decode r1
        | _ => []
        end
      else if b <? 240 then
        match r with
        | b1 :: b2 :: r2 =>
            ((b - 224) * 4096 + (b1 - 128) * 64 + (b2 - 128)) :: utf8_decode r2
        | _ => []
        end
      else
        match r with
        | b1 :: b2 :: b3 :: r3 =>
            ((b - 240) * 262144 + (b1 - 128) * 4096 + (b2 - 128) * 64 + (b3 - 128))
              :: utf8_decode r3
        | _ => []
        end
  end.

(** The Python string written as the literal [s] in a UTF-8 source file. *)
Definition u (s : string) : list Z :=
  utf8_decode (map (fun a => Z.of_N (N_of_ascii a)) (list_ascii_of_string s)).

(** String literals are compared as written before they are decoded. *)
Strategy 100 [u].

Module Py.

(** *** Exceptions and results *)

Inductive exn_kind :=
| ValueError | TypeError | KeyError | AttributeError | OverflowError
| OSError | PermissionError.

Inductive result (A : Type) :=
| Ok (a : A)
| Raise (k : exn_kind) (msg : list Z).
Arguments Ok {A} a.
Arguments Raise {A} k msg.

Definition bind {A B} (r : result A) (f : A -> result B) : result B :=
  match r with
  | Ok a => f a
  | Raise k m => Raise k m
  end.

(** *** Floats *)

Definition prec := 53.
Definition emax := 1024.

Definition fadd := SFadd prec emax.
Definition fsub := SFsub prec emax.
Definition fdiv := SFdiv prec emax.

(** [float(n)] for an int: the nearest double, ties to even;
    [OverflowError] beyond the range of doubles. *)
Definition float_of_int (n : Z) : result spec_float :=
  match binary_normalize prec emax n 0 false with
  | S754_infinity _ =>
      Raise OverflowError (u "int too large to convert to float")
  | f => Ok f
  end.

(** The double nearest to [m * 10^e] ([m >= 0]), signed by [neg]. *)
Definition float_of_decimal (neg : bool) (m e : Z) : spec_float :=
  match m with
  | Zpos p =>
      if 0 <=? e
      then binary_normalize prec emax
             (if neg then - (m * 10 ^ e) else m * 10 ^ e) 0 false
      else fdiv (S754_finite neg p 0)
                (S754_finite false (Z.to_pos (10 ^ (- e))) 0)
  | _ => S754_zero neg
  end.

Definition float_lit (m e : Z) : spec_float :=
  float_of_decimal (m <? 0) (Z.abs m) e.

(** *** Numbers: a Python value that is an int or a float *)

Inductive num :=
| NInt (n : Z)
| NFloat (f : spec_float).

(** Exact comparison of a double with an int. *)
Definition compare_float_int (f : spec_float) (n : Z) : option comparison :=
  match f with
  | S754_nan => None
  | S754_infinity s => Some (if s then Lt else Gt)
  | S754_zero _ => Some (0 ?= n)
  | S754_finite s m e =>
      let v := if s then Zneg m else Zpos m in
      Some (if 0 <=? e then (v * 2 ^ e ?= n) else (v ?= n * 2 ^ (- e)))
  end.

(** Python compares an int with a float by value, without rounding. *)
Definition num_compare (a b : num) : option comparison :=
  match a, b with
  | NInt x, NInt y => Some (x ?= y)
  | NFloat x, NFloat y => SFcompare x y
  | NFloat x, NInt y => compare_float_int x y
  | NInt x, NFloat y => option_map CompOpp (compare_float_int y x)
  end.

Definition num_ltb (a b : num) : bool :=
  match num_compare a b with Some Lt => true | _ => false end.
Definition num_leb (a b : num) : bool :=
  match num_compare a b with Some (Lt | Eq) => true | _ => false end.
Definition num_gtb (a b : num) : bool := num_ltb b a.

(** The float operand of a mixed arithmetic operation. *)
Definition to_float (a : num) : result spec_float :=
  match a with
  | NInt n => float_of_int n
  | NFloat f => Ok f
  end.

(** *** Characters and [str] methods *)

(** [str.isspace] on one character. *)
Definition isspace (c : Z) : bool :=
  ((9 <=? c) && (c <=? 13)) || ((28 <=? c) && (c <=? 32))
  || (c =? 133) || (c =? 160) || (c =? 5760)
  || ((8192 <=? c) && (c <=? 8202))
  || (c =? 8232) || (c =? 8233) || (c =? 8239) || (c =? 8287)
  || (c =? 12288).

Definition is_ascii_digit (c : Z) : bool := (48 <=? c) && (c <=? 57).
Definition is_ascii_upper (c : Z) : bool := (65 <=? c) && (c <=? 90).
Definition is_ascii_lower (c : Z) : bool := (97 <=? c) && (c <=? 122).
Definition is_ascii_alnum (c : Z) : bool :=
  is_ascii_digit c || is_ascii_upper c || is_ascii_lower c.

Fixpoint drop_space (s : list Z) : list Z :=
  match s with
  | c :: r => if isspace c then drop_space r else s
  | [] => []
  end.

(** [s.strip()] *)
Definition strip (s : list Z) : list Z :=
  rev (drop_space (rev (drop_space s))).

(** [c in s] for a one-character [c] *)
Definition contains (c : Z) (s : list Z) : bool := existsb (Z.eqb c) s.

(** [s.replace(c, new)] for a one-character [c] *)
Definition replace (c : Z) (new : list Z) (s : list Z) : list Z :=
  flat_map (fun x => if x =? c then new else [x]) s.

(** [s.split(c)] for a one-character separator *)
Fixpoint split (c : Z) (s : list Z) : list (list Z) :=
  match s with
  | [] => [[]]
  | x :: r =>
      if x =? c then [] :: split c r
      else match split c r with
           | p :: ps => (x :: p) :: ps
           | [] => [[x]]
           end
  end.

(** [sep.join(parts)] *)
Fixpoint join (sep : list Z) (parts : list (list Z)) : list Z :=
  match parts with
  | [] => []
  | [p] => p
  | p :: ps => p ++ sep ++ join sep ps
  end.

(** [str(n)] for an int *)
Definition str_of_int (n : Z) : list Z :=
  map (fun a => Z.of_N (N_of_ascii a))
      (list_ascii_of_string (NilZero.string_of_int (Z.to_int n))).

(** *** What [int] and [float] read of a string

    Both first rewrite the string: a character below 127 stays; any other
    white space becomes a space, any other decimal digit its ASCII digit,
    and anything else ["?"].  The white space around the number is then the
    ASCII one. *)

(** The zeros of the runs of ten decimal digits of Unicode 14. *)
Definition decimal_zeros : list Z :=
  [48; 1632; 1776; 1984; 2406; 2534; 2662; 2790; 2918; 3046; 3174; 3302; 3430;
   3558; 3664; 3792; 3872; 4160; 4240; 6112; 6160; 6470; 6608; 6784; 6800; 6992;
   7088; 7232; 7248; 42528; 43216; 43264; 43472; 43504; 43600; 44016; 65296;
   66720; 68912; 69734; 69872; 69942; 70096; 70384; 70736; 70864; 71248; 71360;
   71472; 71904; 72016; 72784; 73040; 73120; 92768; 92864; 93008; 120782; 120792;
   120802; 120812; 120822; 123200; 123632; 125264; 130032].

(** The value of a decimal digit of any script. *)
Definition decimal_value (c : Z) : option Z :=
  option_map (fun z => c - z)
             (List.find (fun z => (z <=? c) && (c <? z + 10)) decimal_zeros).

Definition ascii_number_char (c : Z) : Z :=
  if c <? 127 then c
  else if isspace c then 32
  else match decimal_value c with
       | Some d => 48 + d
       | None => 63
       end.

(** White space for the number parsers: tab to carriage return, and space. *)
Definition is_ascii_space (c : Z) : bool := ((9 <=? c) && (c <=? 13)) || (c =? 32).

Fixpoint drop_ascii_space (s : list Z) : list Z :=
  match s with
  | c :: r => if is_ascii_space c then drop_ascii_space r else s
  | [] => []
  end.

(** The text of the number: rewritten, without the white space around it. *)
Definition number_text (s : list Z) : list Z :=
  rev (drop_ascii_space (rev (drop_ascii_space (map ascii_number_char s)))).

(** *** [int(s)] on a string

    An optional sign, then decimal digits with single underscores between
    digits. *)
Fixpoint digits_value (acc : Z) (prev_digit : bool) (s : list Z) : option Z :=
  match s with
  | [] => if prev_digit then Some acc else None
  | c :: r =>
      if is_ascii_digit c then digits_value (acc * 10 + (c - 48)) true r
      else if (c =? 95) && prev_digit then
        match r with
        | d :: _ => if is_ascii_digit d then digits_value acc false r else None
        | [] => None
        end
      else None
  end.

Definition int_of_str (s : list Z) : option Z :=
  match number_text s with
  | [] => None
  | c :: r =>
      if c =? 45 then option_map Z.opp (digits_value 0 false r)
      else if c =? 43 then digits_value 0 false r
      else digits_value 0 false (c :: r)
  end.


(** *** [float(s)] on a string

    Underscores only between digits; an optional
    sign; then [inf], [infinity] or [nan] in any case, or a decimal number
    with an optional fraction and exponent.  The value is the double nearest
    to the decimal number. *)
Fixpoint valid_underscores (prev : Z) (s : list Z) : bool :=
  match s with
  | [] => negb (prev =? 95)
  | c :: r =>
      (if c =? 95 then is_ascii_digit prev
       else negb (prev =? 95) || is_ascii_digit c)
      && valid_underscores c r
  end.

Fixpoint span_digits (s : list Z) : list Z * list Z :=
  match s with
  | c :: r =>
      if is_ascii_digit c
      then let '(ds, rest) := span_digits r in (c :: ds, rest)
      else ([], s)
  | [] => ([], [])
  end.

Definition digits_to_Z (ds : list Z) : Z :=
  fold_left (fun acc c => acc * 10 + (c - 48)) ds 0.

Definition lower (c : Z) : Z := if is_ascii_upper c then c + 32 else c.

Definition split_sign (s : list Z) : bool * list Z :=
  match s with
  | c :: r => if c =? 45 then (true, r) else if c =? 43 then (false, r) else (false, s)
  | [] => (false, [])
  end.

(** The exponent part: empty, or [e] or [E], an optional sign and digits. *)
Definition exponent_of (s : list Z) : option Z :=
  match s with
  | [] => Some 0
  | c :: r =>
      if (c =? 101) || (c =? 69) then
        let '(neg, r1) := split_sign r in
        match span_digits r1 with
        | (d :: ds, []) =>
            Some (if neg then - digits_to_Z (d :: ds) else digits_to_Z (d :: ds))
        | _ => None
        end
      else None
  end.

Definition float_of_str (s : list Z) : option spec_float :=
  let t := number_text s in
  if negb (valid_underscores 0 t) then None else
  let '(neg, body) := split_sign (filter (fun c => c ≠ 95) t) in
  let low := map lower body in
  if bool_decide (low = u "inf") || bool_decide (low = u "infinity")
  then Some (S754_infinity neg)
  else if bool_decide (low = u "nan") then Some S754_nan
  else
    let '(ip, r1) := span_digits body in
    let '(fp, r2) :=
      match r1 with
      | c :: r => if c =? 46 then span_digits r else ([], r1)
      | [] => ([], [])
      end in
    match ip ++ fp with
    | [] => None
    | ds =>
        match exponent_of r2 with
        | Some e => Some (float_of_decimal neg (digits_to_Z ds) (e - Z.of_nat (length fp)))
        | None => None
        end
    end.

(** *** Formatting *)

(** [format(n, "03d")]: zero padding to width 3, the sign included. *)
Definition format_03d (n : Z) : list Z :=
  let sign := if n <? 0 then u "-" else [] in
  let ds := str_of_int (Z.abs n) in
  sign ++ replicate (3 - length sign - length ds)%nat 48 ++ ds.

(** [num / den] rounded to the nearest integer, ties to even. *)
Definition round_half_even (num den : Z) : Z :=
  let q := num / den in
  let r := num mod den in
  match 2 * r ?= den with
  | Lt => q
  | Gt => q + 1
  | Eq => if Z.even q then q else q + 1
  end.

(** [format(f, ".2f")] for a float. *)
Definition format_2f (f : spec_float) : list Z :=
  match f with
  | S754_nan => u "nan"
  | S754_infinity s => if s then u "-inf" else u "inf"
  | S754_zero s => if s then u "-0.00" else u "0.00"
  | S754_finite s m e =>
      let q := if 0 <=? e then Zpos m * 2 ^ e * 100
               else round_half_even (Zpos m * 100) (2 ^ (- e)) in
      let frac := str_of_int (q mod 100) in
      (if s then u "-" else []) ++ str_of_int (q / 100) ++ u "."
        ++ replicate (2 - length frac)%nat 48 ++ frac
  end.

(** *** [repr(f)]: the shortest decimal string that reads back as [f] *)

Definition float_same (a b : spec_float) : bool :=
  match a, b with
  | S754_nan, S754_nan => true
  | S754_zero s, S754_zero t => Bool.eqb s t
  | S754_infinity s, S754_infinity t => Bool.eqb s t
  | S754_finite s m e, S754_finite t n f => Bool.eqb s t && (m =? n)%positive && (e =? f)
  | _, _ => false
  end.

Definition ndigits (n : Z) : Z := Z.of_nat (length (str_of_int n)).

(** The largest [p] with [10^p <= num / den]. *)
Definition log10_floor (num den : Z) : Z :=
  let p := ndigits num - ndigits den in
  if (if 0 <=? p then den * 10 ^ p <=? num else den <=? num * 10 ^ (- p))
  then p else p - 1.

(** The best decimal [d * 10^k] of [n] digits for [m * 2^e], when one of
    the two nearest reads back as the same double. *)
Definition digits_at (m : positive) (e p n : Z) : option (Z * Z) :=
  let '(num, den) := if 0 <=? e then (Zpos m * 2 ^ e, 1) else (Zpos m, 2 ^ (- e)) in
  let k := p - (n - 1) in
  let '(sn, sd) := if 0 <=? k then (num, den * 10 ^ k) else (num * 10 ^ (- k), den) in
  let dlo := sn / sd in
  let back d := float_same (float_of_decimal false d k) (S754_finite false m e) in
  match back dlo, back (dlo + 1) with
  | true, true =>
      Some (match 2 * (sn mod sd) ?= sd with
            | Lt => dlo
            | Gt => dlo + 1
            | Eq => if Z.even dlo then dlo else dlo + 1
            end, k)
  | true, false => Some (dlo, k)
  | false, true => Some (dlo + 1, k)
  | false, false => None
  end.

Fixpoint shortest_digits (m : positive) (e p : Z) (lens : list Z) : Z * Z :=
  match lens with
  | [] => (Zpos m, e)
  | n :: r =>
      match digits_at m e p n with
      | Some dk => dk
      | None => shortest_digits m e p r
      end
  end.

Fixpoint strip_zeros_rev (s : list Z) : list Z :=
  match s with
  | c :: r => if c =? 48 then strip_zeros_rev r else s
  | [] => []
  end.

(** The digits [ds] with the decimal point after [decpt] of them. *)
Definition layout_repr (ds : list Z) (decpt : Z) : list Z :=
  if (decpt <=? -4) || (16 <? decpt) then
    let ex := decpt - 1 in
    let exs := str_of_int (Z.abs ex) in
    firstn 1 ds ++ (match skipn 1 ds with [] => [] | r => u "." ++ r end)
      ++ u "e" ++ (if ex <? 0 then u "-" else u "+")
      ++ replicate (2 - length exs)%nat 48 ++ exs
  else if decpt <=? 0 then
    u "0." ++ replicate (Z.to_nat (- decpt)) 48 ++ ds
  else if Z.of_nat (length ds) <=? decpt then
    ds ++ replicate (Z.to_nat decpt - length ds)%nat 48 ++ u ".0"
  else firstn (Z.to_nat decpt) ds ++ u "." ++ skipn (Z.to_nat decpt) ds.

Definition float_repr (f : spec_float) : list Z :=
  match f with
  | S754_nan => u "nan"
  | S754_infinity s => if s then u "-inf" else u "inf"
  | S754_zero s => if s then u "-0.0" else u "0.0"
  | S754_finite s m e =>
      let p := if 0 <=? e then log10_floor (Zpos m * 2 ^ e) 1
               else log10_floor (Zpos m) (2 ^ (- e)) in
      let '(d, k) := shortest_digits m e p (map Z.of_nat (seq 1 17)) in
      let all := str_of_int d in
      (if s then u "-" else [])
        ++ layout_repr (rev (strip_zeros_rev (rev all))) (Z.of_nat (length all) + k)
  end.

(** *** Values of a row: [None], int, float or str *)

Inductive value :=
| VNone
| VInt (n : Z)
| VFloat (f : spec_float)
| VStr (s : list Z).

(** [str(v)], the text an f-string puts for [{v}] *)
Definition py_str (v : value) : list Z :=
  match v with
  | VNone => u "None"
  | VInt n => str_of_int n
  | VFloat f => float_repr f
  | VStr s => s
  end.

Definition type_name (v : value) : list Z :=
  match v with
  | VNone => u "NoneType"
  | VInt _ => u "int"
  | VFloat _ => u "float"
  | VStr _ => u "str"
  end.

(** [str(type(v))] *)
Definition type_repr (v : value) : list Z := u "<class '" ++ type_name v ++ u "'>".

(** Truth value of [v], as [not v] tests it. *)
Definition truthy (v : value) : bool :=
  match v with
  | VNone => false
  | VInt n => negb (n =? 0)
  | VFloat (S754_zero _) => false
  | VFloat _ => true
  | VStr s => negb (bool_decide (s = []))
  end.

End Py.

(** ** [pathlib] paths, POSIX flavour ([os.sep] is ["/"]) *)

Module Path.

Definition sep : Z := 47.

Record t := mk { root : list Z; parts : list (list Z) }.

Definition keep_part (p : list Z) : bool :=
  negb (bool_decide (p = [])) && negb (bool_decide (p = [46])).

(** [Path(s)]: the root is ["/"], or ["//"] for exactly two leading slashes;
    empty and ["."] components are dropped. *)
Definition of_str (s : list Z) : t :=
  {| root := match s with
             | 47 :: 47 :: 47 :: _ => [47]
             | 47 :: 47 :: _ => [47; 47]
             | 47 :: _ => [47]
             | _ => []
             end;
     parts := List.filter keep_part (Py.split sep s) |}.

(** [str(p)] *)
Definition to_str (p : t) : list Z :=
  match root p, parts p with
  | [], [] => [46]
  | r, ps => r ++ Py.join [sep] ps
  end.

(** [p / s] *)
Definition join (p : t) (s : list Z) : t :=
  let q := of_str s in
  match root q with
  | [] => {| root := root p; parts := parts p ++ parts q |}
  | _ => q
  end.

(** [p.name] *)
Definition name (p : t) : list Z := List.last (parts p) [].

(** [p.parent] *)
Definition parent (p : t) : t :=
  {| root := root p; parts := removelast (parts p) |}.

(** Index of the last ["."] of a name, [None] when there is none. *)
Fixpoint rfind_dot (s : list Z) : option nat :=
  match s with
  | [] => None
  | c :: r =>
      match rfind_dot r with
      | Some i => Some (S i)
      | None => if c =? 46 then Some O else None
      end
  end.

(** Where the suffix of a name starts: a dot that is neither its first nor
    its last character. *)
Definition suffix_at (n : list Z) : option nat :=
  match rfind_dot n with
  | Some i => if (0 <? i)%nat && (i <? length n - 1)%nat then Some i else None
  | None => None
  end.

(** [p.suffix] and [p.stem] *)
Definition suffix (p : t) : list Z :=
  match suffix_at (name p) with
  | Some i => skipn i (name p)
  | None => []
  end.

Definition stem (p : t) : list Z :=
  match suffix_at (name p) with
  | Some i => firstn i (name p)
  | None => name p
  end.

Definition replace_name (p : t) (n : list Z) : t :=
  {| root := root p; parts := removelast (parts p) ++ [n] |}.

(** [p.with_name(n)] *)
Definition with_name (p : t) (n : list Z) : Py.result t :=
  if bool_decide (name p = []) then
    Py.Raise Py.ValueError (to_str p ++ u " has an empty name")
  else if bool_decide (n = []) || Py.contains sep n || bool_decide (n = [46]) then
    Py.Raise Py.ValueError (u "Invalid name " ++ n)
  else Py.Ok (replace_name p n).

(** [p.with_suffix(s)] *)
Definition with_suffix (p : t) (s : list Z) : Py.result t :=
  if Py.contains sep s
     || (negb (bool_decide (s = [])) && negb (bool_decide (hd 0 s = 46)))
     || bool_decide (s = [46])
  then Py.Raise Py.ValueError (u "Invalid suffix " ++ s)
  else if bool_decide (name p = []) then
    Py.Raise Py.ValueError (to_str p ++ u " has an empty name")
  else Py.Ok (replace_name p (stem p ++ s)).

(** [p.with_stem(s)] *)
Definition with_stem (p : t) (s : list Z) : Py.result t :=
  with_name p (s ++ suffix p).



End Path.

(** ** Unicode data *)

Module Unicode.

(** The ranges of code points on which [str.isalnum] holds (CPython 3.11,
    Unicode 14.0.0): letters, decimal digits and other numeric characters. *)
Definition alnum_ranges : list (Z * Z) :=
  [(48, 57); (65, 90); (97, 122); (170, 170); (178, 179); (181, 181);
   (185, 186); (188, 190); (192, 214); (216, 246); (248, 705); (710, 721);
   (736, 740); (748, 748); (750, 750); (880, 884); (886, 887); (890, 893);
   (895, 895); (902, 902); (904, 906); (908, 908); (910, 929); (931, 1013);
   (1015, 1153); (1162, 1327); (1329, 1366); (1369, 1369); (1376, 1416);
   (1488, 1514); (1519, 1522); (1568, 1610); (1632, 1641); (1646, 1647);
   (1649, 1747); (1749, 1749); (1765, 1766); (1774, 1788); (1791, 1791);
   (1808, 1808); (1810, 1839); (1869, 1957); (1969, 1969); (1984, 2026);
   (2036, 2037); (2042, 2042); (2048, 2069); (2074, 2074); (2084, 2084);
   (2088, 2088); (2112, 2136); (2144, 2154); (2160, 2183); (2185, 2190);
   (2208, 2249); (2308, 2361); (2365, 2365); (2384, 2384); (2392, 2401);
   (2406, 2415); (2417, 2432); (2437, 2444); (2447, 2448); (2451, 2472);
   (2474, 2480); (2482, 2482); (2486, 2489); (2493, 2493); (2510, 2510);
   (2524, 2525); (2527, 2529); (2534, 2545); (2548, 2553); (2556, 2556);
   (2565, 2570); (2575, 2576); (2579, 2600); (2602, 2608); (2610, 2611);
   (2613, 2614); (2616, 2617); (2649, 2652); (2654, 2654); (2662, 2671);
   (2674, 2676); (2693, 2701); (2703, 2705); (2707, 2728); (2730, 2736);
   (2738, 2739); (2741, 2745); (2749, 2749); (2768, 2768); (2784, 2785);
   (2790, 2799); (2809, 2809); (2821, 2828); (2831, 2832); (2835, 2856);
   (2858, 2864); (2866, 2867); (2869, 2873); (2877, 2877); (2908, 2909);
   (2911, 2913); (2918, 2927); (2929, 2935); (2947, 2947); (2949, 2954);
   (2958, 2960); (2962, 2965); (2969, 2970); (2972, 2972); (2974, 2975);
   (2979, 2980); (2984, 2986); (2990, 3001); (3024, 3024); (3046, 3058);
   (3077, 3084); (3086, 3088); (3090, 3112); (3114, 3129); (3133, 3133);
   (3160, 3162); (3165, 3165); (3168, 3169); (3174, 3183); (3192, 3198);
   (3200, 3200); (3205, 3212); (3214, 3216); (3218, 3240); (3242, 3251);
   (3253, 3257); (3261, 3261); (3293, 3294); (3296, 3297); (3302, 3311);
   (3313, 3314); (3332, 3340); (3342, 3344); (3346, 3386); (3389, 3389);
   (3406, 3406); (3412, 3414); (3416, 3425); (3430, 3448); (3450, 3455);
   (3461, 3478); (3482, 3505); (3507, 3515); (3517, 3517); (3520, 3526);
   (3558, 3567); (3585, 3632); (3634, 3635); (3648, 3654); (3664, 3673);
   (3713, 3714); (3716, 3716); (3718, 3722); (3724, 3747); (3749, 3749);
   (3751, 3760); (3762, 3763); (3773, 3773); (3776, 3780); (3782, 3782);
   (3792, 3801); (3804, 3807); (3840, 3840); (3872, 3891); (3904, 3911);
   (3913, 3948); (3976, 3980); (4096, 4138); (4159, 4169); (4176, 4181);
   (4186, 4189); (4193, 4193); (4197, 4198); (4206, 4208); (4213, 4225);
   (4238, 4238); (4240, 4249); (4256, 4293); (4295, 4295); (4301, 4301);
   (4304, 4346); (4348, 4680); (4682, 4685); (4688, 4694); (4696, 4696);
   (4698, 4701); (4704, 4744); (4746, 4749); (4752, 4784); (4786, 4789);
   (4792, 4798); (4800, 4800); (4802, 4805); (4808, 4822); (4824, 4880);
   (4882, 4885); (4888, 4954); (4969, 4988); (4992, 5007); (5024, 5109);
   (5112, 5117); (5121, 5740); (5743, 5759); (5761, 5786); (5792, 5866);
   (5870, 5880); (5888, 5905); (5919, 5937); (5952, 5969); (5984, 5996);
   (5998, 6000); (6016, 6067); (6103, 6103); (6108, 6108); (6112, 6121);
   (6128, 6137); (6160, 6169); (6176, 6264); (6272, 6276); (6279, 6312);
   (6314, 6314); (6320, 6389); (6400, 6430); (6470, 6509); (6512, 6516);
   (6528, 6571); (6576, 6601); (6608, 6618); (6656, 6678); (6688, 6740);
   (6784, 6793); (6800, 6809); (6823, 6823); (6917, 6963); (6981, 6988);
   (6992, 7001); (7043, 7072); (7086, 7141); (7168, 7203); (7232, 7241);
   (7245, 7293); (7296, 7304); (7312, 7354); (7357, 7359); (7401, 7404);
   (7406, 7411); (7413, 7414); (7418, 7418); (7424, 7615); (7680, 7957);
   (7960, 7965); (7968, 8005); (8008, 8013); (8016, 8023); (8025, 8025);
   (8027, 8027); (8029, 8029); (8031, 8061); (8064, 8116); (8118, 8124);
   (8126, 8126); (8130, 8132); (8134, 8140); (8144, 8147); (8150, 8155);
   (8160, 8172); (8178, 8180); (8182, 8188); (8304, 8305); (8308, 8313);
   (8319, 8329); (8336, 8348); (8450, 8450); (8455, 8455); (8458, 8467);
   (8469, 8469); (8473, 8477); (8484, 8484); (8486, 8486); (8488, 8488);
   (8490, 8493); (8495, 8505); (8508, 8511); (8517, 8521); (8526, 8526);
   (8528, 8585); (9312, 9371); (9450, 9471); (10102, 10131); (11264, 11492);
   (11499, 11502); (11506, 11507); (11517, 11517); (11520, 11557);
   (11559, 11559); (11565, 11565); (11568, 11623); (11631, 11631);
   (11648, 11670); (11680, 11686); (11688, 11694); (11696, 11702);
   (11704, 11710); (11712, 11718); (11720, 11726); (11728, 11734);
   (11736, 11742); (11823, 11823); (12293, 12295); (12321, 12329);
   (12337, 12341); (12344, 12348); (12353, 12438); (12445, 12447);
   (12449, 12538); (12540, 12543); (12549, 12591); (12593, 12686);
   (12690, 12693); (12704, 12735); (12784, 12799); (12832, 12841);
   (12872, 12879); (12881, 12895); (12928, 12937); (12977, 12991);
   (13312, 19903); (19968, 42124); (42192, 42237); (42240, 42508);
   (42512, 42539); (42560, 42606); (42623, 42653); (42656, 42735);
   (42775, 42783); (42786, 42888); (42891, 42954); (42960, 42961);
   (42963, 42963); (42965, 42969); (42994, 43009); (43011, 43013);
   (43015, 43018); (43020, 43042); (43056, 43061); (43072, 43123);
   (43138, 43187); (43216, 43225); (43250, 43255); (43259, 43259);
   (43261, 43262); (43264, 43301); (43312, 43334); (43360, 43388);
   (43396, 43442); (43471, 43481); (43488, 43492); (43494, 43518);
   (43520, 43560); (43584, 43586); (43588, 43595); (43600, 43609);
   (43616, 43638); (43642, 43642); (43646, 43695); (43697, 43697);
   (43701, 43702); (43705, 43709); (43712, 43712); (43714, 43714);
   (43739, 43741); (43744, 43754); (43762, 43764); (43777, 43782);
   (43785, 43790); (43793, 43798); (43808, 43814); (43816, 43822);
   (43824, 43866); (43868, 43881); (43888, 44002); (44016, 44025);
   (44032, 55203); (55216, 55238); (55243, 55291); (63744, 64109);
   (64112, 64217); (64256, 64262); (64275, 64279); (64285, 64285);
   (64287, 64296); (64298, 64310); (64312, 64316); (64318, 64318);
   (64320, 64321); (64323, 64324); (64326, 64433); (64467, 64829);
   (64848, 64911); (64914, 64967); (65008, 65019); (65136, 65140);
   (65142, 65276); (65296, 65305); (65313, 65338); (65345, 65370);
   (65382, 65470); (65474, 65479); (65482, 65487); (65490, 65495);
   (65498, 65500); (65536, 65547); (65549, 65574); (65576, 65594);
   (65596, 65597); (65599, 65613); (65616, 65629); (65664, 65786);
   (65799, 65843); (65856, 65912); (65930, 65931); (66176, 66204);
   (66208, 66256); (66273, 66299); (66304, 66339); (66349, 66378);
   (66384, 66421); (66432, 66461); (66464, 66499); (66504, 66511);
   (66513, 66517); (66560, 66717); (66720, 66729); (66736, 66771);
   (66776, 66811); (66816, 66855); (66864, 66915); (66928, 66938);
   (66940, 66954); (66956, 66962); (66964, 66965); (66967, 66977);
   (66979, 66993); (66995, 67001); (67003, 67004); (67072, 67382);
   (67392, 67413); (67424, 67431); (67456, 67461); (67463, 67504);
   (67506, 67514); (67584, 67589); (67592, 67592); (67594, 67637);
   (67639, 67640); (67644, 67644); (67647, 67669); (67672, 67702);
   (67705, 67742); (67751, 67759); (67808, 67826); (67828, 67829);
   (67835, 67867); (67872, 67897); (67968, 68023); (68028, 68047);
   (68050, 68096); (68112, 68115); (68117, 68119); (68121, 68149);
   (68160, 68168); (68192, 68222); (68224, 68255); (68288, 68295);
   (68297, 68324); (68331, 68335); (68352, 68405); (68416, 68437);
   (68440, 68466); (68472, 68497); (68521, 68527); (68608, 68680);
   (68736, 68786); (68800, 68850); (68858, 68899); (68912, 68921);
   (69216, 69246); (69248, 69289); (69296, 69297); (69376, 69415);
   (69424, 69445); (69457, 69460); (69488, 69505); (69552, 69579);
   (69600, 69622); (69635, 69687); (69714, 69743); (69745, 69746);
   (69749, 69749); (69763, 69807); (69840, 69864); (69872, 69881);
   (69891, 69926); (69942, 69951); (69956, 69956); (69959, 69959);
   (69968, 70002); (70006, 70006); (70019, 70066); (70081, 70084);
   (70096, 70106); (70108, 70108); (70113, 70132); (70144, 70161);
   (70163, 70187); (70272, 70278); (70280, 70280); (70282, 70285);
   (70287, 70301); (70303, 70312); (70320, 70366); (70384, 70393);
   (70405, 70412); (70415, 70416); (70419, 70440); (70442, 70448);
   (70450, 70451); (70453, 70457); (70461, 70461); (70480, 70480);
   (70493, 70497); (70656, 70708); (70727, 70730); (70736, 70745);
   (70751, 70753); (70784, 70831); (70852, 70853); (70855, 70855);
   (70864, 70873); (71040, 71086); (71128, 71131); (71168, 71215);
   (71236, 71236); (71248, 71257); (71296, 71338); (71352, 71352);
   (71360, 71369); (71424, 71450); (71472, 71483); (71488, 71494);
   (71680, 71723); (71840, 71922); (71935, 71942); (71945, 71945);
   (71948, 71955); (71957, 71958); (71960, 71983); (71999, 71999);
   (72001, 72001); (72016, 72025); (72096, 72103); (72106, 72144);
   (72161, 72161); (72163, 72163); (72192, 72192); (72203, 72242);
   (72250, 72250); (72272, 72272); (72284, 72329); (72349, 72349);
   (72368, 72440); (72704, 72712); (72714, 72750); (72768, 72768);
   (72784, 72812); (72818, 72847); (72960, 72966); (72968, 72969);
   (72971, 73008); (73030, 73030); (73040, 73049); (73056, 73061);
   (73063, 73064); (73066, 73097); (73112, 73112); (73120, 73129);
   (73440, 73458); (73648, 73648); (73664, 73684); (73728, 74649);
   (74752, 74862); (74880, 75075); (77712, 77808); (77824, 78894);
   (82944, 83526); (92160, 92728); (92736, 92766); (92768, 92777);
   (92784, 92862); (92864, 92873); (92880, 92909); (92928, 92975);
   (92992, 92995); (93008, 93017); (93019, 93025); (93027, 93047);
   (93053, 93071); (93760, 93846); (93952, 94026); (94032, 94032);
   (94099, 94111); (94176, 94177); (94179, 94179); (94208, 100343);
   (100352, 101589); (101632, 101640); (110576, 110579); (110581, 110587);
   (110589, 110590); (110592, 110882); (110928, 110930); (110948, 110951);
   (110960, 111355); (113664, 113770); (113776, 113788); (113792, 113800);
   (113808, 113817); (119520, 119539); (119648, 119672); (119808, 119892);
   (119894, 119964); (119966, 119967); (119970, 119970); (119973, 119974);
   (119977, 119980); (119982, 119993); (119995, 119995); (119997, 120003);
   (120005, 120069); (120071, 120074); (120077, 120084); (120086, 120092);
   (120094, 120121); (120123, 120126); (120128, 120132); (120134, 120134);
   (120138, 120144); (120146, 120485); (120488, 120512); (120514, 120538);
   (120540, 120570); (120572, 120596); (120598, 120628); (120630, 120654);
   (120656, 120686); (120688, 120712); (120714, 120744); (120746, 120770);
   (120772, 120779); (120782, 120831); (122624, 122654); (123136, 123180);
   (123191, 123197); (123200, 123209); (123214, 123214); (123536, 123565);
   (123584, 123627); (123632, 123641); (124896, 124902); (124904, 124907);
   (124909, 124910); (124912, 124926); (124928, 125124); (125127, 125135);
   (125184, 125251); (125259, 125259); (125264, 125273); (126065, 126123);
   (126125, 126127); (126129, 126132); (126209, 126253); (126255, 126269);
   (126464, 126467); (126469, 126495); (126497, 126498); (126500, 126500);
   (126503, 126503); (126505, 126514); (126516, 126519); (126521, 126521);
   (126523, 126523); (126530, 126530); (126535, 126535); (126537, 126537);
   (126539, 126539); (126541, 126543); (126545, 126546); (126548, 126548);
   (126551, 126551); (126553, 126553); (126555, 126555); (126557, 126557);
   (126559, 126559); (126561, 126562); (126564, 126564); (126567, 126570);
   (126572, 126578); (126580, 126583); (126585, 126588); (126590, 126590);
   (126592, 126601); (126603, 126619); (126625, 126627); (126629, 126633);
   (126635, 126651); (127232, 127244); (130032, 130041); (131072, 173791);
   (173824, 177976); (177984, 178205); (178208, 183969); (183984, 191456);
   (194560, 195101); (196608, 201546)].

(** [c.isalnum()] on one character *)
Definition isalnum (c : Z) : bool :=
  existsb (fun r => (fst r <=? c) && (c <=? snd r)) alnum_ranges.

End Unicode.

(** ** The world outside the program *)

Module World.

(** What the program did to the outside, oldest first. *)
Inductive event :=
| EvUnlink (path : list Z)
| EvLoad (source : list Z) (offset : Py.num) (duration : spec_float)
| EvWrite (path : list Z)
| EvRender (audio out : list Z)
| EvUpdate (id : Z) (audio_path spectrogram_path : option (list Z)).

Record t := mk {
  (** the files that exist; [true] marks a file another process holds open,
      whose [unlink] raises [PermissionError] *)
  files : gmap (list Z) bool;
  (** the coming readings of [int(time.time())] *)
  clock : list Z;
  (** table [bird_detections]: primary key [id] to the other columns;
      [None] when sqlite cannot open or query it *)
  table : option (gmap Z (gmap string Py.value));
  (** [project_root.rglob(pattern)], by pattern *)
  rglob : list Z -> Py.result (list (list Z));
  (** the error of [mkdir(parents=True, exist_ok=True)], by directory *)
  mkdir_error : list Z -> option (Py.exn_kind * list Z);
  (** the error of [librosa.load(path, sr=None, offset=, duration=, mono=True)] *)
  load_error : list Z -> Py.num -> spec_float -> option (Py.exn_kind * list Z);
  (** the error of [soundfile.write(path, y, sr)] *)
  write_error : list Z -> option (Py.exn_kind * list Z);
  (** whether computing and saving the mel spectrogram of [audio] to [out] works *)
  render_ok : list Z -> list Z -> bool;
  trace : list event
}.

Definition set_files (w : t) (f : gmap (list Z) bool) : t :=
  mk f (clock w) (table w) (rglob w) (mkdir_error w) (load_error w)
     (write_error w) (render_ok w) (trace w).

Definition set_clock (w : t) (c : list Z) : t :=
  mk (files w) c (table w) (rglob w) (mkdir_error w) (load_error w)
     (write_error w) (render_ok w) (trace w).

Definition set_table (w : t) (tb : option (gmap Z (gmap string Py.value))) : t :=
  mk (files w) (clock w) tb (rglob w) (mkdir_error w) (load_error w)
     (write_error w) (render_ok w) (trace w).

Definition log (w : t) (e : event) : t :=
  mk (files w) (clock w) (table w) (rglob w) (mkdir_error w) (load_error w)
     (write_error w) (render_ok w) (trace w ++ [e]).

(** [Path(p).exists()] *)
Definition exists_ (w : t) (p : Path.t) : bool :=
  bool_decide (is_Some (files w !! Path.to_str p)).

(** [Path(p).unlink()] of an existing file *)
Definition unlink (w : t) (p : Path.t) : t * Py.result unit :=
  match files w !! Path.to_str p with
  | Some true =>
      (w, Py.Raise Py.PermissionError (u "[WinError 32] " ++ Path.to_str p))
  | Some false =>
      (log (set_files w (delete (Path.to_str p) (files w))) (EvUnlink (Path.to_str p)),
       Py.Ok tt)
  | None => (w, Py.Raise Py.OSError (u "[Errno 2] " ++ Path.to_str p))
  end.

(** [int(time.time())] *)
Definition time (w : t) : t * Z :=
  match clock w with
  | c :: r => (set_clock w r, c)
  | [] => (w, 0)
  end.

(** [p.mkdir(parents=True, exist_ok=True)] *)
Definition mkdir (w : t) (p : Path.t) : Py.result unit :=
  match mkdir_error w (Path.to_str p) with
  | Some (k, m) => Py.Raise k m
  | None => Py.Ok tt
  end.

(** [librosa.load] of the slice, then [soundfile.write] of it to [out] *)
Definition load (w : t) (source : list Z) (offset : Py.num) (duration : spec_float)
  : t * Py.result unit :=
  let w1 := log w (EvLoad source offset duration) in
  match load_error w source offset duration with
  | Some (k, m) => (w1, Py.Raise k m)
  | None => (w1, Py.Ok tt)
  end.

Definition write (w : t) (out : list Z) : t * Py.result unit :=
  match write_error w out with
  | Some (k, m) => (w, Py.Raise k m)
  | None =>
      (log (set_files w (<[out := default false (files w !! out)]> (files w)))
           (EvWrite out),
       Py.Ok tt)
  end.

End World.

(** ** file_manager.py *)

Module AudioFileManager.

Import Py.

Record t := mk { project_root : Path.t }.

(** [AudioFileManager(project_root)] *)
Definition init (project_root : list Z) : t := mk (Path.of_str project_root).

Definition database_dir (self : t) : Path.t :=
  Path.join (project_root self) (u "database").
Definition audio_segments_dir (self : t) : Path.t :=
  Path.join (database_dir self) (u "audio_segments").
Definition spectrograms_dir (self : t) : Path.t :=
  Path.join (database_dir self) (u "spectrograms").
Definition source_audio_dir (self : t) : Path.t :=
  Path.join (database_dir self) (u "audio").

Definition audio_extensions : list (list Z) :=
  [u ".wav"; u ".mp3"; u ".flac"; u ".m4a"; u ".ogg"].

(** The first path of [candidates] that exists, as a string. *)
Fixpoint first_existing (w : World.t) (candidates : list Path.t) : option (list Z) :=
  match candidates with
  | [] => None
  | p :: r => if World.exists_ w p then Some (Path.to_str p) else first_existing w r
  end.

(** The last resort of [find_source_audio_file]: [rglob] over the project. *)
Fixpoint rglob_search (w : World.t) (stem : list Z) (exts : list (list Z))
  : result (option (list Z)) :=
  match exts with
  | [] => Ok None
  | ext :: r =>
      match World.rglob w (stem ++ ext) with
      | Raise k m => Raise k m
      | Ok found =>
          match first_existing w (map Path.of_str found) with
          | Some p => Ok (Some p)
          | None => rglob_search w stem r
          end
      end
  end.

Definition find_source_audio_file (self : t) (w : World.t) (filename_stem : value)
  : result (option (list Z)) :=
  let search_dirs :=
    [Path.join (source_audio_dir self) (u "completed");
     Path.join (source_audio_dir self) (u "inbox")] in
  let stem := py_str filename_stem in
  match first_existing w
          (flat_map (fun d => map (fun ext => Path.join d (stem ++ ext)) audio_extensions)
                    search_dirs) with
  | Some p => Ok (Some p)
  | None => rglob_search w stem audio_extensions
  end.

Definition safe_chars : list Z :=
  u "abcdefghijklmnopqrstuvwxyzABCDEFGHIJKLMNOPQRSTUVWXYZ0123456789_-".

Definition generate_session_directory_name (session_name : list Z) : list Z :=
  let safe_name := map (fun c => if contains c safe_chars then c else 95) session_name in
  if (100 <? length safe_name)%nat then firstn 100 safe_name else safe_name.


Definition resolve_relative_path (self : t) (relative_path : list Z) : list Z :=
  let normalized_path := replace 47 [Path.sep] relative_path in
  Path.to_str (Path.join (database_dir self) normalized_path).

(** [minutes * 60 + seconds] of exactly two parts that both read as ints;
    [None] when the attempt is given up. *)
Definition minutes_seconds (parts : list (list Z)) : option Z :=
  match parts with
  | [a; b] =>
      match int_of_str a with
      | Some minutes =>
          match int_of_str b with
          | Some seconds => Some (minutes * 60 + seconds)
          | None => None
          end
      | None => None
      end
  | _ => None
  end.

(** The three attempts of [_parse_time_value] on a stripped string. *)
Definition pattern_m_s (time_str : list Z) : option Z :=
  if contains 109 time_str && contains 115 time_str
  then minutes_seconds (split 109 (replace 115 [] time_str))
  else None.

Definition pattern_colon (time_str : list Z) : option Z :=
  if contains 58 time_str then minutes_seconds (split 58 time_str) else None.

Definition cannot_convert (time_value : value) : list Z :=
  u "時刻値を変換できません: " ++ py_str time_value
    ++ u " (型: " ++ type_repr time_value ++ u ")".

Definition _parse_time_value (time_value : value) : result num :=
  match time_value with
  | VInt n => bind (float_of_int n) (fun f => Ok (NFloat f))
  | VFloat f => Ok (NFloat f)
  | VStr s =>
      let time_str := strip s in
      match pattern_m_s time_str with
      | Some v => Ok (NInt v)
      | None =>
          match float_of_str time_str with
          | Some f => Ok (NFloat f)
          | None =>
              match pattern_colon time_str with
              | Some v => Ok (NInt v)
              | None => Raise ValueError (cannot_convert time_value)
              end
          end
      end
  | VNone => Raise ValueError (cannot_convert time_value)
  end.

Definition required_fields : list string :=
  ["filename"; "session_name"; "start_time_seconds"; "end_time_seconds"]%string.

(** [field not in detection_data or detection_data[field] is None] *)
Definition missing (detection_data : gmap string value) (field : string) : bool :=
  match detection_data !! field with
  | None | Some VNone => true
  | Some _ => false
  end.

(** [detection_data[key]] *)
Definition getitem (detection_data : gmap string value) (key : string) : result value :=
  match detection_data !! key with
  | Some v => Ok v
  | None => Raise KeyError (u "'" ++ u key ++ u "'")
  end.

(** The checks of the time range; the errors to append, or the exception
    that is not a [ValueError] and leaves the inner [try]. *)
Definition check_times (detection_data : gmap string value) : result (list (list Z)) :=
  match bind (getitem detection_data "start_time_seconds") _parse_time_value with
  | Raise ValueError m => Ok [u "時刻変換エラー: " ++ m]
  | Raise k m => Raise k m
  | Ok start_time =>
      match bind (getitem detection_data "end_time_seconds") _parse_time_value with
      | Raise ValueError m => Ok [u "時刻変換エラー: " ++ m]
      | Raise k m => Raise k m
      | Ok end_time =>
          Ok ((if num_ltb start_time (NInt 0) then [u "開始時刻が負の値です"] else [])
              ++ (if num_leb end_time start_time
                  then [u "終了時刻が開始時刻以前です"] else []))
      end
  end.

(** [not session_name or len(session_name.strip()) == 0] *)
Definition check_session (detection_data : gmap string value) : result (list (list Z)) :=
  bind (getitem detection_data "session_name") (fun session_name =>
    if negb (truthy session_name) then Ok [u "セッション名が空です"]
    else match session_name with
         | VStr s =>
             Ok (if (length (strip s) =? 0)%nat then [u "セッション名が空です"] else [])
         | v => Raise AttributeError
                  (u "'" ++ type_name v ++ u "' object has no attribute 'strip'")
         end).

Definition validate_file_paths (self : t) (w : World.t)
    (detection_data : gmap string value) : bool * list (list Z) :=
  let errors :=
    map (fun field => u "必須フィールドが不足: " ++ u field)
        (List.filter (missing detection_data) required_fields) in
  match errors with
  | _ :: _ => (false, errors)
  | [] =>
      let failed (errors : list (list Z)) (m : list Z) :=
        (false, errors ++ [u "検証エラー: " ++ m]) in
      match bind (getitem detection_data "filename")
                 (fun filename =>
                    bind (find_source_audio_file self w filename)
                         (fun found => Ok (filename, found))) with
      | Raise _ m => failed [] m
      | Ok (filename, source_audio) =>
          let e1 := match source_audio with
                    | None => [u "元音声ファイルが見つかりません: " ++ py_str filename]
                    | Some _ => []
                    end in
          match check_times detection_data with
          | Raise _ m => failed e1 m
          | Ok e2 =>
              match check_session detection_data with
              | Raise _ m => failed (e1 ++ e2) m
              | Ok e3 =>
                  ((length (e1 ++ e2 ++ e3) =? 0)%nat, e1 ++ e2 ++ e3)
              end
          end
      end
  end.

End AudioFileManager.

(** ** segment_generator.py *)

Module AudioSegmentGenerator.

Import Py.

Record t := mk { base_output_dir : Path.t }.

(** [AudioSegmentGenerator(base_output_dir)] *)
Definition init (base_output_dir : list Z) : t := mk (Path.of_str base_output_dir).

(** [self.context_seconds = 5.0] *)
Definition context_seconds : spec_float := Eval vm_compute in float_lit 5 0.

(** [c.isalnum() or c in "ー_-"] *)
Definition keep_char (c : Z) : bool := Unicode.isalnum c || contains c (u "ー_-").

(** [format(confidence, ".2f")] on a value *)
Definition format_confidence (confidence : value) : result (list Z) :=
  match confidence with
  | VFloat f => Ok (format_2f f)
  | VInt n => bind (float_of_int n) (fun f => Ok (format_2f f))
  | VStr _ => Raise ValueError (u "Unknown format code 'f' for object of type 'str'")
  | VNone => Raise TypeError (u "unsupported format string passed to NoneType.__format__")
  end.

(** The characters of [species_name] that are kept. *)
Definition safe_species (species_name : value) : result (list Z) :=
  match species_name with
  | VStr s => Ok (List.filter keep_char s)
  | v => Raise TypeError (u "'" ++ type_name v ++ u "' object is not iterable")
  end.

Definition _generate_filename (detection_id : Z) (species_name confidence : value)
  : result (list Z) :=
  bind (safe_species species_name) (fun safe =>
  bind (format_confidence confidence) (fun conf =>
  Ok (u "detection_" ++ format_03d detection_id ++ u "_" ++ safe ++ u "_" ++ conf
        ++ u ".wav"))).

(** The slice to decode: [segment_start] and [segment_duration]. *)
Definition segment_window (start_time end_time : num) : result (num * spec_float) :=
  bind (to_float start_time) (fun s =>
    let padded := NFloat (fsub s context_seconds) in
    let segment_start := if num_gtb padded (NInt 0) then padded else NInt 0 in
    bind (to_float end_time) (fun e =>
    bind (to_float segment_start) (fun s0 =>
    Ok (segment_start, fsub (fadd e context_seconds) s0)))).

(** Where the segment goes when [wav_output] may already exist. *)
Definition choose_output (w : World.t) (wav_output : Path.t) : World.t * result Path.t :=
  if World.exists_ w wav_output then
    match World.unlink w wav_output with
    | (w1, Ok _) => (w1, Ok wav_output)
    | (w1, Raise PermissionError _) =>
        let '(w2, timestamp) := World.time w1 in
        (w2, Path.with_stem wav_output
               (Path.stem wav_output ++ u "_" ++ str_of_int timestamp))
    | (w1, Raise k m) => (w1, Raise k m)
    end
  else (w, Ok wav_output).

Definition _extract_segment_librosa (self : t) (w : World.t)
    (source_path output_path : Path.t) (start_time end_time : num)
  : World.t * (bool * Path.t) :=
  match segment_window start_time end_time with
  | Raise _ _ => (w, (false, output_path))
  | Ok (segment_start, segment_duration) =>
      match Path.with_suffix output_path (u ".wav") with
      | Raise _ _ => (w, (false, output_path))
      | Ok wav_output0 =>
          match choose_output w wav_output0 with
          | (w1, Raise _ _) => (w1, (false, output_path))
          | (w1, Ok wav_output) =>
              match World.load w1 (Path.to_str source_path)
                               segment_start segment_duration with
              | (w2, Raise _ _) => (w2, (false, output_path))
              | (w2, Ok _) =>
                  match World.write w2 (Path.to_str wav_output) with
                  | (w3, Raise _ _) => (w3, (false, output_path))
                  | (w3, Ok _) => (w3, (true, wav_output))
                  end
              end
          end
      end
  end.

Definition generate_segment (self : t) (w : World.t) (source_audio_path : list Z)
    (start_time end_time : num) (session_name : list Z) (detection_id : Z)
    (species_name confidence : value)
  : World.t * (bool * list Z * option (list Z)) :=
  let raised (m : list Z) :=
    (w, (false, [], Some (u "音声セグメント生成エラー: " ++ m))) in
  let source_path := Path.of_str source_audio_path in
  if negb (World.exists_ w source_path) then
    (w, (false, [],
         Some (u "元音声ファイルが見つかりません: " ++ Path.to_str source_path)))
  else
    let session_dir := Path.join (base_output_dir self) session_name in
    match World.mkdir w session_dir with
    | Raise _ m => raised m
    | Ok _ =>
        match _generate_filename detection_id species_name confidence with
        | Raise _ m => raised m
        | Ok output_filename =>
            let output_path := Path.join session_dir output_filename in
            let '(w1, (success, actual_output_path)) :=
              _extract_segment_librosa self w source_path output_path
                                       start_time end_time in
            if success then
              let actual_filename := Path.name actual_output_path in
              let relative_path :=
                u "audio_segments/" ++ session_name ++ u "/" ++ actual_filename in
              (w1, (true, relative_path, None))
            else (w1, (false, [], Some (u "音声セグメント生成に失敗")))
        end
    end.

End AudioSegmentGenerator.

(** ** spectrogram_generator.py *)

Module SpectrogramGenerator.

Import Py.

Record t := mk { base_output_dir : Path.t }.

Definition init (base_output_dir : list Z) : t := mk (Path.of_str base_output_dir).

Definition _generate_filename (detection_id : Z) (species_name confidence : value)
  : result (list Z) :=
  bind (AudioSegmentGenerator.safe_species species_name) (fun safe =>
  bind (AudioSegmentGenerator.format_confidence confidence) (fun conf =>
  Ok (u "detection_" ++ format_03d detection_id ++ u "_" ++ safe ++ u "_" ++ conf
        ++ u ".png"))).

(** Loading the segment, computing the mel spectrogram and saving the image. *)
Definition _create_melspectrogram (w : World.t) (audio_path output_path : Path.t)
  : World.t * bool :=
  if World.render_ok w (Path.to_str audio_path) (Path.to_str output_path) then
    let out := Path.to_str output_path in
    (World.log (World.set_files w (<[out := default false (World.files w !! out)]>
                                     (World.files w)))
               (World.EvRender (Path.to_str audio_path) out),
     true)
  else (w, false).

Definition generate_spectrogram (self : t) (w : World.t) (audio_segment_path : list Z)
    (session_name : list Z) (detection_id : Z) (species_name confidence : value)
  : World.t * (bool * list Z * option (list Z)) :=
  let raised (m : list Z) :=
    (w, (false, [], Some (u "スペクトログラム生成エラー: " ++ m))) in
  let segment_path := Path.of_str audio_segment_path in
  if negb (World.exists_ w segment_path) then
    (w, (false, [],
         Some (u "音声セグメントファイルが見つかりません: " ++ Path.to_str segment_path)))
  else
    let session_dir := Path.join (base_output_dir self) session_name in
    match World.mkdir w session_dir with
    | Raise _ m => raised m
    | Ok _ =>
        match _generate_filename detection_id species_name confidence with
        | Raise _ m => raised m
        | Ok output_filename =>
            let output_path := Path.join session_dir output_filename in
            let '(w1, success) := _create_melspectrogram w segment_path output_path in
            if success then
              (w1, (true,
                    u "spectrograms/" ++ session_name ++ u "/" ++ output_filename,
                    None))
            else (w1, (false, [], Some (u "スペクトログラム生成に失敗")))
        end
    end.

End SpectrogramGenerator.

(** ** processing_manager.py *)

Module ProcessingManager.

Import Py.

(** [self.stats] *)
Record stats_t := mk_stats {
  processed_count : Z;
  success_count : Z;
  audio_success : Z;
  spectrogram_success : Z;
  error_count : Z;
  errors : list (list Z);
  total_pending : option Z
}.

Definition fresh_stats : stats_t := mk_stats 0 0 0 0 0 [] None.

(** A detection as sqlite delivers it: the integer primary key and the
    other columns by name. *)
Record detection := mk_detection { id : Z; fields : gmap string value }.

Record t := mk { db_path : Path.t; enable_spectrogram : bool; stats : stats_t }.

(** [ProcessingManager(db_path, enable_spectrogram)] *)
Definition init (db_path : list Z) (enable_spectrogram : bool) : t :=
  mk (Path.of_str db_path) enable_spectrogram fresh_stats.

Definition database_root (self : t) : Path.t := Path.parent (db_path self).
Definition project_root (self : t) : Path.t := Path.parent (database_root self).

Definition segment_generator (self : t) : AudioSegmentGenerator.t :=
  AudioSegmentGenerator.init
    (Path.to_str (Path.join (database_root self) (u "audio_segments"))).

Definition spectrogram_generator (self : t) : option SpectrogramGenerator.t :=
  if enable_spectrogram self
  then Some (SpectrogramGenerator.init
               (Path.to_str (Path.join (database_root self) (u "spectrograms"))))
  else None.

Definition file_manager (self : t) : AudioFileManager.t :=
  AudioFileManager.init (Path.to_str (project_root self)).

Definition set_stats (self : t) (s : stats_t) : t :=
  mk (db_path self) (enable_spectrogram self) s.

(** [self.stats["processed_count"] += 1] and its like *)
Definition count_processed (self : t) : t :=
  let s := stats self in
  set_stats self (mk_stats (processed_count s + 1) (success_count s) (audio_success s)
                           (spectrogram_success s) (error_count s) (errors s)
                           (total_pending s)).

Definition count_success (self : t) : t :=
  let s := stats self in
  set_stats self (mk_stats (processed_count s) (success_count s + 1) (audio_success s)
                           (spectrogram_success s) (error_count s) (errors s)
                           (total_pending s)).

Definition count_audio (self : t) : t :=
  let s := stats self in
  set_stats self (mk_stats (processed_count s) (success_count s) (audio_success s + 1)
                           (spectrogram_success s) (error_count s) (errors s)
                           (total_pending s)).

Definition count_spectrogram (self : t) : t :=
  let s := stats self in
  set_stats self (mk_stats (processed_count s) (success_count s) (audio_success s)
                           (spectrogram_success s + 1) (error_count s) (errors s)
                           (total_pending s)).

(** [self.stats["error_count"] += 1; self.stats["errors"].append(error_msg)] *)
Definition record_error (self : t) (error_msg : list Z) : t :=
  let s := stats self in
  set_stats self (mk_stats (processed_count s) (success_count s) (audio_success s)
                           (spectrogram_success s) (error_count s + 1)
                           (errors s ++ [error_msg]) (total_pending s)).

(** [self.stats["errors"].append(error_msg)] alone *)
Definition append_error (self : t) (error_msg : list Z) : t :=
  let s := stats self in
  set_stats self (mk_stats (processed_count s) (success_count s) (audio_success s)
                           (spectrogram_success s) (error_count s)
                           (errors s ++ [error_msg]) (total_pending s)).

Definition set_total_pending (self : t) (n : Z) : t :=
  let s := stats self in
  set_stats self (mk_stats (processed_count s) (success_count s) (audio_success s)
                           (spectrogram_success s) (error_count s) (errors s) (Some n)).

(** The parameter sqlite binds for an optional path. *)
Definition column_of (path : option (list Z)) : value :=
  match path with
  | Some p => VStr p
  | None => VNone
  end.

(** [cursor.execute("UPDATE bird_detections SET audio_segment_path = ?,
    spectrogram_path = ? WHERE id = ?")] and [conn.commit()]: the new world
    and [cursor.rowcount], or the sqlite error. *)
Definition execute_update (w : World.t) (detection_id : Z)
    (audio_path spectrogram_path : option (list Z)) : World.t * result Z :=
  match World.table w with
  | None => (w, Raise OSError (u "unable to open database file"))
  | Some tb =>
      let w1 := World.log w (World.EvUpdate detection_id audio_path spectrogram_path) in
      match tb !! detection_id with
      | Some row =>
          (World.set_table w1
             (Some (<[detection_id :=
                        <["spectrogram_path"%string := column_of spectrogram_path]>
                          (<["audio_segment_path"%string := column_of audio_path]> row)]>
                      tb)),
           Ok 1)
      | None => (w1, Ok 0)
      end
  end.

Definition _update_detection_paths (self : t) (w : World.t) (detection_id : Z)
    (audio_path spectrogram_path : option (list Z)) : World.t * bool :=
  match execute_update w detection_id audio_path spectrogram_path with
  | (w1, Ok rowcount) => (w1, 0 <? rowcount)
  | (w1, Raise _ _) => (w1, false)
  end.

(** [id_tag 7] is the text ["(ID:7)"]. *)
Definition id_tag (detection_id : Z) : list Z :=
  u "(ID:" ++ str_of_int detection_id ++ u ")".

(** [str(b)] for a bool *)
Definition bool_str (b : bool) : list Z := if b then u "True" else u "False".

(** [generate_session_directory_name(detection['session_name'])] *)
Definition session_directory (d : detection) : result (list Z) :=
  bind (AudioFileManager.getitem (fields d) "session_name") (fun v =>
    match v with
    | VStr s => Ok (AudioFileManager.generate_session_directory_name s)
    | v => Raise TypeError (u "'" ++ type_name v ++ u "' object is not iterable")
    end).

(** The arguments of [generate_segment] that are read from the row. *)
Definition segment_arguments (d : detection) : result (num * num * value * value) :=
  bind (bind (AudioFileManager.getitem (fields d) "start_time_seconds")
             AudioFileManager._parse_time_value) (fun start_time =>
  bind (bind (AudioFileManager.getitem (fields d) "end_time_seconds")
             AudioFileManager._parse_time_value) (fun end_time =>
  let species_name := default (VStr (u "Unknown")) (fields d !! "common_name"%string) in
  bind (AudioFileManager.getitem (fields d) "confidence") (fun confidence =>
  Ok (start_time, end_time, species_name, confidence)))).

(** The spectrogram step: run only when enabled and the audio succeeded. *)
Definition spectrogram_step (self : t) (w : World.t) (audio_success : bool)
    (audio_rel_path session_dir_name : list Z) (detection_id : Z)
    (species_name confidence : value)
  : result (t * World.t * option (list Z)) :=
  if enable_spectrogram self && audio_success then
    match spectrogram_generator self with
    | None =>
        Raise AttributeError
              (u "'NoneType' object has no attribute 'generate_spectrogram'")
    | Some sg =>
        let audio_abs_path :=
          AudioFileManager.resolve_relative_path (file_manager self) audio_rel_path in
        let '(w1, (spec_success, spec_rel_path, _)) :=
          SpectrogramGenerator.generate_spectrogram sg w audio_abs_path
            session_dir_name detection_id species_name confidence in
        if spec_success then Ok (count_spectrogram self, w1, Some spec_rel_path)
        else Ok (self, w1, None)
    end
  else Ok (self, w, None).

Definition _process_single_detection (self : t) (w : World.t) (d : detection)
  : t * World.t * (bool * list Z) :=
  let detection_id := id d in
  let self := count_processed self in
  let fail (self : t) (w : World.t) (error_msg : list Z) :=
    (record_error self error_msg, w, (false, error_msg)) in
  let raised (self : t) (w : World.t) (m : list Z) :=
    fail self w (u "処理実行エラー " ++ id_tag detection_id ++ u ": " ++ m) in
  let '(is_valid, errs) :=
    AudioFileManager.validate_file_paths (file_manager self) w (fields d) in
  if negb is_valid then
    fail self w (u "検証エラー " ++ id_tag detection_id ++ u ": " ++ join (u "; ") errs)
  else
    match bind (AudioFileManager.getitem (fields d) "filename") (fun filename =>
          bind (AudioFileManager.find_source_audio_file (file_manager self) w filename)
               (fun found => Ok (filename, found))) with
    | Raise _ m => raised self w m
    | Ok (filename, None) =>
        fail self w (u "元音声ファイル未発見 " ++ id_tag detection_id ++ u ": "
                       ++ py_str filename)
    | Ok (_, Some source_audio_path) =>
        match bind (session_directory d) (fun dir =>
              bind (segment_arguments d) (fun args => Ok (dir, args))) with
        | Raise _ m => raised self w m
        | Ok (session_dir_name, (start_time, end_time, species_name, confidence)) =>
            let '(w1, (audio_success, audio_rel_path, _)) :=
              AudioSegmentGenerator.generate_segment (segment_generator self) w
                source_audio_path start_time end_time session_dir_name
                detection_id species_name confidence in
            let audio_path := if audio_success then Some audio_rel_path else None in
            let self1 := if audio_success then count_audio self else self in
            match spectrogram_step self1 w1 audio_success audio_rel_path
                    session_dir_name detection_id species_name confidence with
            | Raise _ m => raised self1 w1 m
            | Ok (self2, w2, spectrogram_path) =>
                let '(w3, update_success) :=
                  _update_detection_paths self2 w2 detection_id
                                          audio_path spectrogram_path in
                if update_success then
                  if audio_success then
                    (count_success self2, w3,
                     (true,
                      u "処理完了 " ++ id_tag detection_id ++ u " - 音声: "
                        ++ bool_str audio_success ++ u ", スペクトログラム: "
                        ++ bool_str (bool_decide (is_Some spectrogram_path))))
                  else
                    fail self2 w3 (u "音声セグメント生成失敗 " ++ id_tag detection_id)
                else fail self2 w3 (u "データベース更新失敗 " ++ id_tag detection_id)
            end
        end
    end.

(** *** The queries *)

(** [col IS NULL] *)
Definition is_null (row : gmap string value) (col : string) : bool :=
  match row !! col with
  | None | Some VNone => true
  | Some _ => false
  end.

Fixpoint str_compare (a b : list Z) : comparison :=
  match a, b with
  | [], [] => Eq
  | [], _ :: _ => Lt
  | _ :: _, [] => Gt
  | x :: a', y :: b' =>
      match x ?= y with
      | Eq => str_compare a' b'
      | c => c
      end
  end.

(** The order of sqlite on stored values: NULL, then numbers, then text. *)
Definition sqlite_compare (a b : value) : comparison :=
  match a, b with
  | VNone, VNone => Eq
  | VNone, _ => Lt
  | _, VNone => Gt
  | VStr x, VStr y => str_compare x y
  | VStr _, _ => Gt
  | _, VStr _ => Lt
  | VInt x, VInt y => x ?= y
  | VInt x, VFloat y => default Eq (num_compare (NInt x) (NFloat y))
  | VFloat x, VInt y => default Eq (num_compare (NFloat x) (NInt y))
  | VFloat x, VFloat y => default Eq (num_compare (NFloat x) (NFloat y))
  end.

Definition created_at (r : Z * gmap string value) : value :=
  default VNone (snd r !! "created_at"%string).

Fixpoint insert_row (r : Z * gmap string value) (l : list (Z * gmap string value))
  : list (Z * gmap string value) :=
  match l with
  | [] => [r]
  | x :: l' =>
      match sqlite_compare (created_at r) (created_at x) with
      | Gt => x :: insert_row r l'
      | _ => r :: l
      end
  end.

(** [ORDER BY created_at ASC] *)
Definition order_by_created_at (rows : list (Z * gmap string value))
  : list (Z * gmap string value) :=
  fold_right insert_row [] rows.

(** [SELECT * FROM bird_detections WHERE audio_segment_path IS NULL
    ORDER BY created_at ASC]; the empty list when sqlite fails. *)
Definition _get_pending_detections (self : t) (w : World.t) : list detection :=
  match World.table w with
  | None => []
  | Some tb =>
      map (fun r => mk_detection (fst r) (snd r))
          (order_by_created_at
             (List.filter (fun r => is_null (snd r) "audio_segment_path")
                          (map_to_list tb)))
  end.

(** [SELECT * FROM bird_detections WHERE id = ?] *)
Definition _get_detection_by_id (self : t) (w : World.t) (detection_id : Z)
  : option detection :=
  match World.table w with
  | None => None
  | Some tb => option_map (mk_detection detection_id) (tb !! detection_id)
  end.

(** *** The entry points *)

(** [range(0, stop, step)] for [step <> 0] *)
Definition py_range (stop step : Z) : list Z :=
  if step <? 0 then []
  else map (fun k => Z.of_nat k * step) (seq 0 (Z.to_nat ((stop + step - 1) / step))).

(** [l[i:j]] for [0 <= i] *)
Definition slice {A} (l : list A) (i j : Z) : list A :=
  firstn (Z.to_nat (j - i)) (skipn (Z.to_nat i) l).

(** [for detection in batch: self._process_single_detection(detection)] *)
Definition process_batch (self : t) (w : World.t) (batch : list detection)
  : t * World.t :=
  fold_left (fun st d => let '(self1, w1, _) := _process_single_detection (fst st) (snd st) d
                         in (self1, w1))
            batch (self, w).

Definition process_all_pending_detections (self : t) (w : World.t) (batch_size : Z)
  : t * World.t * stats_t :=
  let pending_detections := _get_pending_detections self w in
  let total_count := Z.of_nat (length pending_detections) in
  if total_count =? 0 then (self, w, stats self)
  else if batch_size =? 0 then
    let self1 := append_error self
                   (u "一括処理エラー: range() arg 3 must not be zero") in
    (self1, w, stats self1)
  else
    let '(self1, w1) :=
      fold_left (fun st i =>
                   process_batch (fst st) (snd st)
                                 (slice pending_detections i (i + batch_size)))
                (py_range total_count batch_size) (self, w) in
    let self2 := set_total_pending self1 total_count in
    (self2, w1, stats self2).

Definition process_single_detection (self : t) (w : World.t) (detection_id : Z)
  : t * World.t * (bool * list Z) :=
  match _get_detection_by_id self w detection_id with
  | None =>
      (self, w,
       (false, u "検出ID " ++ str_of_int detection_id ++ u " が見つかりません"))
  | Some d => _process_single_detection self w d
  end.

End ProcessingManager.

(** ** The vocabulary of the statements *)

Import Py.
Local Open Scope Z_scope.

(** The doubles the specification names. *)
Definition f626 : spec_float := Eval vm_compute in float_lit 626 0.
Definition f100 : spec_float := Eval vm_compute in float_lit 100 0.
Definition f102 : spec_float := Eval vm_compute in float_lit 102 0.
Definition f95 : spec_float := Eval vm_compute in float_lit 95 0.
Definition f107 : spec_float := Eval vm_compute in float_lit 107 0.
Definition f12 : spec_float := Eval vm_compute in float_lit 12 0.
Definition f0_873 : spec_float := Eval vm_compute in float_lit 873 (-3).

(** [max(0, x)] for a float [x]: [x] when [x > 0], the int [0] otherwise. *)
Definition max0 (x : spec_float) : num :=
  if num_gtb (NFloat x) (NInt 0) then NFloat x else NInt 0.

(** The float a number enters float arithmetic as, for [max0] results. *)
Definition max0_float (x : spec_float) : spec_float :=
  if num_gtb (NFloat x) (NInt 0) then x else S754_zero false.


(** The sanitization in the words of the specification: keep
    [A-Za-z0-9_-] and the long-vowel mark, drop every other character. *)
Definition spec_keep (c : Z) : bool :=
  is_ascii_alnum c || (c =? 95) || (c =? 45) || (c =? 12540).

(** The file name stem in the words of the specification. *)
Definition spec_stem (detection_id : Z) (species_name : list Z) (confidence : spec_float)
  : list Z :=
  u "detection_" ++ format_03d detection_id ++ u "_"
    ++ List.filter spec_keep species_name ++ u "_" ++ format_2f confidence.

(** The file name stem the two generators share. *)
Definition artifact_stem (detection_id : Z) (species_name : list Z)
    (confidence : spec_float) : list Z :=
  u "detection_" ++ format_03d detection_id ++ u "_"
    ++ List.filter AudioSegmentGenerator.keep_char species_name ++ u "_"
    ++ format_2f confidence.


(** The parts of a parsed path: kept by the parser, free of separators. *)
Definition good_part (p : list Z) : Prop :=
  Path.keep_part p = true /\ ~ In Path.sep p.

(** The rules of validation in the words of the specification: the
    messages of all the rules a record violates, each rule looked at on its
    own.  A rule on the time window applies once both times are parsed, the
    rule on the source once the file name is present. *)
Definition missing_rule (field : string) : list Z := u "必須フィールドが不足: " ++ u field.
Definition source_rule (filename : value) : list Z :=
  u "元音声ファイルが見つかりません: " ++ py_str filename.
Definition negative_start_rule : list Z := u "開始時刻が負の値です".
Definition ordering_rule : list Z := u "終了時刻が開始時刻以前です".
Definition blank_session_rule : list Z := u "セッション名が空です".

Definition parsed_time (detection_data : gmap string value) (field : string)
  : result num :=
  bind (AudioFileManager.getitem detection_data field)
       AudioFileManager._parse_time_value.

Definition violations (self : AudioFileManager.t) (w : World.t)
    (detection_data : gmap string value) : list (list Z) :=
  map missing_rule
      (List.filter (AudioFileManager.missing detection_data)
                   AudioFileManager.required_fields)
  ++ match detection_data !! "filename"%string with
     | Some VNone | None => []
     | Some filename =>
         match AudioFileManager.find_source_audio_file self w filename with
         | Ok None => [source_rule filename]
         | _ => []
         end
     end
  ++ match parsed_time detection_data "start_time_seconds",
           parsed_time detection_data "end_time_seconds" with
     | Ok start_time, Ok end_time =>
         (if num_ltb start_time (NInt 0) then [negative_start_rule] else [])
         ++ (if num_leb end_time start_time then [ordering_rule] else [])
     | _, _ => []
     end
  ++ match detection_data !! "session_name"%string with
     | Some (VStr s) => if (length (strip s) =? 0)%nat then [blank_session_rule] else []
     | _ => []
     end.

(** The item passes validation and the source lookup, and the arguments of
    the extraction are read from its row. *)
Definition reaches_extraction (self : ProcessingManager.t) (w : World.t)
    (d : ProcessingManager.detection) (source session_dir : list Z)
    (start_time end_time : num) (species_name confidence : value) : Prop :=
  fst (AudioFileManager.validate_file_paths (ProcessingManager.file_manager self) w
         (ProcessingManager.fields d)) = true
  /\ (exists filename,
         ProcessingManager.fields d !! "filename"%string = Some filename
         /\ AudioFileManager.find_source_audio_file
              (ProcessingManager.file_manager self) w filename = Ok (Some source))
  /\ ProcessingManager.session_directory d = Ok session_dir
  /\ ProcessingManager.segment_arguments d
     = Ok (start_time, end_time, species_name, confidence).

(** The extraction the manager then runs. *)
Definition extraction (self : ProcessingManager.t) (w : World.t)
    (d : ProcessingManager.detection) (source session_dir : list Z)
    (start_time end_time : num) (species_name confidence : value)
  : World.t * (bool * list Z * option (list Z)) :=
  AudioSegmentGenerator.generate_segment (ProcessingManager.segment_generator self) w
    source start_time end_time session_dir (ProcessingManager.id d)
    species_name confidence.

(** The audio extraction of the item is reached and succeeds, giving [rel]. *)
Definition extracted (self : ProcessingManager.t) (w : World.t)
    (d : ProcessingManager.detection) (w1 : World.t) (rel : list Z) : Prop :=
  exists source session_dir start_time end_time species_name confidence err,
    reaches_extraction self w d source session_dir start_time end_time
                       species_name confidence
    /\ extraction self w d source session_dir start_time end_time species_name
                  confidence = (w1, (true, rel, err)).

(** The rendering, when enabled, is run on the extracted segment and fails. *)
Definition rendering_fails (self : ProcessingManager.t) (w1 : World.t)
    (d : ProcessingManager.detection) (rel : list Z) : Prop :=
  exists sg session_dir w2 out err,
    ProcessingManager.spectrogram_generator self = Some sg
    /\ ProcessingManager.session_directory d = Ok session_dir
    /\ SpectrogramGenerator.generate_spectrogram sg w1
         (AudioFileManager.resolve_relative_path (ProcessingManager.file_manager self) rel)
         session_dir (ProcessingManager.id d)
         (default (VStr (u "Unknown"))
                  (ProcessingManager.fields d !! "common_name"%string))
         (default VNone (ProcessingManager.fields d !! "confidence"%string))
       = (w2, (false, out, err)).

(** The row of a detection in the table, when sqlite answers and has it. *)
Definition row_of (w : World.t) (detection_id : Z) : option (gmap string value) :=
  match World.table w with
  | Some rows => rows !! detection_id
  | None => None
  end.

(** The number of rows the update of [detection_id] affects in [w];
    [None] when sqlite fails. *)
Definition rowcount (w : World.t) (detection_id : Z) : option Z :=
  match World.table w with
  | Some rows => Some (match rows !! detection_id with Some _ => 1 | None => 0 end)
  | None => None
  end.

(** The row after the update of its two path columns. *)
Definition with_paths (row : gmap string value) (audio_path spectrogram_path : value)
  : gmap string value :=
  <["spectrogram_path"%string := spectrogram_path]>
    (<["audio_segment_path"%string := audio_path]> row).

(** [msg] mentions the detection id, as ["(ID:<id>)"]. *)
Definition mentions_id (msg : list Z) (detection_id : Z) : Prop :=
  exists before after, msg = before ++ ProcessingManager.id_tag detection_id ++ after.

(** The stored audio path of a detection, when its row is there. *)
Definition audio_path_of (w : World.t) (detection_id : Z) : option value :=
  match row_of w detection_id with
  | Some row => row !! "audio_segment_path"%string
  | None => None
  end.

Definition spectrogram_path_of (w : World.t) (detection_id : Z) : option value :=
  match row_of w detection_id with
  | Some row => row !! "spectrogram_path"%string
  | None => None
  end.

(** The manager after the extraction step of a detection. *)
Definition after_audio (self : ProcessingManager.t) (audio_ok : bool)
  : ProcessingManager.t :=
  if audio_ok
  then ProcessingManager.count_audio (ProcessingManager.count_processed self)
  else ProcessingManager.count_processed self.

(** The results of the items of a list as the manager runs through it,
    each item in the state the ones before it left. *)
Fixpoint run_results (self : ProcessingManager.t) (w : World.t)
    (l : list ProcessingManager.detection) : list (bool * list Z) :=
  match l with
  | [] => []
  | d :: r =>
      let '(self1, w1, res) := ProcessingManager._process_single_detection self w d in
      res :: run_results self1 w1 r
  end.

(** What a result says about its item at the end [w'] of the run: a success
    has its audio path stored, a failure has a message with the item's id. *)
Definition settled (w' : World.t) (d : ProcessingManager.detection)
    (res : bool * list Z) : Prop :=
  if fst res
  then exists rel, audio_path_of w' (ProcessingManager.id d) = Some (VStr rel)
  else mentions_id (snd res) (ProcessingManager.id d).

(** The character a session name keeps at a position. *)
Definition safe_char (c : Z) : Z :=
  if contains c AudioFileManager.safe_chars then c else 95.


(** The statistics of a manager add up: every processed item is a success
    or an error, every error has its message, a spectrogram is counted only
    with its audio segment, and a success only with its audio segment. *)
Definition stats_consistent (s : ProcessingManager.stats_t) : Prop :=
  ProcessingManager.processed_count s
  = ProcessingManager.success_count s + ProcessingManager.error_count s
  /\ Z.of_nat (length (ProcessingManager.errors s)) = ProcessingManager.error_count s
  /\ 0 <= ProcessingManager.spectrogram_success s
  /\ ProcessingManager.spectrogram_success s <= ProcessingManager.audio_success s
  /\ 0 <= ProcessingManager.success_count s
  /\ ProcessingManager.success_count s <= ProcessingManager.audio_success s
  /\ ProcessingManager.audio_success s <= ProcessingManager.processed_count s.

(** The ids of the items of [l] that fail when the manager runs through
    [l]. *)
Definition failed_ids (self : ProcessingManager.t) (w : World.t)
    (l : list ProcessingManager.detection) : list Z :=
  map (fun x => ProcessingManager.id (fst x))
      (List.filter (fun x => negb (fst (snd x))) (combine l (run_results self w l))).



(** [a] is not created after [b], in the order sqlite sorts by. *)
Definition not_created_after (a b : ProcessingManager.detection) : Prop :=
  ProcessingManager.sqlite_compare
    (ProcessingManager.created_at (ProcessingManager.id a, ProcessingManager.fields a))
    (ProcessingManager.created_at (ProcessingManager.id b, ProcessingManager.fields b))
  <> Gt.

(** ** A concrete deployment, for examples *)

Module Example.

Import Py.

Definition source_audio : list Z := u "/srv/proj/database/audio/completed/rec1.wav".

Definition target_wav : list Z :=
  u "/srv/proj/database/audio_segments/Site_A/detection_001_CommonCuckoo_0.87.wav".

(** Detection 1: a cuckoo at [100.0, 102.0] of recording [rec1]. *)
Definition row1 : gmap string value :=
  list_to_map
    [("filename", VStr (u "rec1")); ("session_name", VStr (u "Site A"));
     ("start_time_seconds", VFloat f100);
     ("end_time_seconds", VFloat f102);
     ("common_name", VStr (u "Common Cuckoo"));
     ("confidence", VFloat f0_873);
     ("audio_segment_path", VNone); ("spectrogram_path", VNone);
     ("created_at", VStr (u "2024-01-01 00:00:00"))]%string.

(** A world in which every step works: the source recording exists, the
    table holds [rows], no call of the back end fails. *)
Definition world (files : gmap (list Z) bool) (rows : gmap Z (gmap string value))
  : World.t :=
  World.mk files [1700000000] (Some rows) (fun _ => Ok []) (fun _ => None)
           (fun _ _ _ => None) (fun _ => None) (fun _ _ => true) [].

Definition files0 : gmap (list Z) bool := {[ source_audio := false ]}.

Definition world0 : World.t := world files0 {[ 1 := row1 ]}.

(** The same, with the target of detection 1 present and held open. *)
Definition world_locked : World.t :=
  world (<[target_wav := true]> files0) {[ 1 := row1 ]}.



Definition manager (enable_spectrogram : bool) : ProcessingManager.t :=
  ProcessingManager.init (u "/srv/proj/database/result.db") enable_spectrogram.

Definition detection1 : ProcessingManager.detection :=
  ProcessingManager.mk_detection 1 row1.

(** The world in which the row of detection 1 has vanished from the table. *)
Definition world_vanished : World.t := world files0 ∅.

(** Detection 1 processed before, in a world whose decoder now fails. *)
Definition row1_done : gmap string value :=
  <["audio_segment_path"%string := VStr (u "audio_segments/Site_A/old.wav")]> row1.

Definition detection1_done : ProcessingManager.detection :=
  ProcessingManager.mk_detection 1 row1_done.

Definition world_no_decoder : World.t :=
  World.mk files0 [1700000000] (Some {[ 1 := row1_done ]}) (fun _ => Ok [])
           (fun _ => None) (fun _ _ _ => Some (OSError, u "decoder failed"))
           (fun _ => None) (fun _ _ => true) [].

(** A world whose renderer fails. *)
Definition world_no_renderer : World.t :=
  World.mk files0 [1700000000] (Some {[ 1 := row1 ]}) (fun _ => Ok [])
           (fun _ => None) (fun _ _ _ => None) (fun _ => None) (fun _ _ => false) [].

(** The extraction of detection 1 as the manager runs it. *)
Definition extraction1 (enable_spectrogram : bool) (w : World.t)
  : World.t * (bool * list Z * option (list Z)) :=
  extraction (manager enable_spectrogram) w detection1 source_audio (u "Site_A")
             (NFloat f100) (NFloat f102) (VStr (u "Common Cuckoo")) (VFloat f0_873).

Definition relative_wav : list Z :=
  u "audio_segments/Site_A/detection_001_CommonCuckoo_0.87.wav".

(** Detection 1 run by the manager. *)
Definition process1 (enable_spectrogram : bool) (w : World.t)
  : ProcessingManager.t * World.t * (bool * list Z) :=
  ProcessingManager._process_single_detection (manager enable_spectrogram) w detection1.

(** Extracting the segment of detection 1 into a fresh directory. *)
Definition extract_fresh : World.t * (bool * Path.t) :=
  AudioSegmentGenerator._extract_segment_librosa
    (ProcessingManager.segment_generator (manager true)) world0
    (Path.of_str source_audio) (Path.of_str target_wav) (NFloat f100) (NFloat f102).

(** Generating the segment of detection 1 while its target is held open. *)
Definition generate_locked : World.t * (bool * list Z * option (list Z)) :=
  AudioSegmentGenerator.generate_segment
    (ProcessingManager.segment_generator (manager true)) world_locked source_audio
    (NFloat f100) (NFloat f102) (u "Site_A") 1 (VStr (u "Common Cuckoo"))
    (VFloat f0_873).

(** Three pending detections: the second names a recording that is not in
    the source directories. *)
Definition row2 : gmap string value :=
  <["filename"%string := VStr (u "rec2")]>
    (<["created_at"%string := VStr (u "2024-01-01 00:00:01")]> row1).

Definition row3 : gmap string value :=
  <["start_time_seconds"%string := VFloat f626]>
    (<["end_time_seconds"%string := VFloat (float_lit 629 0)]>
       (<["created_at"%string := VStr (u "2024-01-01 00:00:02")]> row1)).

Definition world3 : World.t :=
  world files0 (<[1 := row1]> (<[2 := row2]> {[ 3 := row3 ]})).

(** Detection 1 with the text ["nan"] as start time. *)
Definition row_nan : gmap string value :=
  <["start_time_seconds"%string := VStr (u "nan")]> row1.

(** A world in which the segment of detection 1 is there from an earlier
    run, and the decoder now fails. *)
Definition world_stale : World.t :=
  World.mk (<[target_wav := false]> files0) [1700000000] (Some {[ 1 := row1 ]})
           (fun _ => Ok []) (fun _ => None)
           (fun _ _ _ => Some (OSError, u "decoder failed"))
           (fun _ => None) (fun _ _ => true) [].

(** Generating the segment of detection 1 over the earlier one. *)
Definition generate_stale : World.t * (bool * list Z * option (list Z)) :=
  AudioSegmentGenerator.generate_segment
    (ProcessingManager.segment_generator (manager true)) world_stale source_audio
    (NFloat f100) (NFloat f102) (u "Site_A") 1 (VStr (u "Common Cuckoo"))
    (VFloat f0_873).

End Example.

(** * Properties *)

(** ** The time parser *)



(** ** The segment extractor *)

Lemma pair_eta_snd {A B} (x : A * B) (b : B) : snd x = b -> x = (fst x, b).
Proof. intros <-. apply surjective_pairing. Qed.

Lemma triple_eta_snd {A B C} (x : A * B * C) (c : C) :
  snd x = c -> x = (fst (fst x), snd (fst x), c).
Proof. intros <-. destruct x as [[a b] c]. reflexivity. Qed.

Lemma to_float_max0 x : to_float (max0 x) = Ok (max0_float x).
Proof. unfold max0, max0_float. destruct (num_gtb _ _); reflexivity. Qed.

Lemma segment_window_eq start_time end_time s e :
  to_float start_time = Ok s -> to_float end_time = Ok e ->
  AudioSegmentGenerator.segment_window start_time end_time
  = Ok (max0 (fsub s AudioSegmentGenerator.context_seconds),
        fsub (fadd e AudioSegmentGenerator.context_seconds)
             (max0_float (fsub s AudioSegmentGenerator.context_seconds))).
Proof.
  intros Hs He. unfold AudioSegmentGenerator.segment_window.
  rewrite Hs. cbn [bind]. rewrite He. cbn [bind].
  fold (max0 (fsub s AudioSegmentGenerator.context_seconds)).
  rewrite to_float_max0. reflexivity.
Qed.

(** What a successful extraction did, step by step. *)
Lemma extract_success self w source_path output_path start_time end_time w' p :
  AudioSegmentGenerator._extract_segment_librosa self w source_path output_path
    start_time end_time = (w', (true, p)) ->
  exists segment_start segment_duration wav_output w1,
    AudioSegmentGenerator.segment_window start_time end_time
      = Ok (segment_start, segment_duration)
    /\ Path.with_suffix output_path (u ".wav") = Ok wav_output
    /\ AudioSegmentGenerator.choose_output w wav_output = (w1, Ok p)
    /\ World.trace w'
       = World.trace w1
           ++ [World.EvLoad (Path.to_str source_path) segment_start segment_duration;
               World.EvWrite (Path.to_str p)]
    /\ World.files w'
       = <[Path.to_str p := default false (World.files w1 !! Path.to_str p)]>
           (World.files w1)
    /\ World.table w' = World.table w1.
Proof.
  unfold AudioSegmentGenerator._extract_segment_librosa.
  destruct (AudioSegmentGenerator.segment_window start_time end_time)
    as [[segment_start segment_duration]|]; [|intros [=]].
  destruct (Path.with_suffix output_path (u ".wav")) as [wav_output|]; [|intros [=]].
  destruct (AudioSegmentGenerator.choose_output w wav_output) as [w1 [q|]] eqn:Hc;
    [|intros [=]].
  unfold World.load, World.write.
  destruct (World.load_error w1 _ _ _) as [[k m]|]; [intros [=]|].
  cbn [World.write_error World.log].
  destruct (World.write_error w1 (Path.to_str q)) as [[k m]|]; [intros [=]|].
  intros [= <- <-].
  exists segment_start, segment_duration, wav_output, w1.
  repeat apply conj; try reflexivity; try assumption.
  unfold World.log, World.set_files; cbn [World.trace].
  rewrite <- app_assoc. reflexivity.
Qed.

(** The three cases of an existing, a locked and an absent target. *)
Lemma choose_output_cases w wav_output w1 p :
  AudioSegmentGenerator.choose_output w wav_output = (w1, Ok p) ->
  match World.files w !! Path.to_str wav_output with
  | None => w1 = w /\ p = wav_output
  | Some false =>
      p = wav_output
      /\ World.trace w1 = World.trace w ++ [World.EvUnlink (Path.to_str wav_output)]
      /\ World.files w1 = delete (Path.to_str wav_output) (World.files w)
      /\ World.table w1 = World.table w
  | Some true =>
      Path.with_stem wav_output
        (Path.stem wav_output ++ u "_" ++ str_of_int (snd (World.time w))) = Ok p
      /\ World.trace w1 = World.trace w
      /\ World.files w1 = World.files w
      /\ World.table w1 = World.table w
  end.
Proof.
  unfold AudioSegmentGenerator.choose_output, World.exists_, World.unlink.
  destruct (World.files w !! Path.to_str wav_output) as [[|]|] eqn:Hf.
  - rewrite bool_decide_eq_true_2 by eauto.
    destruct (World.time w) as [w2 ts] eqn:Ht. cbn [snd].
    intros [= <- H]. split; [exact H|].
    unfold World.time in Ht. destruct (World.clock w); inversion Ht; subst; auto.
  - rewrite bool_decide_eq_true_2 by eauto.
    intros [= <- <-]. auto.
  - rewrite bool_decide_eq_false_2 by (intros [? ?]; discriminate).
    intros [= <- <-]. auto.
Qed.

Lemma name_replace_name p n : Path.name (Path.replace_name p n) = n.
Proof. unfold Path.name, Path.replace_name. cbn. apply last_last. Qed.

Lemma parent_replace_name p n : Path.parent (Path.replace_name p n) = Path.parent p.
Proof.
  unfold Path.parent, Path.replace_name. cbn. f_equal. apply removelast_last.
Qed.

Lemma with_stem_ok p s q :
  Path.with_stem p s = Ok q -> q = Path.replace_name p (s ++ Path.suffix p).
Proof.
  unfold Path.with_stem, Path.with_name.
  repeat case_match; intros [=]; congruence.
Qed.

Lemma generate_segment_success self w source_audio_path start_time end_time
    session_name detection_id species_name confidence w' rel err :
  AudioSegmentGenerator.generate_segment self w source_audio_path start_time
    end_time session_name detection_id species_name confidence
    = (w', (true, rel, err)) ->
  exists filename p,
    AudioSegmentGenerator._generate_filename detection_id species_name confidence
      = Ok filename
    /\ AudioSegmentGenerator._extract_segment_librosa self w
         (Path.of_str source_audio_path)
         (Path.join (Path.join (AudioSegmentGenerator.base_output_dir self)
                               session_name) filename)
         start_time end_time = (w', (true, p))
    /\ rel = u "audio_segments/" ++ session_name ++ u "/" ++ Path.name p
    /\ err = None.
Proof.
  unfold AudioSegmentGenerator.generate_segment.
  destruct (negb _); [intros [=]|].
  destruct (World.mkdir _ _); [|intros [=]].
  destruct (AudioSegmentGenerator._generate_filename _ _ _) as [filename|];
    [|intros [=]].
  destruct (AudioSegmentGenerator._extract_segment_librosa _ _ _ _ _ _)
    as [w1 [[|] p]] eqn:He; intros [= <- <- <-].
  exists filename, p. auto.
Qed.

(** C4. The slice handed to the decoder starts at
    [max(0, start - 5.0)] and lasts [(end + 5.0) - segment_start], whatever the
    source: every successful extraction loads exactly that slice, and only
    the lower bound is clamped.  For the window [100.0, 102.0] the slice
    starts at [95.0] and lasts [12.0], so that it ends at [107.0]. *)
Theorem C4_context_padding :
  (forall start_time end_time s e,
      to_float start_time = Ok s -> to_float end_time = Ok e ->
      AudioSegmentGenerator.segment_window start_time end_time
      = Ok (max0 (fsub s AudioSegmentGenerator.context_seconds),
            fsub (fadd e AudioSegmentGenerator.context_seconds)
                 (max0_float (fsub s AudioSegmentGenerator.context_seconds))))
  /\ (forall self w source_path output_path start_time end_time w' p,
         AudioSegmentGenerator._extract_segment_librosa self w source_path
           output_path start_time end_time = (w', (true, p)) ->
         exists segment_start segment_duration before,
           AudioSegmentGenerator.segment_window start_time end_time
             = Ok (segment_start, segment_duration)
           /\ World.trace w'
              = before ++ [World.EvLoad (Path.to_str source_path)
                                        segment_start segment_duration;
                           World.EvWrite (Path.to_str p)])
  /\ AudioSegmentGenerator.segment_window (NFloat f100) (NFloat f102)
     = Ok (NFloat f95, f12)
  /\ fadd f95 f12 = f107.
Proof.
  split; [|split; [|split; vm_compute; reflexivity]].
  - intros. apply segment_window_eq; assumption.
  - intros self w source_path output_path start_time end_time w' p H.
    apply extract_success in H
      as (segment_start & segment_duration & wav_output & w1 & Hw & _ & _ & Ht & _).
    exists segment_start, segment_duration, (World.trace w1). auto.
Qed.

Lemma C4_context_padding_witness :
  exists before,
    World.trace (fst Example.extract_fresh)
    = before ++ [World.EvLoad (Path.to_str (Path.of_str Example.source_audio))
                              (NFloat f95) f12;
                 World.EvWrite (Path.to_str (Path.of_str Example.target_wav))].
Proof.
  destruct C4_context_padding as (_ & H & Hw & _).
  destruct (H (ProcessingManager.segment_generator (Example.manager true))
              Example.world0 (Path.of_str Example.source_audio)
              (Path.of_str Example.target_wav) (NFloat f100) (NFloat f102)
              (fst Example.extract_fresh) (Path.of_str Example.target_wav))
    as (segment_start & segment_duration & before & Hs & Ht).
  - apply pair_eta_snd. vm_compute. reflexivity.
  - rewrite Hw in Hs. injection Hs as <- <-. exists before. exact Ht.
Defined.

(** C9. When [generate_segment] succeeds, the relative path it returns
    names the file [soundfile.write] wrote, which exists afterwards and lies
    in the requested directory: the requested [.wav] target when it did not
    exist; the same target, deleted first and written again, when it existed
    and could be deleted; when the deletion raised [PermissionError], a
    sibling named by the stem, ["_"], the timestamp and the suffix, the locked
    file being left as it is. *)
Theorem C9_overwrite_or_unique_name self w source_audio_path start_time end_time
    session_name detection_id species_name confidence w' rel err :
  AudioSegmentGenerator.generate_segment self w source_audio_path start_time
    end_time session_name detection_id species_name confidence
    = (w', (true, rel, err)) ->
  exists filename wav_output written before,
    AudioSegmentGenerator._generate_filename detection_id species_name confidence
      = Ok filename
    /\ Path.with_suffix
         (Path.join (Path.join (AudioSegmentGenerator.base_output_dir self)
                               session_name) filename) (u ".wav") = Ok wav_output
    /\ World.trace w' = before ++ [World.EvWrite (Path.to_str written)]
    /\ is_Some (World.files w' !! Path.to_str written)
    /\ rel = u "audio_segments/" ++ session_name ++ u "/" ++ Path.name written
    /\ Path.parent written = Path.parent wav_output
    /\ match World.files w !! Path.to_str wav_output with
       | None => written = wav_output
       | Some false =>
           written = wav_output
           /\ In (World.EvUnlink (Path.to_str wav_output)) before
       | Some true =>
           Path.name written
           = Path.stem wav_output ++ u "_" ++ str_of_int (snd (World.time w))
               ++ Path.suffix wav_output
           /\ World.files w' !! Path.to_str wav_output = Some true
       end.
Proof.
  intros H.
  apply generate_segment_success in H as (filename & p & Hf & He & -> & ->).
  apply extract_success in He
    as (segment_start & segment_duration & wav_output & w1 & _ & Hs & Hc & Ht & Hfs & _).
  exists filename, wav_output, p,
    (World.trace w1 ++ [World.EvLoad
       (Path.to_str (Path.of_str source_audio_path)) segment_start segment_duration]).
  split; [exact Hf|]. split; [exact Hs|].
  split; [rewrite Ht, <- app_assoc; reflexivity|].
  split; [rewrite Hfs, lookup_insert_eq; eauto|].
  split; [reflexivity|].
  apply choose_output_cases in Hc.
  destruct (World.files w !! Path.to_str wav_output) as [[|]|] eqn:Hex.
  - destruct Hc as (Hp & _ & Hfw & _).
    apply with_stem_ok in Hp. subst p.
    split; [apply parent_replace_name|].
    split; [rewrite name_replace_name, <- !app_assoc; reflexivity|].
    rewrite Hfs, Hfw.
    destruct (decide (Path.to_str (Path.replace_name wav_output
                (((Path.stem wav_output ++ u "_" ++ str_of_int (snd (World.time w))))
                   ++ Path.suffix wav_output)) = Path.to_str wav_output)) as [E|E].
    + rewrite E, lookup_insert_eq, Hex. reflexivity.
    + rewrite lookup_insert_ne by exact E. exact Hex.
  - destruct Hc as (-> & Htr & _). split; [reflexivity|]. split; [reflexivity|].
    rewrite Htr. apply in_or_app. left. apply in_or_app. right. left. reflexivity.
  - destruct Hc as (_ & ->). split; reflexivity.
Qed.

Lemma C9_overwrite_or_unique_name_witness :
  exists written before,
    World.trace (fst Example.generate_locked)
    = before ++ [World.EvWrite (Path.to_str written)]
    /\ u "audio_segments/Site_A/detection_001_CommonCuckoo_0.87_1700000000.wav"
       = u "audio_segments/" ++ u "Site_A" ++ u "/" ++ Path.name written.
Proof.
  destruct (C9_overwrite_or_unique_name
              (ProcessingManager.segment_generator (Example.manager true))
              Example.world_locked Example.source_audio (NFloat f100) (NFloat f102)
              (u "Site_A") 1 (VStr (u "Common Cuckoo")) (VFloat f0_873)
              (fst Example.generate_locked)
              (u "audio_segments/Site_A/detection_001_CommonCuckoo_0.87_1700000000.wav")
              None)
    as (filename & wav_output & written & before & _ & _ & Ht & _ & Hrel & _).
  - apply pair_eta_snd. vm_compute. reflexivity.
  - exists written, before. split; assumption.
Defined.

(** ** File names *)

(** A property checked on every code point below [n] holds below [n]. *)
Lemma below_forallb (P : Z -> bool) (n : nat) :
  forallb P (map Z.of_nat (seq 0 n)) = true ->
  forall c, 0 <= c < Z.of_nat n -> P c = true.
Proof.
  intros H c Hc. rewrite forallb_forall in H. apply H.
  replace c with (Z.of_nat (Z.to_nat c)) by lia.
  apply in_map, in_seq. lia.
Qed.

Lemma keep_char_ascii c :
  0 <= c < 128 -> AudioSegmentGenerator.keep_char c = spec_keep c.
Proof.
  intros Hc. apply Bool.eqb_prop.
  apply (below_forallb
           (fun c => Bool.eqb (AudioSegmentGenerator.keep_char c) (spec_keep c)) 128);
    [vm_compute; reflexivity | exact Hc].
Qed.

Lemma filter_ext_Forall {A} (f g : A -> bool) (P : A -> Prop) l :
  (forall x, P x -> f x = g x) -> Forall P l -> List.filter f l = List.filter g l.
Proof.
  intros Hfg Hl. induction Hl as [|x l Hx Hl IH]; [reflexivity|].
  cbn. rewrite (Hfg x Hx), IH. reflexivity.
Qed.

(** C8, as the specification states it, fails on a Japanese species
    name: the katakana letters are alphanumeric for Python and are kept. *)
Lemma C8_counterexample :
  AudioSegmentGenerator._generate_filename 7 (VStr (u "カッコウ")) (VFloat f0_873)
  = Ok (u "detection_007_カッコウ_0.87.wav")
  /\ spec_stem 7 (u "カッコウ") f0_873 = u "detection_007__0.87"
  /\ AudioSegmentGenerator._generate_filename 7 (VStr (u "カッコウ")) (VFloat f0_873)
     <> Ok (spec_stem 7 (u "カッコウ") f0_873 ++ u ".wav").
Proof.
  split; [vm_compute; reflexivity|]. split; [vm_compute; reflexivity|].
  vm_compute. discriminate.
Qed.

(** C8, amended. For a text species name and a float confidence both
    generators name their file by the same stem,
    [detection_<id:03d>_<species>_<confidence:.2f>], followed by [.wav] or
    [.png].  The species keeps the characters that are alphanumeric for
    Python ([str.isalnum], Unicode letters and digits included) or one of
    ["ー"], ["_"], ["-"]; on ASCII characters these are exactly
    [A-Za-z0-9_-], so that for an ASCII species name the stem is the one the
    specification describes.  An id from 0 to 999 is written with three
    digits, and id 7, species ["Common Cuckoo"], confidence 0.873 give
    [detection_007_CommonCuckoo_0.87]. *)
Theorem C8_filename_stem :
  (forall detection_id species_name confidence,
      AudioSegmentGenerator._generate_filename detection_id (VStr species_name)
        (VFloat confidence)
      = Ok (artifact_stem detection_id species_name confidence ++ u ".wav")
      /\ SpectrogramGenerator._generate_filename detection_id (VStr species_name)
           (VFloat confidence)
         = Ok (artifact_stem detection_id species_name confidence ++ u ".png"))
  /\ (forall c, AudioSegmentGenerator.keep_char c
                = Unicode.isalnum c || (c =? 12540) || (c =? 95) || (c =? 45))
  /\ (forall c, 0 <= c < 128 -> AudioSegmentGenerator.keep_char c = spec_keep c)
  /\ (forall detection_id species_name confidence,
         Forall (fun c => 0 <= c < 128) species_name ->
         artifact_stem detection_id species_name confidence
         = spec_stem detection_id species_name confidence)
  /\ (forall detection_id, 0 <= detection_id < 1000 ->
                           length (format_03d detection_id) = 3%nat)
  /\ artifact_stem 7 (u "Common Cuckoo") f0_873 = u "detection_007_CommonCuckoo_0.87".
Proof.
  split; [intros detection_id species_name confidence; split|].
  3: split; [|split; [|split; [|split; [|vm_compute; reflexivity]]]].
  - unfold AudioSegmentGenerator._generate_filename, artifact_stem. cbn [bind
      AudioSegmentGenerator.safe_species AudioSegmentGenerator.format_confidence].
    rewrite <- !app_assoc. reflexivity.
  - unfold SpectrogramGenerator._generate_filename, artifact_stem. cbn [bind
      AudioSegmentGenerator.safe_species AudioSegmentGenerator.format_confidence].
    rewrite <- !app_assoc. reflexivity.
  - intros c. unfold AudioSegmentGenerator.keep_char.
    change (u "ー_-") with [12540; 95; 45]. cbn [contains existsb].
    rewrite orb_false_r, !orb_assoc. reflexivity.
  - exact keep_char_ascii.
  - intros detection_id species_name confidence Hs. unfold artifact_stem, spec_stem.
    rewrite (filter_ext_Forall _ spec_keep _ species_name keep_char_ascii Hs).
    reflexivity.
  - intros detection_id Hd. apply Nat.eqb_eq.
    apply (below_forallb (fun n => (length (format_03d n) =? 3)%nat) 1000);
      [vm_compute; reflexivity | exact Hd].
Qed.

Lemma C8_filename_stem_witness :
  AudioSegmentGenerator.keep_char 32 = spec_keep 32
  /\ artifact_stem 7 (u "Common Cuckoo") f0_873
     = spec_stem 7 (u "Common Cuckoo") f0_873
  /\ length (format_03d 7) = 3%nat.
Proof.
  destruct C8_filename_stem as (_ & _ & Hc & Hs & Hd & _).
  repeat apply conj.
  - apply Hc. lia.
  - apply Hs. apply List.Forall_forall. intros c Hin. vm_compute in Hin.
    repeat (destruct Hin as [<-|Hin]; [lia|]). destruct Hin.
  - apply Hd. lia.
Defined.

(** ** Relative and absolute paths *)

Lemma replace_same c s : replace c [c] s = s.
Proof.
  induction s as [|x s IH]; [reflexivity|].
  cbn. destruct (Z.eqb_spec x c) as [->|]; cbn; rewrite <- IH at 2; reflexivity.
Qed.


(** No part of a split contains the separator. *)
Lemma split_no_sep c s : Forall (fun p => ~ In c p) (split c s).
Proof.
  induction s as [|x s IH]; cbn.
  - constructor; [intros []|constructor].
  - destruct (Z.eqb_spec x c) as [->|Hx].
    + constructor; [intros []|exact IH].
    + destruct (split c s) as [|p ps]; [constructor; [|constructor]|].
      * intros [H|[]]. congruence.
      * inversion IH as [|? ? Hp Hps]; subst. constructor; [|exact Hps].
        intros [H|H]; [congruence|exact (Hp H)].
Qed.

Lemma split_no_sep_id c p : ~ In c p -> split c p = [p].
Proof.
  induction p as [|x p IH]; [reflexivity|].
  intros H. cbn. destruct (Z.eqb_spec x c) as [->|Hx].
  - exfalso. apply H. left. reflexivity.
  - rewrite IH; [reflexivity|]. intros Hc. apply H. right. exact Hc.
Qed.

Lemma split_app_sep c p s : ~ In c p -> split c (p ++ c :: s) = p :: split c s.
Proof.
  induction p as [|x p IH]; intros H; cbn.
  - rewrite Z.eqb_refl. reflexivity.
  - destruct (Z.eqb_spec x c) as [->|Hx].
    + exfalso. apply H. left. reflexivity.
    + rewrite IH; [reflexivity|]. intros Hc. apply H. right. exact Hc.
Qed.

(** Splitting a joined list of separator-free parts gives the parts back. *)
Lemma split_join c ps :
  ps <> [] -> Forall (fun p => ~ In c p) ps -> split c (join [c] ps) = ps.
Proof.
  induction ps as [|p ps IH]; [congruence|].
  intros _ H. inversion H as [|? ? Hp Hps]; subst.
  destruct ps as [|q ps].
  - cbn. apply split_no_sep_id. exact Hp.
  - change (join [c] (p :: q :: ps)) with (p ++ c :: join [c] (q :: ps)).
    rewrite split_app_sep by exact Hp. f_equal. apply IH; [discriminate|exact Hps].
Qed.

Lemma of_str_parts_good s : Forall good_part (Path.parts (Path.of_str s)).
Proof.
  cbn [Path.of_str Path.parts].
  pose proof (split_no_sep Path.sep s) as H.
  induction H as [|p ps Hp Hps IH]; cbn; [constructor|].
  destruct (Path.keep_part p) eqn:Hk; [|exact IH].
  constructor; [split; assumption|exact IH].
Qed.

Lemma filter_keep_good ps : Forall good_part ps -> List.filter Path.keep_part ps = ps.
Proof.
  induction 1 as [|p ps [Hk _] _ IH]; cbn; [reflexivity|].
  rewrite Hk, IH. reflexivity.
Qed.

(** A string that does not start with the separator has no root. *)
Lemma root_of_str_relative x s : x <> 47 -> Path.root (Path.of_str (x :: s)) = [].
Proof.
  intros Hx. cbn [Path.of_str Path.root].
  destruct x as [|p|p]; try reflexivity.
  do 6 (destruct p as [p|p|]; try reflexivity). congruence.
Qed.

(** Parsing the string of a relative path of good parts gives it back. *)
Lemma of_str_to_str_relative ps :
  Forall good_part ps -> Path.of_str (Path.to_str (Path.mk [] ps)) = Path.mk [] ps.
Proof.
  intros H. destruct ps as [|p ps]; [reflexivity|].
  assert (Hsplit : split Path.sep (join [Path.sep] (p :: ps)) = p :: ps).
  { apply split_join; [discriminate|].
    eapply List.Forall_impl; [|exact H]. intros a [_ Ha]. exact Ha. }
  assert (Hroot : Path.root (Path.of_str (join [Path.sep] (p :: ps))) = []).
  { inversion H as [|? ? [Hk Hsep] _]; subst.
    destruct p as [|x p]; [discriminate Hk|].
    assert (x <> 47) by (intros ->; apply Hsep; left; reflexivity).
    destruct ps; cbn [join app]; apply root_of_str_relative; assumption. }
  unfold Path.to_str. cbn [Path.root Path.parts app].
  destruct (Path.of_str (join [Path.sep] (p :: ps))) as [r qs] eqn:E.
  cbn in Hroot. subst r. f_equal.
  apply (f_equal Path.parts) in E. cbn [Path.of_str Path.parts] in E.
  rewrite Hsplit, (filter_keep_good _ H) in E. congruence.
Qed.







(** ** Validation *)

Lemma no_missing_fields detection_data :
  (forall field, In field AudioFileManager.required_fields ->
                 AudioFileManager.missing detection_data field = false) ->
  List.filter (AudioFileManager.missing detection_data)
              AudioFileManager.required_fields = [].
Proof.
  intros H. induction AudioFileManager.required_fields as [|f l IH]; [reflexivity|].
  cbn. rewrite (H f (or_introl eq_refl)). apply IH.
  intros g Hg. apply H. right. exact Hg.
Qed.

Lemma present_getitem detection_data field :
  AudioFileManager.missing detection_data field = false ->
  exists v, detection_data !! field = Some v /\ v <> VNone
            /\ AudioFileManager.getitem detection_data field = Ok v.
Proof.
  unfold AudioFileManager.missing, AudioFileManager.getitem.
  destruct (detection_data !! field) as [[]|]; try discriminate;
    intros _; eexists; repeat split; discriminate.
Qed.




(** ** The processing manager *)

(** *** What the generators leave alone: the table *)

Lemma table_unlink w p : World.table (fst (World.unlink w p)) = World.table w.
Proof. unfold World.unlink. destruct (World.files w !! Path.to_str p) as [[|]|]; reflexivity. Qed.

Lemma table_time w : World.table (fst (World.time w)) = World.table w.
Proof. unfold World.time. destruct (World.clock w); reflexivity. Qed.

Lemma table_load w src off dur : World.table (fst (World.load w src off dur)) = World.table w.
Proof. unfold World.load. destruct (World.load_error w src off dur) as [[k m]|]; reflexivity. Qed.

Lemma table_write w out : World.table (fst (World.write w out)) = World.table w.
Proof. unfold World.write. destruct (World.write_error w out) as [[k m]|]; reflexivity. Qed.

Lemma table_choose_output w p :
  World.table (fst (AudioSegmentGenerator.choose_output w p)) = World.table w.
Proof.
  unfold AudioSegmentGenerator.choose_output.
  destruct (World.exists_ w p); [|reflexivity].
  pose proof (table_unlink w p) as Hu.
  destruct (World.unlink w p) as [w1 [[]|k m]]; cbn [fst] in *; [exact Hu|].
  destruct k; try exact Hu.
  pose proof (table_time w1) as Ht.
  destruct (World.time w1) as [w2 ts]. cbn [fst] in *. congruence.
Qed.

Lemma table_extract self w src out st en :
  World.table (fst (AudioSegmentGenerator._extract_segment_librosa self w src out st en))
  = World.table w.
Proof.
  unfold AudioSegmentGenerator._extract_segment_librosa.
  destruct (AudioSegmentGenerator.segment_window st en) as [[s0 d0]|]; [|reflexivity].
  destruct (Path.with_suffix out (u ".wav")) as [wav|]; [|reflexivity].
  pose proof (table_choose_output w wav) as Hc.
  destruct (AudioSegmentGenerator.choose_output w wav) as [w1 [q|]]; cbn [fst] in *;
    [|exact Hc].
  pose proof (table_load w1 (Path.to_str src) s0 d0) as Hl.
  destruct (World.load w1 (Path.to_str src) s0 d0) as [w2 [[]|]]; cbn [fst] in *;
    [|congruence].
  pose proof (table_write w2 (Path.to_str q)) as Hw.
  destruct (World.write w2 (Path.to_str q)) as [w3 [[]|]]; cbn [fst] in *; congruence.
Qed.

Lemma table_generate_segment self w src st en session detection_id sp conf :
  World.table (fst (AudioSegmentGenerator.generate_segment self w src st en session
                      detection_id sp conf)) = World.table w.
Proof.
  unfold AudioSegmentGenerator.generate_segment.
  destruct (negb _); [reflexivity|].
  destruct (World.mkdir _ _); [|reflexivity].
  destruct (AudioSegmentGenerator._generate_filename _ _ _) as [filename|]; [|reflexivity].
  match goal with |- context [AudioSegmentGenerator._extract_segment_librosa ?a ?b ?c ?d ?e ?f] =>
    pose proof (table_extract a b c d e f) as He;
    destruct (AudioSegmentGenerator._extract_segment_librosa a b c d e f) as [w1 [[|] p]]
  end; exact He.
Qed.

Lemma table_generate_spectrogram self w audio session detection_id sp conf :
  World.table (fst (SpectrogramGenerator.generate_spectrogram self w audio session
                      detection_id sp conf)) = World.table w.
Proof.
  unfold SpectrogramGenerator.generate_spectrogram.
  destruct (negb _); [reflexivity|].
  destruct (World.mkdir _ _); [|reflexivity].
  destruct (SpectrogramGenerator._generate_filename _ _ _) as [filename|]; [|reflexivity].
  unfold SpectrogramGenerator._create_melspectrogram.
  destruct (World.render_ok _ _ _); reflexivity.
Qed.

(** *** One detection *)

Lemma rowcount_execute_update w detection_id audio_path spectrogram_path :
  snd (ProcessingManager.execute_update w detection_id audio_path spectrogram_path)
  = match rowcount w detection_id with
    | Some n => Ok n
    | None => Raise OSError (u "unable to open database file")
    end.
Proof.
  unfold ProcessingManager.execute_update, rowcount.
  destruct (World.table w) as [rows|]; [|reflexivity].
  destruct (rows !! detection_id); reflexivity.
Qed.

(** The update: what it returns, and what it does to the table. *)
Lemma update_cases self w detection_id audio_path spectrogram_path :
  match row_of w detection_id with
  | Some row =>
      exists w1 rows,
        ProcessingManager._update_detection_paths self w detection_id audio_path
          spectrogram_path = (w1, true)
        /\ World.table w = Some rows
        /\ World.table w1
           = Some (<[detection_id :=
                       with_paths row (ProcessingManager.column_of audio_path)
                                  (ProcessingManager.column_of spectrogram_path)]> rows)
        /\ World.trace w1
           = World.trace w ++ [World.EvUpdate detection_id audio_path spectrogram_path]
  | None =>
      exists w1,
        ProcessingManager._update_detection_paths self w detection_id audio_path
          spectrogram_path = (w1, false)
        /\ World.table w1 = World.table w
        /\ (World.table w <> None ->
            World.trace w1
            = World.trace w ++ [World.EvUpdate detection_id audio_path spectrogram_path])
  end.
Proof.
  unfold row_of, ProcessingManager._update_detection_paths,
    ProcessingManager.execute_update.
  destruct (World.table w) as [rows|] eqn:Ht.
  - destruct (rows !! detection_id) as [row|] eqn:Hr.
    + eexists _, rows. split; [reflexivity|]. split; [reflexivity|].
      split; reflexivity.
    + eexists. split; [reflexivity|]. split; [exact Ht|]. intros _. reflexivity.
  - eexists. split; [reflexivity|]. split; [exact Ht|]. congruence.
Qed.

(** The spectrogram step never raises and leaves the table alone; it
    changes the statistics only by counting a rendered spectrogram. *)
Lemma spectrogram_step_cases self w audio_ok rel session_dir detection_id sp conf :
  exists self2 w2 spath,
    ProcessingManager.spectrogram_step self w audio_ok rel session_dir detection_id
      sp conf = Ok (self2, w2, spath)
    /\ World.table w2 = World.table w
    /\ ((self2 = self /\ spath = None)
        \/ (self2 = ProcessingManager.count_spectrogram self /\ spath <> None))
    /\ (ProcessingManager.enable_spectrogram self && audio_ok = false ->
        self2 = self /\ w2 = w /\ spath = None).
Proof.
  unfold ProcessingManager.spectrogram_step, ProcessingManager.spectrogram_generator.
  destruct (ProcessingManager.enable_spectrogram self) eqn:He; cbn [andb].
  - destruct audio_ok.
    + match goal with |- context [SpectrogramGenerator.generate_spectrogram ?a ?b ?c ?d ?e ?f ?g] =>
        pose proof (table_generate_spectrogram a b c d e f g) as Ht;
        destruct (SpectrogramGenerator.generate_spectrogram a b c d e f g)
          as [w1 [[[|] p] e0]]
      end; cbn [fst] in Ht.
      * eexists _, _, _. split; [reflexivity|]. split; [exact Ht|].
        split; [right; split; [reflexivity|discriminate]|discriminate].
      * eexists _, _, _. split; [reflexivity|]. split; [exact Ht|].
        split; [left; split; reflexivity|discriminate].
    + eexists _, _, _. split; [reflexivity|]. split; [reflexivity|].
      split; [left; split; reflexivity|]. intros _. repeat split.
  - eexists _, _, _. split; [reflexivity|]. split; [reflexivity|].
    split; [left; split; reflexivity|]. intros _. repeat split.
Qed.

Lemma spectrogram_step_disabled self w audio_ok rel session_dir detection_id sp conf :
  ProcessingManager.enable_spectrogram self = false ->
  ProcessingManager.spectrogram_step self w audio_ok rel session_dir detection_id
    sp conf = Ok (self, w, None).
Proof.
  intros He. unfold ProcessingManager.spectrogram_step. rewrite He. reflexivity.
Qed.

Lemma spectrogram_step_failed self w rel session_dir detection_id sp conf sg w2 out err :
  ProcessingManager.spectrogram_generator self = Some sg ->
  SpectrogramGenerator.generate_spectrogram sg w
    (AudioFileManager.resolve_relative_path (ProcessingManager.file_manager self) rel)
    session_dir detection_id sp conf = (w2, (false, out, err)) ->
  ProcessingManager.spectrogram_step self w true rel session_dir detection_id
    sp conf = Ok (self, w2, None).
Proof.
  intros Hsg Hgen. unfold ProcessingManager.spectrogram_step.
  rewrite Hsg. unfold ProcessingManager.spectrogram_generator in Hsg.
  destruct (ProcessingManager.enable_spectrogram self); [|discriminate].
  cbn [andb]. rewrite Hgen. reflexivity.
Qed.

(** The arguments read from the row are the columns of the row. *)
Lemma segment_arguments_columns d start_time end_time sp conf :
  ProcessingManager.segment_arguments d = Ok (start_time, end_time, sp, conf) ->
  sp = default (VStr (u "Unknown"))
               (ProcessingManager.fields d !! "common_name"%string)
  /\ ProcessingManager.fields d !! "confidence"%string = Some conf.
Proof.
  unfold ProcessingManager.segment_arguments.
  destruct (bind (AudioFileManager.getitem _ "start_time_seconds") _); [|discriminate].
  cbn [bind].
  destruct (bind (AudioFileManager.getitem _ "end_time_seconds") _); [|discriminate].
  cbn [bind]. unfold AudioFileManager.getitem.
  destruct (ProcessingManager.fields d !! "confidence"%string); [|discriminate].
  cbn [bind]. intros [= <- <- <- <-]. split; reflexivity.
Qed.

(** What [_process_single_detection] does once the extraction has run. *)
Lemma process_reached self w d source session_dir start_time end_time sp conf
    w1 audio_ok rel err :
  reaches_extraction self w d source session_dir start_time end_time sp conf ->
  extraction self w d source session_dir start_time end_time sp conf
  = (w1, (audio_ok, rel, err)) ->
  ProcessingManager._process_single_detection self w d
  = let self0 := ProcessingManager.count_processed self in
    let self1 := if audio_ok then ProcessingManager.count_audio self0 else self0 in
    match ProcessingManager.spectrogram_step self1 w1 audio_ok rel session_dir
            (ProcessingManager.id d) sp conf with
    | Raise _ m =>
        (ProcessingManager.record_error self1
           (u "処理実行エラー " ++ ProcessingManager.id_tag (ProcessingManager.id d)
              ++ u ": " ++ m), w1,
         (false, u "処理実行エラー " ++ ProcessingManager.id_tag (ProcessingManager.id d)
                   ++ u ": " ++ m))
    | Ok (self2, w2, spectrogram_path) =>
        let '(w3, update_success) :=
          ProcessingManager._update_detection_paths self2 w2 (ProcessingManager.id d)
            (if audio_ok then Some rel else None) spectrogram_path in
        if update_success then
          if audio_ok then
            (ProcessingManager.count_success self2, w3,
             (true,
              u "処理完了 " ++ ProcessingManager.id_tag (ProcessingManager.id d)
                ++ u " - 音声: " ++ ProcessingManager.bool_str audio_ok
                ++ u ", スペクトログラム: "
                ++ ProcessingManager.bool_str (bool_decide (is_Some spectrogram_path))))
          else
            (ProcessingManager.record_error self2
               (u "音声セグメント生成失敗 "
                  ++ ProcessingManager.id_tag (ProcessingManager.id d)), w3,
             (false, u "音声セグメント生成失敗 "
                       ++ ProcessingManager.id_tag (ProcessingManager.id d)))
        else
          (ProcessingManager.record_error self2
             (u "データベース更新失敗 "
                ++ ProcessingManager.id_tag (ProcessingManager.id d)), w3,
           (false, u "データベース更新失敗 "
                     ++ ProcessingManager.id_tag (ProcessingManager.id d)))
    end.
Proof.
  intros (Hvalid & (filename & Hfn & Hfind) & Hdir & Hargs) Hext.
  unfold ProcessingManager._process_single_detection. cbv zeta.
  change (ProcessingManager.file_manager (ProcessingManager.count_processed self))
    with (ProcessingManager.file_manager self).
  change (ProcessingManager.segment_generator (ProcessingManager.count_processed self))
    with (ProcessingManager.segment_generator self).
  destruct (AudioFileManager.validate_file_paths _ _ _) as [is_valid errs].
  cbn [fst] in Hvalid. subst is_valid. cbn [negb].
  unfold AudioFileManager.getitem at 1. rewrite Hfn. cbn [bind].
  rewrite Hfind. cbn [bind]. rewrite Hdir. cbn [bind]. rewrite Hargs. cbn [bind].
  unfold extraction in Hext. rewrite Hext.
  destruct (ProcessingManager.spectrogram_step _ _ _ _ _ _ _ _) as [[[self2 w2] spath]|];
    [|reflexivity].
  destruct (ProcessingManager._update_detection_paths _ _ _ _ _) as [w3 [|]];
    destruct audio_ok; reflexivity.
Qed.

(** Either the item fails before the extraction, which records one error
    that mentions its id and leaves the world alone, or the extraction is
    reached. *)
Lemma process_cases self w d :
  (exists msg,
      mentions_id msg (ProcessingManager.id d)
      /\ ProcessingManager._process_single_detection self w d
         = (ProcessingManager.record_error (ProcessingManager.count_processed self) msg,
            w, (false, msg)))
  \/ (exists source session_dir start_time end_time sp conf,
         reaches_extraction self w d source session_dir start_time end_time sp conf).
Proof.
  unfold ProcessingManager._process_single_detection. cbv zeta.
  change (ProcessingManager.file_manager (ProcessingManager.count_processed self))
    with (ProcessingManager.file_manager self).
  destruct (AudioFileManager.validate_file_paths _ _ _) as [[|] errs] eqn:Hval;
    cbn [negb].
  2: { left. eexists. split; [|reflexivity]. eexists _, _. reflexivity. }
  unfold AudioFileManager.getitem at 1.
  destruct (ProcessingManager.fields d !! "filename"%string) as [filename|] eqn:Hfn;
    cbn [bind].
  2: { left. eexists. split; [|reflexivity]. eexists _, _. reflexivity. }
  destruct (AudioFileManager.find_source_audio_file _ _ filename) as [[source|]|]
    eqn:Hfind; cbn [bind].
  2, 3: left; eexists; (split; [|reflexivity]); eexists _, _; reflexivity.
  destruct (ProcessingManager.session_directory d) as [session_dir|] eqn:Hdir;
    cbn [bind].
  2: { left. eexists. split; [|reflexivity]. eexists _, _. reflexivity. }
  destruct (ProcessingManager.segment_arguments d) as [[[[st en] sp] conf]|] eqn:Hargs;
    cbn [bind].
  2: { left. eexists. split; [|reflexivity]. eexists _, _. reflexivity. }
  right. exists source, session_dir, st, en, sp, conf.
  split; [rewrite Hval; reflexivity|]. split; [eauto|]. split; assumption.
Qed.

Lemma row_of_table w1 w2 k : World.table w1 = World.table w2 -> row_of w1 k = row_of w2 k.
Proof. unfold row_of. intros ->. reflexivity. Qed.

Lemma with_paths_audio row a s :
  with_paths row a s !! "audio_segment_path"%string = Some a.
Proof.
  unfold with_paths. rewrite lookup_insert_ne by discriminate.
  apply lookup_insert_eq.
Qed.

Lemma with_paths_spectrogram row a s :
  with_paths row a s !! "spectrogram_path"%string = Some s.
Proof. unfold with_paths. apply lookup_insert_eq. Qed.

(** Taking the result of a run apart without touching its components. *)
Ltac split_result H :=
  let Hres := fresh "Hres" in
  let Hself := fresh "Hself" in
  let Hw := fresh "Hw" in
  let Hok := fresh "Hok" in
  let Hmsg := fresh "Hmsg" in
  apply pair_equal_spec in H as [H Hres];
  apply pair_equal_spec in H as [Hself Hw];
  apply pair_equal_spec in Hres as [Hok Hmsg];
  subst.

Ltac solve_mentions :=
  first [ eexists _, _; reflexivity
        | eexists _, []; rewrite app_nil_r; reflexivity ].

(** Every outcome of one detection, with what it does to the statistics
    and to the table. *)
Lemma step_summary self w d self' w' ok msg :
  ProcessingManager._process_single_detection self w d = (self', w', (ok, msg)) ->
  ProcessingManager.db_path self' = ProcessingManager.db_path self
  /\ ProcessingManager.enable_spectrogram self' = ProcessingManager.enable_spectrogram self
  /\ ProcessingManager.processed_count (ProcessingManager.stats self')
     = ProcessingManager.processed_count (ProcessingManager.stats self) + 1
  /\ ProcessingManager.total_pending (ProcessingManager.stats self')
     = ProcessingManager.total_pending (ProcessingManager.stats self)
  /\ (if ok then
        ProcessingManager.success_count (ProcessingManager.stats self')
        = ProcessingManager.success_count (ProcessingManager.stats self) + 1
        /\ ProcessingManager.error_count (ProcessingManager.stats self')
           = ProcessingManager.error_count (ProcessingManager.stats self)
        /\ ProcessingManager.errors (ProcessingManager.stats self')
           = ProcessingManager.errors (ProcessingManager.stats self)
        /\ exists rel, audio_path_of w' (ProcessingManager.id d) = Some (VStr rel)
      else
        ProcessingManager.success_count (ProcessingManager.stats self')
        = ProcessingManager.success_count (ProcessingManager.stats self)
        /\ ProcessingManager.error_count (ProcessingManager.stats self')
           = ProcessingManager.error_count (ProcessingManager.stats self) + 1
        /\ ProcessingManager.errors (ProcessingManager.stats self')
           = ProcessingManager.errors (ProcessingManager.stats self) ++ [msg]
        /\ mentions_id msg (ProcessingManager.id d))
  /\ (forall k, k <> ProcessingManager.id d -> row_of w' k = row_of w k).
Proof.
  intros H.
  destruct (process_cases self w d)
    as [(m & Hm & Hp)|(source & dir & st & en & sp & conf & Hreach)].
  { rewrite Hp in H. split_result H.
    repeat split; try reflexivity. exact Hm. }
  destruct (extraction self w d source dir st en sp conf)
    as [w1 [[audio_ok rel] err]] eqn:Hext.
  rewrite (process_reached _ _ _ _ _ _ _ _ _ _ _ _ _ Hreach Hext) in H.
  cbv zeta in H.
  assert (Ht1 : World.table w1 = World.table w).
  { unfold extraction in Hext.
    rewrite <- (table_generate_segment (ProcessingManager.segment_generator self) w
                  source st en dir (ProcessingManager.id d) sp conf), Hext.
    reflexivity. }
  match type of H with context [ProcessingManager.spectrogram_step ?a ?b ?c ?e ?f ?g ?h ?i] =>
    destruct (spectrogram_step_cases a b c e f g h i)
      as (self2 & w2 & spath & Hstep & Ht2 & Hself2 & _)
  end.
  rewrite Hstep in H.
  match type of H with context [ProcessingManager._update_detection_paths ?a ?b ?c ?e ?f] =>
    pose proof (update_cases a b c e f) as Hupd
  end.
  assert (Hother : forall w3, forall k, k <> ProcessingManager.id d ->
            (World.table w3 = World.table w2
             \/ exists rows row, World.table w2 = Some rows
                  /\ World.table w3 = Some (<[ProcessingManager.id d := row]> rows)) ->
            row_of w3 k = row_of w k).
  { intros w3 k Hk [E|(rows & row & E2 & E3)].
    - apply row_of_table. congruence.
    - unfold row_of. rewrite E3, <- Ht1, <- Ht2, E2. apply lookup_insert_ne. congruence. }
  destruct (row_of w2 (ProcessingManager.id d)) as [row|] eqn:Hrow.
  - destruct Hupd as (w3 & rows & Hu & Hrows & Htab & _). rewrite Hu in H.
    assert (Hk : forall k, k <> ProcessingManager.id d -> row_of w3 k = row_of w k).
    { intros k Hk. apply (Hother _ k Hk). right. eauto. }
    destruct audio_ok; split_result H;
      (destruct Hself2 as [[-> ->]|[-> _]]);
      (split; [reflexivity|]); (split; [reflexivity|]); (split; [reflexivity|]);
      (split; [reflexivity|]); (split; [|exact Hk]).
    1, 2: split; [reflexivity|]; split; [reflexivity|]; split; [reflexivity|];
      exists rel; unfold audio_path_of, row_of; rewrite Htab, lookup_insert_eq;
      apply with_paths_audio.
    1, 2: split; [reflexivity|]; split; [reflexivity|]; split; [reflexivity|];
      solve_mentions.
  - destruct Hupd as (w3 & Hu & Htab & _). rewrite Hu in H.
    assert (Hk : forall k, k <> ProcessingManager.id d -> row_of w3 k = row_of w k).
    { intros k Hk. apply (Hother _ k Hk). left. exact Htab. }
    split_result H.
    destruct Hself2 as [[-> ->]|[-> _]]; destruct audio_ok;
      (split; [reflexivity|]); (split; [reflexivity|]); (split; [reflexivity|]);
      (split; [reflexivity|]); (split; [|exact Hk]);
      (split; [reflexivity|]; split; [reflexivity|]; split; [reflexivity|];
       solve_mentions).
Qed.

(** An item whose extraction succeeded: the spectrogram step, then the
    update decides. *)
Lemma process_extracted self w d w1 rel :
  extracted self w d w1 rel ->
  exists self2 w2 spath,
    World.table w2 = World.table w
    /\ ((self2 = after_audio self true /\ spath = None)
        \/ (self2 = ProcessingManager.count_spectrogram (after_audio self true)
            /\ spath <> None))
    /\ (ProcessingManager.enable_spectrogram self = false \/ rendering_fails self w1 d rel ->
        self2 = after_audio self true /\ spath = None)
    /\ match row_of w (ProcessingManager.id d) with
       | Some row =>
           exists rows w3 msg,
             ProcessingManager._process_single_detection self w d
             = (ProcessingManager.count_success self2, w3, (true, msg))
             /\ World.table w = Some rows
             /\ World.table w3
                = Some (<[ProcessingManager.id d :=
                            with_paths row (VStr rel)
                                       (ProcessingManager.column_of spath)]> rows)
       | None =>
           exists w3,
             ProcessingManager._process_single_detection self w d
             = (ProcessingManager.record_error self2
                  (u "データベース更新失敗 "
                     ++ ProcessingManager.id_tag (ProcessingManager.id d)), w3,
                (false, u "データベース更新失敗 "
                          ++ ProcessingManager.id_tag (ProcessingManager.id d)))
             /\ World.table w3 = World.table w
       end.
Proof.
  intros (source & dir & st & en & sp & conf & err & Hreach & Hext).
  rewrite (process_reached _ _ _ _ _ _ _ _ _ _ _ _ _ Hreach Hext). cbv zeta.
  assert (Ht1 : World.table w1 = World.table w).
  { unfold extraction in Hext.
    rewrite <- (table_generate_segment (ProcessingManager.segment_generator self) w
                  source st en dir (ProcessingManager.id d) sp conf), Hext.
    reflexivity. }
  fold (after_audio self true).
  destruct (spectrogram_step_cases (after_audio self true) w1 true rel dir
              (ProcessingManager.id d) sp conf)
    as (self2 & w2 & spath & Hstep & Ht2 & Hself2 & Hoff).
  exists self2, w2, spath.
  split; [congruence|]. split; [exact Hself2|].
  split.
  { intros [Hdis|(sg & dir' & w2' & out & err' & Hsg & Hdir' & Hgen)].
    - destruct Hoff as (-> & _ & ->); [|split; reflexivity].
      change (ProcessingManager.enable_spectrogram (after_audio self true))
        with (ProcessingManager.enable_spectrogram self).
      rewrite Hdis. reflexivity.
    - destruct Hreach as (_ & _ & Hdir & Hargs).
      rewrite Hdir in Hdir'. injection Hdir' as <-.
      apply segment_arguments_columns in Hargs as (Hsp & Hconf).
      rewrite <- Hsp, Hconf in Hgen. cbn [default] in Hgen.
      rewrite (spectrogram_step_failed (after_audio self true) w1 rel dir
                 (ProcessingManager.id d) sp conf sg w2' out err' Hsg Hgen) in Hstep.
      injection Hstep as <- <- <-. split; reflexivity. }
  rewrite Hstep.
  pose proof (update_cases self2 w2 (ProcessingManager.id d) (Some rel) spath) as Hupd.
  rewrite (row_of_table w2 w) in Hupd by congruence.
  destruct (row_of w (ProcessingManager.id d)) as [row|].
  - destruct Hupd as (w3 & rows & Hu & Hrows & Htab & _). rewrite Hu.
    eexists rows, w3, _. split; [reflexivity|]. split; [congruence|]. exact Htab.
  - destruct Hupd as (w3 & Hu & Htab & _). rewrite Hu.
    exists w3. split; [reflexivity|]. congruence.
Qed.

(** An item whose extraction failed: the update still runs, with both
    paths null. *)
Lemma process_extraction_failed self w d source dir st en sp conf w1 rel err :
  reaches_extraction self w d source dir st en sp conf ->
  extraction self w d source dir st en sp conf = (w1, (false, rel, err)) ->
  exists w3 msg,
    ProcessingManager._process_single_detection self w d
    = (ProcessingManager.record_error (ProcessingManager.count_processed self) msg,
       w3, (false, msg))
    /\ (World.table w <> None ->
        World.trace w3
        = World.trace w1 ++ [World.EvUpdate (ProcessingManager.id d) None None])
    /\ match row_of w (ProcessingManager.id d) with
       | Some row =>
           exists rows,
             msg = u "音声セグメント生成失敗 "
                     ++ ProcessingManager.id_tag (ProcessingManager.id d)
             /\ World.table w = Some rows
             /\ World.table w3
                = Some (<[ProcessingManager.id d := with_paths row VNone VNone]> rows)
       | None =>
           msg = u "データベース更新失敗 "
                   ++ ProcessingManager.id_tag (ProcessingManager.id d)
           /\ World.table w3 = World.table w
       end.
Proof.
  intros Hreach Hext.
  rewrite (process_reached _ _ _ _ _ _ _ _ _ _ _ _ _ Hreach Hext). cbv zeta.
  assert (Ht1 : World.table w1 = World.table w).
  { unfold extraction in Hext.
    rewrite <- (table_generate_segment (ProcessingManager.segment_generator self) w
                  source st en dir (ProcessingManager.id d) sp conf), Hext.
    reflexivity. }
  unfold ProcessingManager.spectrogram_step. rewrite andb_false_r.
  pose proof (update_cases (ProcessingManager.count_processed self) w1
                (ProcessingManager.id d) None None) as Hupd.
  rewrite (row_of_table w1 w) in Hupd by exact Ht1.
  destruct (row_of w (ProcessingManager.id d)) as [row|].
  - destruct Hupd as (w3 & rows & Hu & Hrows & Htab & Htr). rewrite Hu.
    eexists w3, _. split; [reflexivity|]. split; [intros _; exact Htr|].
    exists rows. split; [reflexivity|]. split; [congruence|exact Htab].
  - destruct Hupd as (w3 & Hu & Htab & Htr). rewrite Hu.
    eexists w3, _. split; [reflexivity|].
    split; [intros Hn; apply Htr; congruence|]. split; [reflexivity|congruence].
Qed.

Lemma rowcount_row_of w detection_id :
  rowcount w detection_id
  = match World.table w with
    | Some _ => Some (match row_of w detection_id with Some _ => 1 | None => 0 end)
    | None => None
    end.
Proof. unfold rowcount, row_of. destruct (World.table w); reflexivity. Qed.

(** C5. Whatever the outcome of an item, it is a success exactly when
    its audio extraction was reached and succeeded and the update of the two
    path columns affects at least one row (the table is not touched before
    the update, so the count is that of the table the item starts from).
    When the extraction succeeded and the update affects no row, the item
    fails with the update-failure message and is counted as an error. *)
Theorem C5_success_iff_extracted_and_persisted self w d self' w' ok msg :
  ProcessingManager._process_single_detection self w d = (self', w', (ok, msg)) ->
  (ok = true <->
   (exists w1 rel, extracted self w d w1 rel)
   /\ exists n, rowcount w (ProcessingManager.id d) = Some n /\ 0 < n)
  /\ ((exists w1 rel, extracted self w d w1 rel) ->
      rowcount w (ProcessingManager.id d) = Some 0 ->
      ok = false
      /\ msg = u "データベース更新失敗 "
                ++ ProcessingManager.id_tag (ProcessingManager.id d)
      /\ ProcessingManager.error_count (ProcessingManager.stats self')
         = ProcessingManager.error_count (ProcessingManager.stats self) + 1
      /\ ProcessingManager.success_count (ProcessingManager.stats self')
         = ProcessingManager.success_count (ProcessingManager.stats self)).
Proof.
  intros H. split; [split|].
  - intros ->.
    destruct (process_cases self w d)
      as [(m & _ & Hp)|(source & dir & st & en & sp & conf & Hreach)].
    { rewrite Hp in H. split_result H. discriminate. }
    destruct (extraction self w d source dir st en sp conf)
      as [w1 [[[|] rel] err]] eqn:Hext.
    + assert (Hex : extracted self w d w1 rel).
      { exists source, dir, st, en, sp, conf, err. split; assumption. }
      split; [eauto|].
      destruct (process_extracted self w d w1 rel Hex)
        as (self2 & w2 & spath & _ & _ & _ & Hrow).
      rewrite rowcount_row_of.
      destruct (row_of w (ProcessingManager.id d)) as [row|].
      * destruct Hrow as (rows & w3 & m & _ & Hrows & _). rewrite Hrows.
        exists 1. split; [reflexivity|lia].
      * destruct Hrow as (w3 & Hp & _). rewrite Hp in H. split_result H. discriminate.
    + destruct (process_extraction_failed _ _ _ _ _ _ _ _ _ _ _ _ Hreach Hext)
        as (w3 & m & Hp & _).
      rewrite Hp in H. split_result H. discriminate.
  - intros ((w1 & rel & Hex) & n & Hn & Hpos).
    destruct (process_extracted self w d w1 rel Hex)
      as (self2 & w2 & spath & _ & _ & _ & Hrow).
    rewrite rowcount_row_of in Hn.
    destruct (row_of w (ProcessingManager.id d)) as [row|].
    + destruct Hrow as (rows & w3 & m & Hp & _). rewrite Hp in H.
      split_result H. reflexivity.
    + destruct (World.table w); [|discriminate]. injection Hn as <-. lia.
  - intros (w1 & rel & Hex) Hn.
    destruct (process_extracted self w d w1 rel Hex)
      as (self2 & w2 & spath & _ & Hself2 & _ & Hrow).
    rewrite rowcount_row_of in Hn.
    destruct (row_of w (ProcessingManager.id d)) as [row|].
    + destruct (World.table w); discriminate.
    + destruct Hrow as (w3 & Hp & _). rewrite Hp in H. split_result H.
      split; [reflexivity|]. split; [reflexivity|].
      destruct Hself2 as [[-> _]|[-> _]]; split; reflexivity.
Qed.

(** Detection 1 reaches the extraction wherever the source recording
    exists and the row is as in the example. *)
Ltac example_reaches :=
  split; [vm_compute; reflexivity|];
  split; [exists (VStr (u "rec1")); split; vm_compute; reflexivity|];
  split; vm_compute; reflexivity.

Lemma C5_success_iff_extracted_and_persisted_witness :
  (exists w1 rel, extracted (Example.manager true) Example.world0 Example.detection1 w1 rel)
  /\ exists n, rowcount Example.world0 1 = Some n /\ 0 < n.
Proof.
  apply (proj1 (C5_success_iff_extracted_and_persisted (Example.manager true)
                  Example.world0 Example.detection1
                  (fst (fst (Example.process1 true Example.world0)))
                  (snd (fst (Example.process1 true Example.world0))) true
                  (u "処理完了 (ID:1) - 音声: True, スペクトログラム: True")
                  (triple_eta_snd _ _ ltac:(vm_compute; reflexivity)))).
  reflexivity.
Defined.

(** C6. When the extraction of an item that passed validation and source
    lookup fails, the manager still runs the update with both paths null:
    the row of the item, whatever it held, now has NULL in
    [audio_segment_path] and in [spectrogram_path], the other rows are
    untouched, and the item is reported as a failed extraction. *)
Theorem C6_failed_extraction_nulls_paths self w d source session_dir start_time
    end_time sp conf w1 rel err rows row :
  reaches_extraction self w d source session_dir start_time end_time sp conf ->
  extraction self w d source session_dir start_time end_time sp conf
  = (w1, (false, rel, err)) ->
  World.table w = Some rows ->
  rows !! ProcessingManager.id d = Some row ->
  exists w',
    ProcessingManager._process_single_detection self w d
    = (ProcessingManager.record_error (ProcessingManager.count_processed self)
         (u "音声セグメント生成失敗 "
            ++ ProcessingManager.id_tag (ProcessingManager.id d)),
       w',
       (false, u "音声セグメント生成失敗 "
                 ++ ProcessingManager.id_tag (ProcessingManager.id d)))
    /\ World.trace w'
       = World.trace w1 ++ [World.EvUpdate (ProcessingManager.id d) None None]
    /\ World.table w'
       = Some (<[ProcessingManager.id d := with_paths row VNone VNone]> rows)
    /\ audio_path_of w' (ProcessingManager.id d) = Some VNone
    /\ spectrogram_path_of w' (ProcessingManager.id d) = Some VNone
    /\ (forall k, k <> ProcessingManager.id d -> row_of w' k = row_of w k).
Proof.
  intros Hreach Hext Htab Hrow.
  destruct (process_extraction_failed _ _ _ _ _ _ _ _ _ _ _ _ Hreach Hext)
    as (w3 & msg & Hp & Htr & Hcase).
  assert (Hr : row_of w (ProcessingManager.id d) = Some row).
  { unfold row_of. rewrite Htab. exact Hrow. }
  rewrite Hr in Hcase. destruct Hcase as (rows' & -> & Hrows' & Htab3).
  assert (rows' = rows) by congruence. subst rows'.
  exists w3. split; [exact Hp|].
  split; [apply Htr; congruence|]. split; [exact Htab3|].
  split; [|split].
  - unfold audio_path_of, row_of. rewrite Htab3, lookup_insert_eq.
    apply with_paths_audio.
  - unfold spectrogram_path_of, row_of. rewrite Htab3, lookup_insert_eq.
    apply with_paths_spectrogram.
  - intros k Hk. unfold row_of. rewrite Htab3, Htab. apply lookup_insert_ne. congruence.
Qed.

Lemma C6_failed_extraction_nulls_paths_witness :
  audio_path_of Example.world_no_decoder 1
  = Some (VStr (u "audio_segments/Site_A/old.wav"))
  /\ exists w',
       snd (ProcessingManager._process_single_detection (Example.manager true)
              Example.world_no_decoder Example.detection1_done)
       = (false, u "音声セグメント生成失敗 " ++ ProcessingManager.id_tag 1)
       /\ snd (fst (ProcessingManager._process_single_detection (Example.manager true)
                      Example.world_no_decoder Example.detection1_done)) = w'
       /\ audio_path_of w' 1 = Some VNone.
Proof.
  split; [vm_compute; reflexivity|].
  destruct (C6_failed_extraction_nulls_paths (Example.manager true)
              Example.world_no_decoder Example.detection1_done Example.source_audio
              (u "Site_A") (NFloat f100) (NFloat f102) (VStr (u "Common Cuckoo"))
              (VFloat f0_873)
              (fst (extraction (Example.manager true) Example.world_no_decoder
                      Example.detection1_done Example.source_audio (u "Site_A")
                      (NFloat f100) (NFloat f102) (VStr (u "Common Cuckoo"))
                      (VFloat f0_873)))
              [] (Some (u "音声セグメント生成に失敗"))
              {[ 1 := Example.row1_done ]} Example.row1_done)
    as (w' & Hp & _ & _ & Ha & _).
  - example_reaches.
  - apply pair_eta_snd. vm_compute. reflexivity.
  - reflexivity.
  - apply lookup_singleton_eq.
  - exists w'. rewrite Hp. split; [reflexivity|]. split; [reflexivity|exact Ha].
Defined.

(** C1, as the specification states it, fails when the row is not in the
    table at the time of the update: detection 1 passes validation, source
    lookup and extraction, rendering is disabled, and the item is reported
    as a failure, counted as an error, with no path persisted. *)
Lemma C1_counterexample :
  (exists w1 rel,
      extracted (Example.manager false) Example.world_vanished Example.detection1 w1 rel)
  /\ ProcessingManager.enable_spectrogram (Example.manager false) = false
  /\ snd (Example.process1 false Example.world_vanished)
     = (false, u "データベース更新失敗 (ID:1)")
  /\ ProcessingManager.success_count
       (ProcessingManager.stats (fst (fst (Example.process1 false Example.world_vanished))))
     = 0
  /\ ProcessingManager.error_count
       (ProcessingManager.stats (fst (fst (Example.process1 false Example.world_vanished))))
     = 1
  /\ audio_path_of (snd (fst (Example.process1 false Example.world_vanished))) 1 = None.
Proof.
  split.
  { exists (fst (Example.extraction1 false Example.world_vanished)), Example.relative_wav.
    exists Example.source_audio, (u "Site_A"), (NFloat f100), (NFloat f102),
      (VStr (u "Common Cuckoo")), (VFloat f0_873), None.
    split; [example_reaches|]. apply pair_eta_snd. vm_compute. reflexivity. }
  repeat split; vm_compute; reflexivity.
Qed.

(** C1, amended. For every detection that passes validation, source
    lookup and audio extraction and whose row is in the table, if rendering
    is disabled, or enabled and failing, the item is a success: its row gets
    the path of the audio segment and NULL as spectrogram path, and the item
    is counted in [success_count] and [audio_success], not in [error_count]
    nor in [spectrogram_success]. *)
Theorem C1_audio_success_without_spectrogram self w d w1 rel rows row :
  extracted self w d w1 rel ->
  ProcessingManager.enable_spectrogram self = false \/ rendering_fails self w1 d rel ->
  World.table w = Some rows ->
  rows !! ProcessingManager.id d = Some row ->
  exists self' w' msg,
    ProcessingManager._process_single_detection self w d = (self', w', (true, msg))
    /\ World.table w'
       = Some (<[ProcessingManager.id d := with_paths row (VStr rel) VNone]> rows)
    /\ audio_path_of w' (ProcessingManager.id d) = Some (VStr rel)
    /\ spectrogram_path_of w' (ProcessingManager.id d) = Some VNone
    /\ ProcessingManager.success_count (ProcessingManager.stats self')
       = ProcessingManager.success_count (ProcessingManager.stats self) + 1
    /\ ProcessingManager.audio_success (ProcessingManager.stats self')
       = ProcessingManager.audio_success (ProcessingManager.stats self) + 1
    /\ ProcessingManager.error_count (ProcessingManager.stats self')
       = ProcessingManager.error_count (ProcessingManager.stats self)
    /\ ProcessingManager.errors (ProcessingManager.stats self')
       = ProcessingManager.errors (ProcessingManager.stats self)
    /\ ProcessingManager.spectrogram_success (ProcessingManager.stats self')
       = ProcessingManager.spectrogram_success (ProcessingManager.stats self).
Proof.
  intros Hex Hspec Htab Hrow.
  destruct (process_extracted self w d w1 rel Hex)
    as (self2 & w2 & spath & _ & _ & Hnone & Hcase).
  destruct (Hnone Hspec) as (-> & ->).
  assert (Hr : row_of w (ProcessingManager.id d) = Some row).
  { unfold row_of. rewrite Htab. exact Hrow. }
  rewrite Hr in Hcase. destruct Hcase as (rows' & w3 & msg & Hp & Hrows' & Htab3).
  assert (rows' = rows) by congruence. subst rows'.
  change (ProcessingManager.column_of None) with VNone in Htab3.
  exists (ProcessingManager.count_success (after_audio self true)), w3, msg.
  split; [exact Hp|]. split; [exact Htab3|].
  split; [|split].
  - unfold audio_path_of, row_of. rewrite Htab3, lookup_insert_eq.
    apply with_paths_audio.
  - unfold spectrogram_path_of, row_of. rewrite Htab3, lookup_insert_eq.
    apply with_paths_spectrogram.
  - repeat split; reflexivity.
Qed.

Lemma C1_audio_success_without_spectrogram_witness :
  exists self' w' msg,
    ProcessingManager._process_single_detection (Example.manager true)
      Example.world_no_renderer Example.detection1 = (self', w', (true, msg))
    /\ audio_path_of w' 1 = Some (VStr Example.relative_wav)
    /\ spectrogram_path_of w' 1 = Some VNone
    /\ ProcessingManager.success_count (ProcessingManager.stats self') = 0 + 1
    /\ ProcessingManager.error_count (ProcessingManager.stats self') = 0.
Proof.
  destruct (C1_audio_success_without_spectrogram (Example.manager true)
              Example.world_no_renderer Example.detection1
              (fst (Example.extraction1 true Example.world_no_renderer))
              Example.relative_wav {[ 1 := Example.row1 ]} Example.row1)
    as (self' & w' & msg & Hp & _ & Ha & Hs & Hsc & _ & Hec & _).
  - exists Example.source_audio, (u "Site_A"), (NFloat f100), (NFloat f102),
      (VStr (u "Common Cuckoo")), (VFloat f0_873), None.
    split; [example_reaches|]. apply pair_eta_snd. vm_compute. reflexivity.
  - right.
    eexists (SpectrogramGenerator.init
              (Path.to_str (Path.join (ProcessingManager.database_root
                                         (Example.manager true)) (u "spectrograms")))),
      (u "Site_A"), _, [], (Some (u "スペクトログラム生成に失敗")).
    split; [reflexivity|]. split; [vm_compute; reflexivity|].
    apply pair_eta_snd. vm_compute. reflexivity.
  - reflexivity.
  - apply lookup_singleton_eq.
  - exists self', w', msg. repeat split; assumption.
Defined.

(** *** The bulk run *)

Lemma firstn_plus {A} (a b : nat) (l : list A) :
  firstn (a + b) l = firstn a l ++ firstn b (skipn a l).
Proof.
  revert l. induction a as [|a IH]; intros l; [reflexivity|].
  destruct l as [|x l]; cbn; [destruct b; reflexivity|].
  rewrite IH. reflexivity.
Qed.

Lemma process_batch_app self w l1 l2 :
  ProcessingManager.process_batch self w (l1 ++ l2)
  = ProcessingManager.process_batch
      (fst (ProcessingManager.process_batch self w l1))
      (snd (ProcessingManager.process_batch self w l1)) l2.
Proof.
  unfold ProcessingManager.process_batch. rewrite fold_left_app.
  destruct (fold_left _ l1 (self, w)) as [s1 w1]. reflexivity.
Qed.

(** Running the batches one after the other is running the whole list. *)
Lemma batches_prefix self w (l : list ProcessingManager.detection) batch_size n :
  0 < batch_size ->
  fold_left (fun st i =>
               ProcessingManager.process_batch (fst st) (snd st)
                 (ProcessingManager.slice l i (i + batch_size)))
            (map (fun k => Z.of_nat k * batch_size) (seq 0 n)) (self, w)
  = ProcessingManager.process_batch self w (firstn (n * Z.to_nat batch_size) l).
Proof.
  intros Hb. induction n as [|n IH]; [reflexivity|].
  rewrite seq_S, map_app, fold_left_app, IH. cbn [map fold_left Nat.add].
  replace (S n * Z.to_nat batch_size)%nat
    with (n * Z.to_nat batch_size + Z.to_nat batch_size)%nat by lia.
  rewrite firstn_plus, process_batch_app.
  unfold ProcessingManager.slice.
  replace (Z.to_nat (Z.of_nat n * batch_size + batch_size - Z.of_nat n * batch_size))
    with (Z.to_nat batch_size) by lia.
  replace (Z.to_nat (Z.of_nat n * batch_size)) with (n * Z.to_nat batch_size)%nat
    by (rewrite Z2Nat.inj_mul, Nat2Z.id by lia; reflexivity).
  reflexivity.
Qed.

Lemma batches_all self w (l : list ProcessingManager.detection) batch_size :
  0 < batch_size ->
  fold_left (fun st i =>
               ProcessingManager.process_batch (fst st) (snd st)
                 (ProcessingManager.slice l i (i + batch_size)))
            (ProcessingManager.py_range (Z.of_nat (length l)) batch_size) (self, w)
  = ProcessingManager.process_batch self w l.
Proof.
  intros Hb. unfold ProcessingManager.py_range.
  destruct (Z.ltb_spec batch_size 0) as [|_]; [lia|].
  rewrite batches_prefix by exact Hb. f_equal. apply firstn_all2.
  pose proof (Z.div_mod (Z.of_nat (length l) + batch_size - 1) batch_size) as Hd.
  pose proof (Z.mod_pos_bound (Z.of_nat (length l) + batch_size - 1) batch_size Hb) as Hm.
  assert (0 <= (Z.of_nat (length l) + batch_size - 1) / batch_size)
    by (apply Z.div_pos; lia).
  apply Nat2Z.inj_le. rewrite Nat2Z.inj_mul, !Z2Nat.id by lia. nia.
Qed.

Lemma process_batch_cons self w d l self1 w1 res :
  ProcessingManager._process_single_detection self w d = (self1, w1, res) ->
  ProcessingManager.process_batch self w (d :: l)
  = ProcessingManager.process_batch self1 w1 l.
Proof.
  intros H. unfold ProcessingManager.process_batch. cbn [fold_left fst snd].
  rewrite H. reflexivity.
Qed.

(** The statistics and the table after a run through a list of
    detections with distinct ids, in terms of the results of its items. *)
Lemma run_summary l :
  forall self w,
    List.NoDup (map ProcessingManager.id l) ->
    let self' := fst (ProcessingManager.process_batch self w l) in
    let w' := snd (ProcessingManager.process_batch self w l) in
    let res := run_results self w l in
    ProcessingManager.processed_count (ProcessingManager.stats self')
    = ProcessingManager.processed_count (ProcessingManager.stats self)
      + Z.of_nat (length l)
    /\ ProcessingManager.success_count (ProcessingManager.stats self')
       = ProcessingManager.success_count (ProcessingManager.stats self)
         + Z.of_nat (length (List.filter fst res))
    /\ ProcessingManager.error_count (ProcessingManager.stats self')
       = ProcessingManager.error_count (ProcessingManager.stats self)
         + Z.of_nat (length (List.filter (fun r => negb (fst r)) res))
    /\ ProcessingManager.errors (ProcessingManager.stats self')
       = ProcessingManager.errors (ProcessingManager.stats self)
         ++ map snd (List.filter (fun r => negb (fst r)) res)
    /\ ProcessingManager.total_pending (ProcessingManager.stats self')
       = ProcessingManager.total_pending (ProcessingManager.stats self)
    /\ (forall k, ~ In k (map ProcessingManager.id l) -> row_of w' k = row_of w k)
    /\ List.Forall2 (settled w') l res.
Proof.
  induction l as [|d l IH]; intros self w Hnd; cbv zeta.
  - cbn. repeat split; try lia; try (rewrite app_nil_r; reflexivity). constructor.
  - destruct (ProcessingManager._process_single_detection self w d)
      as [[self1 w1] [ok msg]] eqn:Hp.
    rewrite (process_batch_cons _ _ _ _ _ _ _ Hp).
    cbn [run_results]. rewrite Hp.
    inversion Hnd as [|? ? Hnotin Hnd']; subst.
    destruct (IH self1 w1 Hnd') as (I1 & I2 & I3 & I4 & I5 & I6 & I7).
    destruct (step_summary _ _ _ _ _ _ _ Hp) as (_ & _ & S1 & S2 & S3 & S4).
    assert (Hkeep : row_of (snd (ProcessingManager.process_batch self1 w1 l))
                           (ProcessingManager.id d)
                    = row_of w1 (ProcessingManager.id d)).
    { apply I6. exact Hnotin. }
    split; [rewrite I1, S1; cbn [length]; lia|].
    assert (Hrows : forall k, ~ In k (map ProcessingManager.id (d :: l)) ->
               row_of (snd (ProcessingManager.process_batch self1 w1 l)) k = row_of w k).
    { intros k Hk. rewrite I6 by (intros Hin; apply Hk; right; exact Hin).
      apply S4. intros ->. apply Hk. left. reflexivity. }
    destruct ok; cbn [List.filter fst snd negb length map];
      destruct S3 as (T1 & T2 & T3 & T4).
    + split; [rewrite I2, T1; cbn [length]; lia|].
      split; [rewrite I3, T2; reflexivity|].
      split; [rewrite I4, T3; reflexivity|].
      split; [congruence|]. split; [exact Hrows|].
      constructor; [|exact I7].
      unfold settled. cbn [fst]. destruct T4 as (rel & Hrel). exists rel.
      unfold audio_path_of in *. rewrite Hkeep. exact Hrel.
    + split; [rewrite I2, T1; reflexivity|].
      split; [rewrite I3, T2; cbn [length]; lia|].
      split; [rewrite I4, T3, <- app_assoc; reflexivity|].
      split; [congruence|]. split; [exact Hrows|].
      constructor; [|exact I7]. exact T4.
Qed.

Lemma insert_row_permutation r l :
  Permutation (ProcessingManager.insert_row r l) (r :: l).
Proof.
  induction l as [|x l IH]; cbn; [reflexivity|].
  destruct (ProcessingManager.sqlite_compare _ _); try reflexivity.
  rewrite IH. apply perm_swap.
Qed.

Lemma order_by_created_at_permutation l :
  Permutation (ProcessingManager.order_by_created_at l) l.
Proof.
  induction l as [|r l IH]; cbn; [reflexivity|].
  rewrite insert_row_permutation. constructor. exact IH.
Qed.

Lemma NoDup_map_fst_filter {A B} (P : A * B -> bool) (l : list (A * B)) :
  List.NoDup (map fst l) -> List.NoDup (map fst (List.filter P l)).
Proof.
  induction l as [|x l IH]; cbn; [intros _; constructor|].
  intros H. inversion H as [|? ? Hx Hl]; subst.
  destruct (P x); cbn; [|apply IH; exact Hl].
  constructor; [|apply IH; exact Hl].
  intros Hin. apply Hx. apply in_map_iff in Hin as (y & Hy & Hin).
  apply in_map_iff. exists y. split; [exact Hy|].
  apply filter_In in Hin. tauto.
Qed.

Lemma list_fmap_map {A B} (f : A -> B) (l : list A) : f <$> l = map f l.
Proof. induction l as [|x l IH]; cbn; [reflexivity|]. rewrite <- IH. reflexivity. Qed.

(** The pending detections are rows of the table, one per id. *)
Lemma pending_ids_distinct self w :
  List.NoDup (map ProcessingManager.id (ProcessingManager._get_pending_detections self w)).
Proof.
  unfold ProcessingManager._get_pending_detections.
  destruct (World.table w) as [rows|]; [|constructor].
  rewrite map_map. cbn [ProcessingManager.id].
  change (fun x : Z * gmap string value => fst x) with (@fst Z (gmap string value)).
  eapply Permutation_NoDup.
  - symmetry. apply Permutation_map. apply order_by_created_at_permutation.
  - apply NoDup_map_fst_filter. rewrite <- list_fmap_map.
    apply NoDup_ListNoDup, NoDup_fst_map_to_list.
Qed.





(** * Further properties *)

(** ** Names of directories *)

Ltac bool_cases :=
  repeat match goal with
         | |- context [?a <=? ?b] => destruct (Z.leb_spec a b)
         | |- context [?a <? ?b] => destruct (Z.ltb_spec a b)
         | |- context [?a =? ?b] => destruct (Z.eqb_spec a b)
         end;
  cbn [andb orb negb]; try reflexivity; try lia.

Lemma contains_In c s : contains c s = true <-> In c s.
Proof.
  unfold contains. rewrite existsb_exists. split.
  - intros (x & Hin & Hx). apply Z.eqb_eq in Hx. subst. exact Hin.
  - intros Hin. exists c. split; [exact Hin|apply Z.eqb_refl].
Qed.

Lemma In_firstn {A} (x : A) n l : In x (firstn n l) -> In x l.
Proof.
  revert l. induction n as [|n IH]; intros [|a l]; cbn; try tauto.
  intros [H|H]; [left; exact H|right; exact (IH _ H)].
Qed.

Lemma safe_chars_below c : In c AudioFileManager.safe_chars -> 0 <= c < 128.
Proof.
  intros Hin.
  assert (H : forallb (fun x => (0 <=? x) && (x <? 128)) AudioFileManager.safe_chars
              = true) by (vm_compute; reflexivity).
  rewrite forallb_forall in H. specialize (H c Hin).
  apply andb_prop in H as [H1 H2]. apply Z.leb_le in H1. apply Z.ltb_lt in H2. lia.
Qed.

(** The safe characters are the ASCII letters and digits, ["_"] and ["-"]. *)
Lemma safe_chars_ascii c :
  contains c AudioFileManager.safe_chars = is_ascii_alnum c || (c =? 95) || (c =? 45).
Proof.
  destruct (Z_lt_ge_dec c 0) as [Hneg|Hpos]; [|destruct (Z_lt_ge_dec c 128) as [Hlt|Hge]].
  - transitivity false.
    + apply not_true_is_false. intros H. apply contains_In, safe_chars_below in H. lia.
    + unfold is_ascii_alnum, is_ascii_digit, is_ascii_upper, is_ascii_lower. bool_cases.
  - apply Bool.eqb_prop.
    apply (below_forallb
             (fun c => Bool.eqb (contains c AudioFileManager.safe_chars)
                                (is_ascii_alnum c || (c =? 95) || (c =? 45))) 128);
      [vm_compute; reflexivity | lia].
  - transitivity false.
    + apply not_true_is_false. intros H. apply contains_In, safe_chars_below in H. lia.
    + unfold is_ascii_alnum, is_ascii_digit, is_ascii_upper, is_ascii_lower. bool_cases.
Qed.

Lemma safe_char_safe c : contains (safe_char c) AudioFileManager.safe_chars = true.
Proof.
  unfold safe_char. destruct (contains c AudioFileManager.safe_chars) eqn:E; [exact E|].
  vm_compute. reflexivity.
Qed.

Lemma safe_char_fix c :
  contains c AudioFileManager.safe_chars = true -> safe_char c = c.
Proof. intros H. unfold safe_char. rewrite H. reflexivity. Qed.

Lemma session_directory_name_eq session_name :
  AudioFileManager.generate_session_directory_name session_name
  = firstn 100 (map safe_char session_name).
Proof.
  unfold AudioFileManager.generate_session_directory_name. fold safe_char.
  destruct (Nat.ltb_spec 100 (length (map safe_char session_name))) as [H|H];
    [reflexivity|].
  symmetry. apply firstn_all2. exact H.
Qed.

Lemma session_directory_name_safe session_name :
  Forall (fun c => contains c AudioFileManager.safe_chars = true)
         (AudioFileManager.generate_session_directory_name session_name).
Proof.
  rewrite session_directory_name_eq. apply List.Forall_forall. intros c Hin.
  apply In_firstn in Hin. apply in_map_iff in Hin as (x & <- & _).
  apply safe_char_safe.
Qed.

Lemma map_safe_char_fix s :
  Forall (fun c => contains c AudioFileManager.safe_chars = true) s ->
  map safe_char s = s.
Proof.
  induction 1 as [|c s Hc _ IH]; [reflexivity|].
  cbn [map]. rewrite (safe_char_fix c Hc), IH. reflexivity.
Qed.

(** X1. The directory name of a session has the length of the session
    name, cut at 100 characters; it keeps at each position the character of
    the session name when this is an ASCII letter or digit, ["_"] or ["-"],
    and has ["_"] there otherwise, so that it consists of these characters
    only; a name that is already of this kind and at most 100 long is
    returned as it is, and naming twice changes nothing more. *)
Theorem X1_session_directory_name (session_name : list Z) :
  let name := AudioFileManager.generate_session_directory_name session_name in
  length name = Nat.min 100 (length session_name)
  /\ (forall i c, nth_error name i = Some c ->
                  exists c0, nth_error session_name i = Some c0
                             /\ c = if is_ascii_alnum c0 || (c0 =? 95) || (c0 =? 45)
                                    then c0 else 95)
  /\ Forall (fun c => is_ascii_alnum c || (c =? 95) || (c =? 45) = true) name
  /\ (Forall (fun c => is_ascii_alnum c || (c =? 95) || (c =? 45) = true) session_name ->
      (length session_name <= 100)%nat -> name = session_name)
  /\ AudioFileManager.generate_session_directory_name name = name.
Proof.
  cbv zeta. rewrite !session_directory_name_eq.
  split; [rewrite length_firstn, length_map; reflexivity|].
  split.
  { intros i c Hi.
    assert (Hlt : (i < 100)%nat).
    { assert (Hn : nth_error (firstn 100 (map safe_char session_name)) i <> None)
        by congruence.
      apply nth_error_Some in Hn. rewrite length_firstn in Hn. lia. }
    rewrite nth_error_firstn in Hi.
    destruct (Nat.ltb_spec i 100) as [_|]; [|lia].
    rewrite nth_error_map in Hi.
    destruct (nth_error session_name i) as [c0|]; [|discriminate].
    injection Hi as <-. exists c0. split; [reflexivity|].
    unfold safe_char. rewrite safe_chars_ascii. reflexivity. }
  split.
  { pose proof (session_directory_name_safe session_name) as H.
    rewrite session_directory_name_eq in H.
    eapply List.Forall_impl; [|exact H]. intros c Hc. rewrite <- safe_chars_ascii. exact Hc. }
  split.
  { intros Hs Hlen. rewrite map_safe_char_fix.
    - apply firstn_all2. exact Hlen.
    - eapply List.Forall_impl; [|exact Hs]. intros c Hc. rewrite safe_chars_ascii. exact Hc. }
  rewrite map_safe_char_fix.
  - rewrite firstn_firstn. reflexivity.
  - pose proof (session_directory_name_safe session_name) as H.
    rewrite session_directory_name_eq in H. exact H.
Qed.

Lemma X1_session_directory_name_witness :
  AudioFileManager.generate_session_directory_name (u "Site_A-2024") = u "Site_A-2024".
Proof.
  destruct (X1_session_directory_name (u "Site_A-2024")) as (_ & _ & _ & H & _).
  apply H.
  - apply List.Forall_forall. intros c Hin. vm_compute in Hin.
    repeat (destruct Hin as [<-|Hin]; [reflexivity|]). destruct Hin.
  - vm_compute. lia.
Defined.

Lemma safe_no_sep name :
  Forall (fun c => contains c AudioFileManager.safe_chars = true) name ->
  ~ In Path.sep name /\ ~ In 46 name.
Proof.
  intros H. rewrite List.Forall_forall in H.
  split; intros Hin; apply H in Hin; vm_compute in Hin; discriminate.
Qed.

(** A non-empty name without separator that is not ["."] is one relative
    part. *)
Lemma of_str_single name :
  name <> [] -> ~ In Path.sep name -> name <> [46] ->
  Path.of_str name = Path.mk [] [name].
Proof.
  intros Hne Hsep Hdot. destruct name as [|x r]; [congruence|].
  assert (Hroot : Path.root (Path.of_str (x :: r)) = []).
  { apply root_of_str_relative. intros ->. apply Hsep. left. reflexivity. }
  assert (Hparts : Path.parts (Path.of_str (x :: r)) = [x :: r]).
  { cbn [Path.of_str Path.parts]. rewrite (split_no_sep_id _ _ Hsep).
    cbn [List.filter]. unfold Path.keep_part.
    rewrite !bool_decide_eq_false_2 by congruence. reflexivity. }
  destruct (Path.of_str (x :: r)) as [rt ps]. cbn in Hroot, Hparts. congruence.
Qed.

Lemma join_single base name :
  name <> [] -> ~ In Path.sep name -> name <> [46] ->
  Path.join base name = Path.mk (Path.root base) (Path.parts base ++ [name]).
Proof.
  intros Hne Hsep Hdot. unfold Path.join.
  rewrite (of_str_single name Hne Hsep Hdot). reflexivity.
Qed.

(** X2. A session directory never leaves the output directory: for a
    non-empty session name the directory [base / name], with [name] the
    directory name of the session, is a direct child of [base] called
    [name], whatever separators, dots or [..] the session name holds; for
    the empty session name it is [base] itself. *)
Theorem X2_session_directory_is_child (base : Path.t) (session_name : list Z) :
  session_name <> [] ->
  let name := AudioFileManager.generate_session_directory_name session_name in
  Path.join base name = Path.mk (Path.root base) (Path.parts base ++ [name])
  /\ Path.parent (Path.join base name) = base
  /\ Path.name (Path.join base name) = name
  /\ Path.join base (AudioFileManager.generate_session_directory_name []) = base.
Proof.
  intros Hne. cbv zeta.
  pose proof (session_directory_name_safe session_name) as Hsafe.
  destruct (safe_no_sep _ Hsafe) as [Hsep Hdot].
  assert (Hname : AudioFileManager.generate_session_directory_name session_name <> []).
  { intros E. apply (f_equal (@length Z)) in E.
    rewrite session_directory_name_eq, length_firstn, length_map in E.
    destruct session_name; [congruence|]. cbn in E. lia. }
  assert (Hnd : AudioFileManager.generate_session_directory_name session_name <> [46]).
  { intros E. apply Hdot. rewrite E. left. reflexivity. }
  rewrite (join_single base _ Hname Hsep Hnd).
  split; [reflexivity|]. split; [|split].
  - unfold Path.parent. cbn [Path.root Path.parts]. rewrite removelast_last.
    destruct base. reflexivity.
  - unfold Path.name. cbn [Path.parts]. apply last_last.
  - destruct base as [r ps]. unfold Path.join. cbn. rewrite app_nil_r. reflexivity.
Qed.

Lemma X2_session_directory_is_child_witness :
  Path.parent (Path.join (Path.of_str (u "/srv/proj/database/audio_segments"))
                         (AudioFileManager.generate_session_directory_name
                            (u "../../etc")))
  = Path.of_str (u "/srv/proj/database/audio_segments").
Proof.
  apply (X2_session_directory_is_child
           (Path.of_str (u "/srv/proj/database/audio_segments")) (u "../../etc")).
  vm_compute. discriminate.
Defined.

(** ** The lookup of the source recording *)









(** ** Validation, once more *)

Lemma filter_nil_all {A} (f : A -> bool) l :
  List.filter f l = [] -> forall x, In x l -> f x = false.
Proof.
  induction l as [|a l IH]; cbn; [tauto|].
  destruct (f a) eqn:Ha; [discriminate|].
  intros H x [<-|Hx]; [exact Ha|exact (IH H x Hx)].
Qed.

Lemma validate_missing self w d f l :
  List.filter (AudioFileManager.missing d) AudioFileManager.required_fields = f :: l ->
  fst (AudioFileManager.validate_file_paths self w d) = false.
Proof.
  intros H. unfold AudioFileManager.validate_file_paths. rewrite H. reflexivity.
Qed.

(** Validation once the required fields are there and the lookup answers. *)
Lemma validate_when_present self w d filename found :
  (forall field, In field AudioFileManager.required_fields ->
                 AudioFileManager.missing d field = false) ->
  d !! "filename"%string = Some filename ->
  AudioFileManager.find_source_audio_file self w filename = Ok found ->
  AudioFileManager.validate_file_paths self w d
  = let e1 := match found with
              | None => [source_rule filename]
              | Some _ => []
              end in
    match AudioFileManager.check_times d with
    | Raise _ m => (false, e1 ++ [u "検証エラー: " ++ m])
    | Ok e2 =>
        match AudioFileManager.check_session d with
        | Raise _ m => (false, (e1 ++ e2) ++ [u "検証エラー: " ++ m])
        | Ok e3 => ((length (e1 ++ e2 ++ e3) =? 0)%nat, e1 ++ e2 ++ e3)
        end
    end.
Proof.
  intros Hreq Hfn Hfind. unfold AudioFileManager.validate_file_paths.
  rewrite (no_missing_fields _ Hreq). cbn [map].
  unfold AudioFileManager.getitem at 1. rewrite Hfn. cbn [bind].
  rewrite Hfind. cbn [bind]. reflexivity.
Qed.

Lemma validate_lookup_raised self w d filename k m :
  (forall field, In field AudioFileManager.required_fields ->
                 AudioFileManager.missing d field = false) ->
  d !! "filename"%string = Some filename ->
  AudioFileManager.find_source_audio_file self w filename = Raise k m ->
  fst (AudioFileManager.validate_file_paths self w d) = false.
Proof.
  intros Hreq Hfn Hfind. unfold AudioFileManager.validate_file_paths.
  rewrite (no_missing_fields _ Hreq). cbn [map].
  unfold AudioFileManager.getitem at 1. rewrite Hfn. cbn [bind].
  rewrite Hfind. reflexivity.
Qed.

Lemma check_times_nil d :
  AudioFileManager.check_times d = Ok [] ->
  exists start_time end_time,
    parsed_time d "start_time_seconds" = Ok start_time
    /\ parsed_time d "end_time_seconds" = Ok end_time
    /\ num_ltb start_time (NInt 0) = false
    /\ num_leb end_time start_time = false.
Proof.
  unfold AudioFileManager.check_times. fold (parsed_time d "start_time_seconds").
  fold (parsed_time d "end_time_seconds").
  destruct (parsed_time d "start_time_seconds") as [st|k m];
    [|destruct k; discriminate].
  destruct (parsed_time d "end_time_seconds") as [en|k m];
    [|destruct k; discriminate].
  intros H. exists st, en.
  destruct (num_ltb st (NInt 0)); [discriminate H|].
  destruct (num_leb en st); [discriminate H|].
  repeat split; reflexivity.
Qed.

Lemma check_session_nil d :
  AudioFileManager.check_session d = Ok [] ->
  exists s, d !! "session_name"%string = Some (VStr s) /\ strip s <> [].
Proof.
  unfold AudioFileManager.check_session, AudioFileManager.getitem.
  destruct (d !! "session_name"%string) as [v|]; [|discriminate]. cbn [bind].
  destruct (negb (truthy v)); [discriminate|].
  destruct v as [| | |s]; try discriminate.
  intros H. exists s. split; [reflexivity|].
  intros E. rewrite E in H. discriminate H.
Qed.

(** X4. A record that passes validation has no error listed and meets
    every rule: the four required fields are present and not null, the
    lookup finds its recording, both times parse, the start is not below
    zero, the end is not at or before the start, and the session name is a
    text with something other than white space. *)
Theorem X4_validation_sound (self : AudioFileManager.t) (w : World.t)
    (detection_data : gmap string value) :
  fst (AudioFileManager.validate_file_paths self w detection_data) = true ->
  snd (AudioFileManager.validate_file_paths self w detection_data) = []
  /\ violations self w detection_data = []
  /\ (forall field, In field AudioFileManager.required_fields ->
                    AudioFileManager.missing detection_data field = false)
  /\ exists filename source start_time end_time session_name,
       detection_data !! "filename"%string = Some filename
       /\ AudioFileManager.find_source_audio_file self w filename = Ok (Some source)
       /\ parsed_time detection_data "start_time_seconds" = Ok start_time
       /\ parsed_time detection_data "end_time_seconds" = Ok end_time
       /\ num_ltb start_time (NInt 0) = false
       /\ num_leb end_time start_time = false
       /\ detection_data !! "session_name"%string = Some (VStr session_name)
       /\ strip session_name <> [].
Proof.
  intros Hok.
  destruct (List.filter (AudioFileManager.missing detection_data)
                        AudioFileManager.required_fields) as [|f l] eqn:Hfil;
    [|rewrite (validate_missing self w _ _ _ Hfil) in Hok; discriminate].
  pose proof (filter_nil_all _ _ Hfil) as Hreq.
  destruct (present_getitem detection_data "filename") as (filename & Hfn & Hnone & _);
    [apply Hreq; cbn; auto|].
  destruct (AudioFileManager.find_source_audio_file self w filename) as [found|k m]
    eqn:Hfind;
    [|rewrite (validate_lookup_raised self w _ _ _ _ Hreq Hfn Hfind) in Hok;
      discriminate].
  rewrite (validate_when_present self w _ _ _ Hreq Hfn Hfind) in Hok |- *.
  cbv zeta in Hok |- *.
  destruct (AudioFileManager.check_times detection_data) as [e2|k m] eqn:Ht;
    [|discriminate Hok].
  destruct (AudioFileManager.check_session detection_data) as [e3|k m] eqn:Hs;
    [|discriminate Hok].
  cbn [fst snd] in Hok |- *. apply Nat.eqb_eq in Hok. apply length_zero_iff_nil in Hok.
  destruct found as [source|]; [|discriminate Hok]. cbn [app] in Hok.
  apply app_eq_nil in Hok as [-> ->].
  destruct (check_times_nil _ Ht) as (st & en & Hst & Hen & Hneg & Hord).
  destruct (check_session_nil _ Hs) as (s & Hsn & Hblank).
  split; [reflexivity|]. split.
  { unfold violations. rewrite Hfil, Hfn, Hfind, Hst, Hen, Hneg, Hord, Hsn.
    destruct (strip s) as [|c r] eqn:Hstrip; [congruence|].
    destruct filename; try congruence; reflexivity. }
  split; [exact Hreq|].
  exists filename, source, st, en, s. repeat split; assumption.
Qed.

Lemma X4_validation_sound_witness :
  exists source,
    AudioFileManager.find_source_audio_file
      (ProcessingManager.file_manager (Example.manager true)) Example.world0
      (VStr (u "rec1")) = Ok (Some source).
Proof.
  destruct (X4_validation_sound (ProcessingManager.file_manager (Example.manager true))
              Example.world0 Example.row1)
    as (_ & _ & _ & filename & source & _ & _ & _ & Hfn & Hfind & _).
  - vm_compute. reflexivity.
  - exists source.
    assert (E : filename = VStr (u "rec1")).
    { assert (H : Example.row1 !! "filename"%string = Some (VStr (u "rec1")))
        by (vm_compute; reflexivity).
      rewrite H in Hfn. injection Hfn as <-. reflexivity. }
    rewrite <- E. exact Hfind.
Defined.

Lemma nan_not_below b : num_ltb (NFloat S754_nan) b = false.
Proof. destruct b as [n|[]]; reflexivity. Qed.

Lemma nothing_at_or_below_nan a : num_leb a (NFloat S754_nan) = false.
Proof. destruct a as [n|[]]; reflexivity. Qed.

Lemma nan_above_nothing : num_gtb (NFloat S754_nan) (NInt 0) = false.
Proof. reflexivity. Qed.

Lemma parsed_time_present d field v :
  parsed_time d field = Ok v -> AudioFileManager.missing d field = false.
Proof.
  unfold parsed_time, AudioFileManager.getitem, AudioFileManager.missing.
  destruct (d !! field) as [[]|]; try discriminate; reflexivity.
Qed.

(** X5. Validation does not reject a start time that is not a number:
    the comparisons [start < 0] and [end <= start] are both false for NaN,
    so a record whose start parses to NaN (the text ["nan"] does) and that
    is otherwise in order passes with no error listed; the extraction then
    takes its window from 0, since [max(0, nan - 5.0)] is [0]. *)
Theorem X5_nan_start_is_accepted (self : AudioFileManager.t) (w : World.t)
    (detection_data : gmap string value) (filename : value) (source : list Z)
    (end_time : num) (session_name : list Z) :
  detection_data !! "filename"%string = Some filename ->
  filename <> VNone ->
  AudioFileManager.find_source_audio_file self w filename = Ok (Some source) ->
  parsed_time detection_data "start_time_seconds" = Ok (NFloat S754_nan) ->
  parsed_time detection_data "end_time_seconds" = Ok end_time ->
  detection_data !! "session_name"%string = Some (VStr session_name) ->
  strip session_name <> [] ->
  AudioFileManager.validate_file_paths self w detection_data = (true, [])
  /\ AudioFileManager._parse_time_value (VStr (u "nan")) = Ok (NFloat S754_nan)
  /\ (forall e, to_float end_time = Ok e ->
                AudioSegmentGenerator.segment_window (NFloat S754_nan) end_time
                = Ok (NInt 0,
                      fsub (fadd e AudioSegmentGenerator.context_seconds)
                           (S754_zero false))).
Proof.
  intros Hfn Hnone Hfind Hst Hen Hsn Hblank.
  assert (Hreq : forall field, In field AudioFileManager.required_fields ->
                               AudioFileManager.missing detection_data field = false).
  { intros field [<-|[<-|[<-|[<-|[]]]]].
    - unfold AudioFileManager.missing. rewrite Hfn. destruct filename; congruence.
    - unfold AudioFileManager.missing. rewrite Hsn. reflexivity.
    - exact (parsed_time_present _ _ _ Hst).
    - exact (parsed_time_present _ _ _ Hen). }
  split; [|split].
  - rewrite (validate_when_present self w _ _ _ Hreq Hfn Hfind). cbv zeta.
    unfold AudioFileManager.check_times.
    fold (parsed_time detection_data "start_time_seconds").
    fold (parsed_time detection_data "end_time_seconds").
    rewrite Hst, Hen, nan_not_below, nothing_at_or_below_nan.
    unfold AudioFileManager.check_session, AudioFileManager.getitem.
    rewrite Hsn. cbn [bind truthy].
    destruct session_name as [|c r]; [exfalso; apply Hblank; reflexivity|].
    rewrite bool_decide_eq_false_2 by discriminate. cbn [negb].
    destruct (strip (c :: r)) as [|c' r'] eqn:Hstrip; [congruence|]. reflexivity.
  - vm_compute. reflexivity.
  - intros e He. unfold AudioSegmentGenerator.segment_window.
    cbn [to_float bind].
    change (fsub S754_nan AudioSegmentGenerator.context_seconds) with S754_nan.
    rewrite nan_above_nothing. rewrite He. cbn [bind].
    change (to_float (NInt 0)) with (@Ok spec_float (S754_zero false)).
    reflexivity.
Qed.

Lemma X5_nan_start_is_accepted_witness :
  AudioFileManager.validate_file_paths
    (ProcessingManager.file_manager (Example.manager true)) Example.world0
    Example.row_nan = (true, []).
Proof.
  apply (X5_nan_start_is_accepted
           (ProcessingManager.file_manager (Example.manager true)) Example.world0
           Example.row_nan (VStr (u "rec1")) Example.source_audio (NFloat f102)
           (u "Site A")).
  - vm_compute. reflexivity.
  - discriminate.
  - vm_compute. reflexivity.
  - vm_compute. reflexivity.
  - vm_compute. reflexivity.
  - vm_compute. reflexivity.
  - vm_compute. discriminate.
Defined.

(** ** The manager, item by item *)

Ltac stats_simpl :=
  cbn [ProcessingManager.stats ProcessingManager.set_stats
       ProcessingManager.record_error ProcessingManager.count_processed
       ProcessingManager.count_success ProcessingManager.count_audio
       ProcessingManager.count_spectrogram ProcessingManager.append_error
       ProcessingManager.set_total_pending
       ProcessingManager.processed_count ProcessingManager.success_count
       ProcessingManager.audio_success ProcessingManager.spectrogram_success
       ProcessingManager.error_count ProcessingManager.errors
       ProcessingManager.total_pending ProcessingManager.db_path
       ProcessingManager.enable_spectrogram] in *.

(** What one detection does to the two counters of artifacts and to the
    table: at most the row of the detection is rewritten, in its two path
    columns. *)
Lemma step_effect self w d self' w' ok msg :
  ProcessingManager._process_single_detection self w d = (self', w', (ok, msg)) ->
  (exists da ds,
      ProcessingManager.audio_success (ProcessingManager.stats self')
      = ProcessingManager.audio_success (ProcessingManager.stats self) + da
      /\ ProcessingManager.spectrogram_success (ProcessingManager.stats self')
         = ProcessingManager.spectrogram_success (ProcessingManager.stats self) + ds
      /\ 0 <= ds <= da /\ da <= 1 /\ (ok = true -> da = 1)
      /\ (ProcessingManager.enable_spectrogram self = false -> ds = 0))
  /\ ((ok = false /\ World.table w' = World.table w)
      \/ exists rows row a s,
           World.table w = Some rows
           /\ rows !! ProcessingManager.id d = Some row
           /\ World.table w' = Some (<[ProcessingManager.id d := with_paths row a s]> rows)
           /\ (if ok then exists rel, a = VStr rel else a = VNone /\ s = VNone)
           /\ (ProcessingManager.enable_spectrogram self = false -> s = VNone)).
Proof.
  intros H.
  destruct (process_cases self w d)
    as [(m & Hm & Hp)|(source & dir & st & en & sp & conf & Hreach)].
  { rewrite Hp in H. split_result H. split.
    - exists 0, 0. stats_simpl. repeat split; try lia; try discriminate.
    - left. split; reflexivity. }
  destruct (extraction self w d source dir st en sp conf)
    as [w1 [[audio_ok rel] err]] eqn:Hext.
  rewrite (process_reached _ _ _ _ _ _ _ _ _ _ _ _ _ Hreach Hext) in H.
  cbv zeta in H.
  assert (Ht1 : World.table w1 = World.table w).
  { unfold extraction in Hext.
    rewrite <- (table_generate_segment (ProcessingManager.segment_generator self) w
                  source st en dir (ProcessingManager.id d) sp conf), Hext.
    reflexivity. }
  match type of H with context [ProcessingManager.spectrogram_step ?a ?b ?c ?e ?f ?g ?h ?i] =>
    destruct (spectrogram_step_cases a b c e f g h i)
      as (self2 & w2 & spath & Hstep & Ht2 & Hself2 & Hoff)
  end.
  rewrite Hstep in H.
  match type of H with context [ProcessingManager._update_detection_paths ?a ?b ?c ?e ?f] =>
    pose proof (update_cases a b c e f) as Hupd
  end.
  assert (Hdis : ProcessingManager.enable_spectrogram self = false -> spath = None).
  { intros Hd. apply Hoff. destruct audio_ok; stats_simpl; rewrite Hd; reflexivity. }
  assert (Hfail : audio_ok = false -> self2 = ProcessingManager.count_processed self
                                      /\ spath = None).
  { intros ->. destruct Hoff as (-> & _ & ->); [apply andb_false_r|].
    split; reflexivity. }
  assert (Hcount : exists da ds,
      ProcessingManager.audio_success (ProcessingManager.stats self2)
      = ProcessingManager.audio_success (ProcessingManager.stats self) + da
      /\ ProcessingManager.spectrogram_success (ProcessingManager.stats self2)
         = ProcessingManager.spectrogram_success (ProcessingManager.stats self) + ds
      /\ 0 <= ds <= da /\ da <= 1 /\ (audio_ok = true -> da = 1)
      /\ (ProcessingManager.enable_spectrogram self = false -> ds = 0)).
  { destruct audio_ok.
    - destruct Hself2 as [[-> ->]|[-> Hsp]].
      + exists 1, 0. stats_simpl. repeat split; lia.
      + exists 1, 1. stats_simpl. repeat split; try lia.
        intros Hd. exfalso. apply Hsp, Hdis, Hd.
    - destruct (Hfail eq_refl) as [-> _].
      exists 0, 0. stats_simpl. repeat split; try lia; try discriminate. }
  destruct Hcount as (da & ds & Ca & Cs & C1 & C2 & C3 & C4).
  destruct (row_of w2 (ProcessingManager.id d)) as [row|] eqn:Hrow.
  - destruct Hupd as (w3 & rows & Hu & Hrows & Htab & _). rewrite Hu in H.
    assert (Hr : rows !! ProcessingManager.id d = Some row).
    { unfold row_of in Hrow. rewrite Hrows in Hrow. exact Hrow. }
    destruct audio_ok; split_result H.
    + split.
      * exists da, ds. stats_simpl. repeat split; try lia; try assumption;
          try (intros _; apply C3; reflexivity).
      * right. exists rows, row, (VStr rel), (ProcessingManager.column_of spath).
        split; [congruence|]. split; [exact Hr|]. split; [exact Htab|].
        split; [exists rel; reflexivity|].
        intros Hd. rewrite (Hdis Hd). reflexivity.
    + split.
      * exists da, ds. stats_simpl. repeat split; try lia; try assumption; try discriminate.
      * right. exists rows, row, VNone, VNone.
        destruct (Hfail eq_refl) as [_ ->].
        split; [congruence|]. split; [exact Hr|]. split; [exact Htab|].
        split; [split; reflexivity|]. intros _. reflexivity.
  - destruct Hupd as (w3 & Hu & Htab & _). rewrite Hu in H. split_result H. split.
    + exists da, ds. stats_simpl. repeat split; try lia; try assumption; try discriminate.
    + left. split; [reflexivity|congruence].
Qed.

Lemma triple_eta {A B C} (x : A * B * C) : x = (fst (fst x), snd (fst x), snd x).
Proof. destruct x as [[a b] c]. reflexivity. Qed.




(** ** The statistics *)

Lemma step_consistent self w d self' w' res :
  stats_consistent (ProcessingManager.stats self) ->
  ProcessingManager._process_single_detection self w d = (self', w', res) ->
  stats_consistent (ProcessingManager.stats self').
Proof.
  intros (I1 & I2 & I3 & I4 & I5 & I6 & I7) H. destruct res as [ok msg].
  destruct (step_summary _ _ _ _ _ _ _ H) as (_ & _ & S1 & _ & S3 & _).
  destruct (step_effect _ _ _ _ _ _ _ H) as [(da & ds & Ca & Cs & C1 & C2 & C3 & _) _].
  unfold stats_consistent. rewrite S1, Ca, Cs.
  destruct ok; destruct S3 as (T1 & T2 & T3 & _); rewrite T1, T2, T3.
  - specialize (C3 eq_refl). repeat split; lia.
  - rewrite length_app. cbn [length]. repeat split; lia.
Qed.

Lemma batch_consistent l :
  forall self w,
    stats_consistent (ProcessingManager.stats self) ->
    stats_consistent
      (ProcessingManager.stats (fst (ProcessingManager.process_batch self w l))).
Proof.
  induction l as [|d l IH]; intros self w Hs; [exact Hs|].
  destruct (ProcessingManager._process_single_detection self w d)
    as [[self1 w1] res] eqn:Hp.
  rewrite (process_batch_cons _ _ _ _ _ _ _ Hp).
  apply IH. exact (step_consistent _ _ _ _ _ _ Hs Hp).
Qed.

Lemma py_range_negative stop step : step < 0 -> ProcessingManager.py_range stop step = [].
Proof.
  intros H. unfold ProcessingManager.py_range.
  destruct (Z.ltb_spec step 0); [reflexivity|lia].
Qed.

(** A bulk run in three cases: nothing pending; a positive batch size;
    a negative one. *)
Lemma process_all_cases self w batch_size :
  let pending := ProcessingManager._get_pending_detections self w in
  let total := Z.of_nat (length pending) in
  (pending = [] ->
   ProcessingManager.process_all_pending_detections self w batch_size
   = (self, w, ProcessingManager.stats self))
  /\ (pending <> [] -> 0 < batch_size ->
      ProcessingManager.process_all_pending_detections self w batch_size
      = (ProcessingManager.set_total_pending
           (fst (ProcessingManager.process_batch self w pending)) total,
         snd (ProcessingManager.process_batch self w pending),
         ProcessingManager.stats
           (ProcessingManager.set_total_pending
              (fst (ProcessingManager.process_batch self w pending)) total)))
  /\ (pending <> [] -> batch_size < 0 ->
      ProcessingManager.process_all_pending_detections self w batch_size
      = (ProcessingManager.set_total_pending self total, w,
         ProcessingManager.stats (ProcessingManager.set_total_pending self total))).
Proof.
  cbv zeta. unfold ProcessingManager.process_all_pending_detections.
  destruct (ProcessingManager._get_pending_detections self w) as [|d l] eqn:Hp.
  - split; [intros _; reflexivity|]. split; intros Hne; congruence.
  - assert (Hz : (Z.of_nat (length (d :: l)) =? 0) = false)
      by (apply Z.eqb_neq; cbn [length]; lia).
    rewrite Hz. split; [discriminate|]. split; intros _ Hb.
    + destruct (Z.eqb_spec batch_size 0) as [E|_]; [lia|].
      rewrite (batches_all self w (d :: l) batch_size Hb).
      destruct (ProcessingManager.process_batch self w (d :: l)) as [self1 w1].
      reflexivity.
    + destruct (Z.eqb_spec batch_size 0) as [E|_]; [lia|].
      rewrite (py_range_negative _ _ Hb). reflexivity.
Qed.

(** X7. The statistics of a manager stay consistent.  Those of a new
    manager are: every processed item is a success or an error, the list of
    errors is as long as the error count, no spectrogram is counted without
    its audio segment and no success without its audio segment.  Processing
    an item keeps this, whatever its outcome, and so does a run by id and a
    bulk run whose batch size is not zero or that finds nothing pending. *)
Theorem X7_statistics_stay_consistent (self : ProcessingManager.t) (w : World.t) :
  stats_consistent (ProcessingManager.stats self) ->
  (forall d, stats_consistent
               (ProcessingManager.stats
                  (fst (fst (ProcessingManager._process_single_detection self w d)))))
  /\ (forall detection_id,
         stats_consistent
           (ProcessingManager.stats
              (fst (fst (ProcessingManager.process_single_detection self w
                           detection_id)))))
  /\ (forall batch_size,
         batch_size <> 0 \/ ProcessingManager._get_pending_detections self w = [] ->
         stats_consistent
           (snd (ProcessingManager.process_all_pending_detections self w batch_size)))
  /\ (forall db_path enable_spectrogram,
         stats_consistent
           (ProcessingManager.stats (ProcessingManager.init db_path enable_spectrogram))).
Proof.
  intros Hs.
  assert (Hitem : forall d, stats_consistent
            (ProcessingManager.stats
               (fst (fst (ProcessingManager._process_single_detection self w d))))).
  { intros d. eapply step_consistent; [exact Hs|apply triple_eta]. }
  split; [exact Hitem|]. split; [|split].
  - intros k. unfold ProcessingManager.process_single_detection.
    destruct (ProcessingManager._get_detection_by_id self w k) as [d|];
      [apply Hitem|exact Hs].
  - intros b Hb.
    destruct (process_all_cases self w b) as (He & Hpos & Hneg). cbv zeta in *.
    destruct (ProcessingManager._get_pending_detections self w) as [|d l] eqn:Hp.
    + rewrite He by reflexivity. exact Hs.
    + destruct Hb as [Hb|Hb]; [|discriminate Hb].
      destruct (Z_lt_ge_dec 0 b) as [Hgt|Hle].
      * rewrite Hpos by (congruence || assumption). cbn [snd].
        pose proof (batch_consistent (d :: l) self w Hs) as Hc.
        unfold stats_consistent in *. stats_simpl. exact Hc.
      * rewrite Hneg by (congruence || lia). cbn [snd].
        unfold stats_consistent in *. stats_simpl. exact Hs.
  - intros p e. unfold stats_consistent. cbn. lia.
Qed.

Lemma X7_statistics_stay_consistent_witness :
  stats_consistent
    (snd (ProcessingManager.process_all_pending_detections (Example.manager false)
            Example.world3 2)).
Proof.
  destruct (X7_statistics_stay_consistent (Example.manager false) Example.world3)
    as (_ & _ & H & _).
  - unfold stats_consistent. cbn. lia.
  - apply H. left. discriminate.
Defined.

(** ** Bulk runs *)

(** X8. The bulk runs that process nothing.  When sqlite cannot be
    queried or no row is pending, the run returns the statistics as they
    are.  With pending rows and batch size zero, the run appends one message
    about [range()] to the error list without counting an error, so the list
    is then longer than the count; with a negative batch size it records the
    number of pending rows and reports no error.  In all these cases no
    item is counted as processed and the world is left as it is. *)
Theorem X8_bulk_run_without_processing (self : ProcessingManager.t) (w : World.t)
    (batch_size : Z) :
  let pending := ProcessingManager._get_pending_detections self w in
  let run := ProcessingManager.process_all_pending_detections self w batch_size in
  (World.table w = None -> pending = [])
  /\ (pending = [] -> run = (self, w, ProcessingManager.stats self))
  /\ (pending <> [] -> batch_size <= 0 ->
      snd (fst run) = w
      /\ snd run = ProcessingManager.stats (fst (fst run))
      /\ ProcessingManager.processed_count (snd run)
         = ProcessingManager.processed_count (ProcessingManager.stats self)
      /\ ProcessingManager.error_count (snd run)
         = ProcessingManager.error_count (ProcessingManager.stats self)
      /\ (batch_size = 0 ->
          ProcessingManager.errors (snd run)
          = ProcessingManager.errors (ProcessingManager.stats self)
              ++ [u "一括処理エラー: range() arg 3 must not be zero"]
          /\ ProcessingManager.total_pending (snd run)
             = ProcessingManager.total_pending (ProcessingManager.stats self)
          /\ (stats_consistent (ProcessingManager.stats self) ->
              ~ stats_consistent (snd run)))
      /\ (batch_size < 0 ->
          ProcessingManager.errors (snd run)
          = ProcessingManager.errors (ProcessingManager.stats self)
          /\ ProcessingManager.total_pending (snd run)
             = Some (Z.of_nat (length pending)))).
Proof.
  cbv zeta. destruct (process_all_cases self w batch_size) as (He & _ & Hneg).
  cbv zeta in *.
  split; [|split; [exact He|]].
  { intros Ht. unfold ProcessingManager._get_pending_detections. rewrite Ht. reflexivity. }
  intros Hne Hb. destruct (Z_lt_ge_dec batch_size 0) as [Hlt|Hge].
  - rewrite (Hneg Hne Hlt). cbn [fst snd]. stats_simpl.
    repeat split; try reflexivity; try lia.
  - assert (batch_size = 0) by lia. subst batch_size.
    unfold ProcessingManager.process_all_pending_detections.
    destruct (ProcessingManager._get_pending_detections self w) as [|d l];
      [congruence|].
    assert (Hz : (Z.of_nat (length (d :: l)) =? 0) = false)
      by (apply Z.eqb_neq; cbn [length]; lia).
    rewrite Hz. cbn [Z.eqb fst snd]. stats_simpl.
    split; [reflexivity|]. split; [reflexivity|]. split; [reflexivity|].
    split; [reflexivity|]. split; [|intros; lia].
    intros _. split; [reflexivity|]. split; [reflexivity|].
    unfold stats_consistent. stats_simpl. rewrite length_app. cbn [length].
    intros (_ & I2 & _) (_ & J2 & _). lia.
Qed.

Lemma X8_bulk_run_without_processing_witness :
  ProcessingManager.errors
    (snd (ProcessingManager.process_all_pending_detections (Example.manager false)
            Example.world3 0))
  = [] ++ [u "一括処理エラー: range() arg 3 must not be zero"]
  /\ ProcessingManager.error_count
       (snd (ProcessingManager.process_all_pending_detections (Example.manager false)
               Example.world3 0)) = 0.
Proof.
  destruct (X8_bulk_run_without_processing (Example.manager false) Example.world3 0)
    as (_ & _ & H).
  destruct H as (_ & _ & _ & Hc & Hz & _).
  - vm_compute. discriminate.
  - lia.
  - split; [apply Hz; reflexivity|exact Hc].
Defined.

(** X9. The batch size of a bulk run is of no consequence for its
    result: with any two positive batch sizes the run leaves the same
    manager, the same world and the same statistics, those of running
    through the pending items one after the other. *)
Theorem X9_batch_size_is_immaterial (self : ProcessingManager.t) (w : World.t)
    (batch_size batch_size' : Z) :
  0 < batch_size -> 0 < batch_size' ->
  ProcessingManager.process_all_pending_detections self w batch_size
  = ProcessingManager.process_all_pending_detections self w batch_size'
  /\ fst (fst (ProcessingManager.process_all_pending_detections self w batch_size))
     = (let self1 := fst (ProcessingManager.process_batch self w
                            (ProcessingManager._get_pending_detections self w)) in
        match ProcessingManager._get_pending_detections self w with
        | [] => self
        | l => ProcessingManager.set_total_pending self1 (Z.of_nat (length l))
        end)
  /\ snd (fst (ProcessingManager.process_all_pending_detections self w batch_size))
     = snd (ProcessingManager.process_batch self w
              (ProcessingManager._get_pending_detections self w)).
Proof.
  intros Hb Hb'.
  destruct (process_all_cases self w batch_size) as (He & Hpos & _).
  destruct (process_all_cases self w batch_size') as (He' & Hpos' & _).
  cbv zeta in *.
  destruct (ProcessingManager._get_pending_detections self w) as [|d l] eqn:Hp.
  - rewrite He, He' by reflexivity. repeat split; reflexivity.
  - rewrite Hpos, Hpos' by (congruence || assumption). repeat split; reflexivity.
Qed.

Lemma X9_batch_size_is_immaterial_witness :
  ProcessingManager.process_all_pending_detections (Example.manager false)
    Example.world3 1
  = ProcessingManager.process_all_pending_detections (Example.manager false)
      Example.world3 100.
Proof.
  apply (X9_batch_size_is_immaterial (Example.manager false) Example.world3 1 100); lia.
Defined.

(** ** A run by id *)

(** X16. A run by id.  When the table has no row of the id, or sqlite
    cannot be queried, the run fails with the message that the id was not
    found and changes neither the statistics nor the world: this failure,
    unlike every other, is not counted.  When the row is there, the run is
    that of the detection made of the row: it counts one processed item,
    leaves every other row alone, and a success has the audio path of the
    id stored. *)
Theorem X16_run_by_id (self : ProcessingManager.t) (w : World.t) (detection_id : Z) :
  (row_of w detection_id = None ->
   ProcessingManager.process_single_detection self w detection_id
   = (self, w,
      (false, u "検出ID " ++ str_of_int detection_id ++ u " が見つかりません")))
  /\ (forall row,
         row_of w detection_id = Some row ->
         ProcessingManager.process_single_detection self w detection_id
         = ProcessingManager._process_single_detection self w
             (ProcessingManager.mk_detection detection_id row)
         /\ ProcessingManager.processed_count
              (ProcessingManager.stats
                 (fst (fst (ProcessingManager.process_single_detection self w
                              detection_id))))
            = ProcessingManager.processed_count (ProcessingManager.stats self) + 1
         /\ forall k, k <> detection_id ->
                      row_of (snd (fst (ProcessingManager.process_single_detection
                                          self w detection_id))) k
                      = row_of w k)
  /\ (forall self' w' msg,
         ProcessingManager.process_single_detection self w detection_id
         = (self', w', (true, msg)) ->
         is_Some (row_of w detection_id)
         /\ exists rel, audio_path_of w' detection_id = Some (VStr rel)).
Proof.
  assert (Hget : ProcessingManager._get_detection_by_id self w detection_id
                 = option_map (ProcessingManager.mk_detection detection_id)
                              (row_of w detection_id)).
  { unfold ProcessingManager._get_detection_by_id, row_of.
    destruct (World.table w); reflexivity. }
  unfold ProcessingManager.process_single_detection. rewrite Hget.
  split; [|split].
  - intros ->. reflexivity.
  - intros row Hrow. rewrite Hrow. cbn [option_map]. split; [reflexivity|].
    destruct (ProcessingManager._process_single_detection self w
                (ProcessingManager.mk_detection detection_id row))
      as [[self' w'] [ok msg]] eqn:Hp.
    destruct (step_summary _ _ _ _ _ _ _ Hp) as (_ & _ & S1 & _ & _ & S4).
    cbn [fst snd ProcessingManager.id] in *. split; [exact S1|exact S4].
  - intros self' w' msg.
    destruct (row_of w detection_id) as [row|]; cbn [option_map]; [|discriminate].
    intros Hp. split; [eauto|].
    destruct (step_summary _ _ _ _ _ _ _ Hp) as (_ & _ & _ & _ & S3 & _).
    cbn [ProcessingManager.id] in S3. destruct S3 as (_ & _ & _ & Hrel). exact Hrel.
Qed.

Lemma X16_run_by_id_witness :
  ProcessingManager.process_single_detection (Example.manager true)
    Example.world_vanished 1
  = (Example.manager true, Example.world_vanished,
     (false, u "検出ID " ++ str_of_int 1 ++ u " が見つかりません")).
Proof.
  apply (proj1 (X16_run_by_id (Example.manager true) Example.world_vanished 1)).
  reflexivity.
Defined.

(** ** What a bulk run leaves pending *)

(** The pending detections are the rows with a null audio path. *)
Lemma pending_In self w d :
  In d (ProcessingManager._get_pending_detections self w)
  <-> exists rows,
        World.table w = Some rows
        /\ rows !! ProcessingManager.id d = Some (ProcessingManager.fields d)
        /\ ProcessingManager.is_null (ProcessingManager.fields d) "audio_segment_path"
           = true.
Proof.
  unfold ProcessingManager._get_pending_detections.
  destruct (World.table w) as [rows|].
  2: { split; [intros []|intros (rows & H & _); discriminate]. }
  rewrite in_map_iff. split.
  - intros ([k row] & <- & Hin). cbn [fst snd ProcessingManager.id ProcessingManager.fields].
    apply (Permutation_in _ (order_by_created_at_permutation _)) in Hin.
    apply filter_In in Hin as [Hin Hnull]. cbn [snd] in Hnull.
    apply list_elem_of_In, elem_of_map_to_list in Hin.
    exists rows. repeat split; assumption.
  - intros (rows' & [= <-] & Hrow & Hnull). destruct d as [k row].
    cbn [ProcessingManager.id ProcessingManager.fields] in *.
    exists (k, row). split; [reflexivity|].
    apply (Permutation_in _ (Permutation_sym (order_by_created_at_permutation _))).
    apply filter_In. split; [|exact Hnull].
    apply list_elem_of_In, elem_of_map_to_list. exact Hrow.
Qed.

Lemma audio_null_with_paths row s :
  ProcessingManager.is_null (with_paths row VNone s) "audio_segment_path" = true.
Proof. unfold ProcessingManager.is_null. rewrite with_paths_audio. reflexivity. Qed.

(** A failed item whose audio path was null still has it null. *)
Lemma step_null self w d self' w' msg row :
  ProcessingManager._process_single_detection self w d = (self', w', (false, msg)) ->
  row_of w (ProcessingManager.id d) = Some row ->
  ProcessingManager.is_null row "audio_segment_path" = true ->
  exists row', row_of w' (ProcessingManager.id d) = Some row'
               /\ ProcessingManager.is_null row' "audio_segment_path" = true.
Proof.
  intros H Hrow Hnull.
  destruct (step_effect _ _ _ _ _ _ _ H)
    as [_ [[_ Hsame]|(rows & row0 & a & s & Hrows & Hrow0 & Htab & [-> ->] & _)]].
  - exists row. split; [|exact Hnull]. rewrite (row_of_table w' w _ Hsame). exact Hrow.
  - exists (with_paths row0 VNone VNone). split; [|apply audio_null_with_paths].
    unfold row_of. rewrite Htab. apply lookup_insert_eq.
Qed.

(** What a result says about the audio path of its item at the end of the
    run: stored for a success, still null for a failure. *)
Lemma run_pending l :
  forall self w,
    List.NoDup (map ProcessingManager.id l) ->
    (forall d, In d l ->
               exists row, row_of w (ProcessingManager.id d) = Some row
                           /\ ProcessingManager.is_null row "audio_segment_path" = true) ->
    let w' := snd (ProcessingManager.process_batch self w l) in
    List.Forall2
      (fun (d : ProcessingManager.detection) (res : bool * list Z) =>
         if fst res
         then exists rel, audio_path_of w' (ProcessingManager.id d) = Some (VStr rel)
         else exists row', row_of w' (ProcessingManager.id d) = Some row'
                           /\ ProcessingManager.is_null row' "audio_segment_path" = true)
      l (run_results self w l).
Proof.
  induction l as [|d l IH]; intros self w Hnd Hrows; cbv zeta; [constructor|].
  destruct (ProcessingManager._process_single_detection self w d)
    as [[self1 w1] [ok msg]] eqn:Hp.
  rewrite (process_batch_cons _ _ _ _ _ _ _ Hp). cbn [run_results]. rewrite Hp.
  inversion Hnd as [|? ? Hnotin Hnd']; subst.
  destruct (step_summary _ _ _ _ _ _ _ Hp) as (_ & _ & _ & _ & S3 & S4).
  destruct (run_summary l self1 w1 Hnd') as (_ & _ & _ & _ & _ & I6 & _).
  cbv zeta in I6. specialize (I6 _ Hnotin).
  constructor.
  - cbn [fst]. destruct ok.
    + destruct S3 as (_ & _ & _ & rel & Hrel). exists rel.
      unfold audio_path_of in *. rewrite I6. exact Hrel.
    + destruct (Hrows d (or_introl eq_refl)) as (row & Hrow & Hnull).
      rewrite I6. exact (step_null _ _ _ _ _ _ _ Hp Hrow Hnull).
  - apply IH; [exact Hnd'|]. intros d' Hd'.
    destruct (Hrows d' (or_intror Hd')) as (row & Hrow & Hnull).
    exists row. split; [|exact Hnull]. rewrite S4; [exact Hrow|].
    intros E. apply Hnotin. rewrite <- E. apply in_map. exact Hd'.
Qed.

Lemma Forall2_In_combine {A B} (P : A -> B -> Prop) l r :
  List.Forall2 P l r ->
  (forall x y, In (x, y) (combine l r) -> P x y)
  /\ (forall x, In x l -> exists y, In (x, y) (combine l r)).
Proof.
  induction 1 as [|a b l r Hab _ [IH1 IH2]]; cbn [combine].
  - split; [intros x y []|intros x []].
  - split.
    + intros x y [[= <- <-]|Hin]; [exact Hab|exact (IH1 _ _ Hin)].
    + intros x [<-|Hin]; [exists b; left; reflexivity|].
      destruct (IH2 _ Hin) as (y & Hy). exists y. right. exact Hy.
Qed.

Lemma failed_ids_In self w l k :
  In k (failed_ids self w l)
  <-> exists d msg, In (d, (false, msg)) (combine l (run_results self w l))
                    /\ ProcessingManager.id d = k.
Proof.
  unfold failed_ids. rewrite in_map_iff. split.
  - intros ([d [ok msg]] & <- & Hin). apply filter_In in Hin as [Hin Hok].
    cbn [fst snd] in *. destruct ok; [discriminate|]. exists d, msg. split; [exact Hin|reflexivity].
  - intros (d & msg & Hin & <-). exists (d, (false, msg)). split; [reflexivity|].
    apply filter_In. split; [exact Hin|reflexivity].
Qed.

(** X10. After a bulk run with a positive batch size, the detections
    still pending are exactly those that failed in the run: a success has
    its audio path stored and is never taken up again, a failure keeps a
    null audio path and is taken up by the next run, and no other row
    becomes pending. *)
Theorem X10_pending_after_run_are_the_failures (self : ProcessingManager.t)
    (w : World.t) (batch_size : Z) :
  0 < batch_size ->
  let run := ProcessingManager.process_all_pending_detections self w batch_size in
  forall k,
    In k (map ProcessingManager.id
              (ProcessingManager._get_pending_detections (fst (fst run)) (snd (fst run))))
    <-> In k (failed_ids self w (ProcessingManager._get_pending_detections self w)).
Proof.
  intros Hb run k. subst run.
  set (l := ProcessingManager._get_pending_detections self w).
  set (w' := snd (ProcessingManager.process_batch self w l)).
  assert (Hw : snd (fst (ProcessingManager.process_all_pending_detections self w
                           batch_size)) = w').
  { destruct (process_all_cases self w batch_size) as (He & Hpos & _). cbv zeta in *.
    subst w' l.
    destruct (ProcessingManager._get_pending_detections self w) as [|d l] eqn:Hp.
    - rewrite He by reflexivity. reflexivity.
    - rewrite Hpos by (congruence || assumption). reflexivity. }
  rewrite Hw.
  pose proof (pending_ids_distinct self w) as Hnd. fold l in Hnd.
  assert (Hrows : forall d, In d l ->
            exists row, row_of w (ProcessingManager.id d) = Some row
                        /\ ProcessingManager.is_null row "audio_segment_path" = true).
  { intros d Hd. apply pending_In in Hd as (rows & Ht & Hr & Hn).
    exists (ProcessingManager.fields d). split; [|exact Hn].
    unfold row_of. rewrite Ht. exact Hr. }
  pose proof (run_pending l self w Hnd Hrows) as Hrun. cbv zeta in Hrun. fold w' in Hrun.
  destruct (Forall2_In_combine _ _ _ Hrun) as [Hres Hhas].
  destruct (run_summary l self w Hnd) as (_ & _ & _ & _ & _ & Hkeep & _).
  cbv zeta in Hkeep. fold w' in Hkeep.
  rewrite failed_ids_In, in_map_iff. split.
  - intros (d' & <- & Hd'). apply pending_In in Hd' as (rows' & Ht' & Hr' & Hn').
    assert (Hrow' : row_of w' (ProcessingManager.id d')
                    = Some (ProcessingManager.fields d')).
    { unfold row_of. rewrite Ht'. exact Hr'. }
    destruct (in_dec Z.eq_dec (ProcessingManager.id d') (map ProcessingManager.id l))
      as [Hin|Hout].
    + apply in_map_iff in Hin as (d & Hid & Hd).
      destruct (Hhas d Hd) as ([ok msg] & Hcomb).
      exists d, msg. split; [|exact Hid].
      destruct ok; [|exact Hcomb]. exfalso.
      destruct (Hres _ _ Hcomb) as (rel & Hrel). cbn [fst] in Hrel.
      unfold audio_path_of in Hrel. rewrite Hid, Hrow' in Hrel.
      unfold ProcessingManager.is_null in Hn'. rewrite Hrel in Hn'. discriminate.
    + exfalso. apply Hout. rewrite (Hkeep _ Hout) in Hrow'.
      unfold row_of in Hrow'. destruct (World.table w) as [rows|] eqn:Ht; [|discriminate].
      apply in_map_iff. exists d'. split; [reflexivity|].
      apply pending_In. exists rows. repeat split; assumption.
  - intros (d & msg & Hcomb & <-).
    destruct (Hres _ _ Hcomb) as (row' & Hrow' & Hn'). cbn [fst] in *.
    exists (ProcessingManager.mk_detection (ProcessingManager.id d) row').
    split; [reflexivity|]. apply pending_In.
    unfold row_of in Hrow'.
    destruct (World.table w') as [rows'|] eqn:Ht'; [|discriminate].
    exists rows'. repeat split; assumption.
Qed.

Lemma X10_pending_after_run_are_the_failures_witness :
  In 2 (map ProcessingManager.id
            (ProcessingManager._get_pending_detections
               (fst (fst (ProcessingManager.process_all_pending_detections
                            (Example.manager false) Example.world3 2)))
               (snd (fst (ProcessingManager.process_all_pending_detections
                            (Example.manager false) Example.world3 2))))).
Proof.
  pose proof (X10_pending_after_run_are_the_failures (Example.manager false)
                Example.world3 2 ltac:(lia) 2) as H.
  cbv zeta in H. apply (proj2 H). vm_compute. left. reflexivity.
Defined.




(** X12. A decoding failure costs the earlier segment.  When the
    recording exists, the target of the segment is there from an earlier run
    and can be deleted, and the decoder then fails on the slice, the
    generation fails after having deleted the earlier segment: the file no
    longer exists, and nothing is written in its place. *)
Theorem X12_failed_decoding_destroys_previous_segment
    (self : AudioSegmentGenerator.t) (w : World.t) (source_audio_path : list Z)
    (start_time end_time : num) (session_name : list Z) (detection_id : Z)
    (species_name confidence : value) (filename : list Z) (wav_output : Path.t)
    (segment_start : num) (segment_duration : spec_float) (k : exn_kind) (m : list Z) :
  World.exists_ w (Path.of_str source_audio_path) = true ->
  World.mkdir w (Path.join (AudioSegmentGenerator.base_output_dir self) session_name)
  = Ok tt ->
  AudioSegmentGenerator._generate_filename detection_id species_name confidence
  = Ok filename ->
  Path.with_suffix
    (Path.join (Path.join (AudioSegmentGenerator.base_output_dir self) session_name)
               filename) (u ".wav") = Ok wav_output ->
  World.files w !! Path.to_str wav_output = Some false ->
  AudioSegmentGenerator.segment_window start_time end_time
  = Ok (segment_start, segment_duration) ->
  World.load_error w (Path.to_str (Path.of_str source_audio_path)) segment_start
                   segment_duration = Some (k, m) ->
  exists w',
    AudioSegmentGenerator.generate_segment self w source_audio_path start_time end_time
      session_name detection_id species_name confidence
    = (w', (false, [], Some (u "音声セグメント生成に失敗")))
    /\ World.files w' = delete (Path.to_str wav_output) (World.files w)
    /\ World.exists_ w' wav_output = false
    /\ World.trace w'
       = World.trace w
           ++ [World.EvUnlink (Path.to_str wav_output);
               World.EvLoad (Path.to_str (Path.of_str source_audio_path))
                            segment_start segment_duration].
Proof.
  intros Hex Hmk Hfn Hwav Hf Hwin Hload.
  unfold AudioSegmentGenerator.generate_segment. rewrite Hex, Hmk, Hfn. cbn [negb].
  unfold AudioSegmentGenerator._extract_segment_librosa. rewrite Hwin, Hwav.
  unfold AudioSegmentGenerator.choose_output, World.exists_, World.unlink.
  rewrite Hf, bool_decide_eq_true_2 by eauto.
  unfold World.load. cbn [World.load_error World.log World.set_files].
  rewrite Hload. eexists. split; [reflexivity|].
  cbn [World.files World.trace World.log World.set_files].
  split; [reflexivity|]. split.
  - unfold World.exists_. cbn [World.files]. rewrite lookup_delete_eq.
    apply bool_decide_eq_false_2. intros [x Hx]. discriminate.
  - rewrite <- app_assoc. reflexivity.
Qed.

Lemma X12_failed_decoding_destroys_previous_segment_witness :
  World.files Example.world_stale !! Example.target_wav = Some false
  /\ exists w',
       Example.generate_stale = (w', (false, [], Some (u "音声セグメント生成に失敗")))
       /\ World.exists_ w' (Path.of_str Example.target_wav) = false.
Proof.
  split; [vm_compute; reflexivity|].
  destruct (X12_failed_decoding_destroys_previous_segment
              (ProcessingManager.segment_generator (Example.manager true))
              Example.world_stale Example.source_audio (NFloat f100) (NFloat f102)
              (u "Site_A") 1 (VStr (u "Common Cuckoo")) (VFloat f0_873)
              (u "detection_001_CommonCuckoo_0.87.wav") (Path.of_str Example.target_wav)
              (NFloat f95) f12 OSError (u "decoder failed"))
    as (w' & Hg & _ & Hgone & _).
  - vm_compute. reflexivity.
  - vm_compute. reflexivity.
  - vm_compute. reflexivity.
  - vm_compute. reflexivity.
  - vm_compute. reflexivity.
  - vm_compute. reflexivity.
  - vm_compute. reflexivity.
  - exists w'. split; [exact Hg|exact Hgone].
Defined.

(** ** The generators: the spectrogram *)

(** X13. A spectrogram is rendered only from a segment that exists, and
    its image is named by the id, the species and the confidence alone: a
    successful generation returns [spectrograms/<session>/<file name>] with
    the [.png] name of the detection and no error, the image exists
    afterwards, the trace gains the one rendering of the segment into that
    image, and the table is left alone.  A generation for a segment that
    does not exist fails without touching the world. *)
Theorem X13_generate_spectrogram (self : SpectrogramGenerator.t) (w : World.t)
    (audio_segment_path session_name : list Z) (detection_id : Z)
    (species_name confidence : value) :
  (forall w' rel err,
      SpectrogramGenerator.generate_spectrogram self w audio_segment_path session_name
        detection_id species_name confidence = (w', (true, rel, err)) ->
      exists filename,
        SpectrogramGenerator._generate_filename detection_id species_name confidence
        = Ok filename
        /\ rel = u "spectrograms/" ++ session_name ++ u "/" ++ filename
        /\ err = None
        /\ World.exists_ w (Path.of_str audio_segment_path) = true
        /\ World.exists_ w'
             (Path.join (Path.join (SpectrogramGenerator.base_output_dir self)
                                   session_name) filename) = true
        /\ World.trace w'
           = World.trace w
               ++ [World.EvRender
                     (Path.to_str (Path.of_str audio_segment_path))
                     (Path.to_str
                        (Path.join (Path.join (SpectrogramGenerator.base_output_dir self)
                                              session_name) filename))]
        /\ World.table w' = World.table w)
  /\ (World.exists_ w (Path.of_str audio_segment_path) = false ->
      SpectrogramGenerator.generate_spectrogram self w audio_segment_path session_name
        detection_id species_name confidence
      = (w, (false, [],
             Some (u "音声セグメントファイルが見つかりません: "
                     ++ Path.to_str (Path.of_str audio_segment_path))))).
Proof.
  unfold SpectrogramGenerator.generate_spectrogram. split.
  - intros w' rel err.
    destruct (World.exists_ w (Path.of_str audio_segment_path)) eqn:Hex; cbn [negb];
      [|intros [=]].
    destruct (World.mkdir _ _); [|intros [=]].
    destruct (SpectrogramGenerator._generate_filename _ _ _) as [filename|];
      [|intros [=]].
    unfold SpectrogramGenerator._create_melspectrogram.
    destruct (World.render_ok w _ _); intros [= <- <- <-].
    exists filename. repeat split.
    unfold World.exists_. cbn [World.files World.log World.set_files].
    rewrite lookup_insert_eq. apply bool_decide_eq_true_2. eauto.
  - intros ->. reflexivity.
Qed.

Lemma X13_generate_spectrogram_witness :
  SpectrogramGenerator.generate_spectrogram
    (SpectrogramGenerator.init (u "/srv/proj/database/spectrograms")) Example.world0
    Example.target_wav (u "Site_A") 1 (VStr (u "Common Cuckoo")) (VFloat f0_873)
  = (Example.world0,
     (false, [],
      Some (u "音声セグメントファイルが見つかりません: "
              ++ Path.to_str (Path.of_str Example.target_wav)))).
Proof.
  apply (proj2 (X13_generate_spectrogram
                  (SpectrogramGenerator.init (u "/srv/proj/database/spectrograms"))
                  Example.world0 Example.target_wav (u "Site_A") 1
                  (VStr (u "Common Cuckoo")) (VFloat f0_873))).
  vm_compute. reflexivity.
Defined.

(** ** The directories of the manager *)

Lemma root_after_slash b s :
  b <> 47 -> Path.root (Path.of_str (47 :: b :: s)) = [47].
Proof.
  intros Hb. cbn [Path.of_str Path.root].
  destruct b as [|p|p]; try reflexivity.
  do 6 (destruct p as [p|p|]; try reflexivity). congruence.
Qed.

Lemma root_after_two_slashes c s :
  c <> 47 -> Path.root (Path.of_str (47 :: 47 :: c :: s)) = [47; 47].
Proof.
  intros Hc. cbn [Path.of_str Path.root].
  destruct c as [|p|p]; try reflexivity.
  do 6 (destruct p as [p|p|]; try reflexivity). congruence.
Qed.

(** The root of a parsed path is empty, ["/"] or ["//"]. *)
Lemma root_of_str_cases s :
  Path.root (Path.of_str s) = [] \/ Path.root (Path.of_str s) = [47]
  \/ Path.root (Path.of_str s) = [47; 47].
Proof.
  destruct s as [|a s]; [left; reflexivity|].
  destruct (Z.eq_dec a 47) as [->|Ha]; [|left; apply root_of_str_relative; exact Ha].
  destruct s as [|b s]; [right; left; reflexivity|].
  destruct (Z.eq_dec b 47) as [->|Hb]; [|right; left; apply root_after_slash; exact Hb].
  destruct s as [|c s]; [right; right; reflexivity|].
  destruct (Z.eq_dec c 47) as [->|Hc]; [right; left; reflexivity|].
  right; right. apply root_after_two_slashes. exact Hc.
Qed.

Lemma hd_join_good ps :
  Forall good_part ps -> hd 0 (join [Path.sep] ps) <> 47.
Proof.
  intros H. destruct ps as [|p ps]; [cbn; lia|].
  inversion H as [|? ? [Hk Hsep] _]; subst.
  destruct p as [|x p]; [discriminate Hk|].
  assert (x <> 47) by (intros ->; apply Hsep; left; reflexivity).
  destruct ps; cbn [join app hd]; assumption.
Qed.

Lemma parts_of_join_good ps :
  Forall good_part ps ->
  List.filter Path.keep_part (split Path.sep (join [Path.sep] ps)) = ps.
Proof.
  intros H. destruct ps as [|p ps]; [reflexivity|].
  rewrite split_join.
  - apply filter_keep_good. exact H.
  - discriminate.
  - eapply List.Forall_impl; [|exact H]. intros a [_ Ha]. exact Ha.
Qed.

(** Parsing the string of a path of good parts gives the path back. *)
Lemma of_str_to_str p :
  Path.root p = [] \/ Path.root p = [47] \/ Path.root p = [47; 47] ->
  Forall good_part (Path.parts p) ->
  Path.of_str (Path.to_str p) = p.
Proof.
  destruct p as [r ps]. cbn [Path.root Path.parts]. intros Hr Hps.
  pose proof (hd_join_good ps Hps) as Hhd.
  pose proof (parts_of_join_good ps Hps) as Hparts.
  destruct Hr as [->|[->| ->]].
  - apply of_str_to_str_relative. exact Hps.
  - unfold Path.to_str. cbn [Path.root Path.parts app].
    destruct (join [Path.sep] ps) as [|b s] eqn:Hj.
    + cbn in Hparts. subst ps. reflexivity.
    + cbn [hd] in Hhd.
      assert (Hroot : Path.root (Path.of_str (47 :: b :: s)) = [47])
        by (apply root_after_slash; exact Hhd).
      destruct (Path.of_str (47 :: b :: s)) as [r qs] eqn:E. cbn in Hroot. subst r.
      f_equal. apply (f_equal Path.parts) in E. cbn [Path.of_str Path.parts] in E.
      rewrite <- E. change (split Path.sep (47 :: b :: s)) with ([] :: split Path.sep (b :: s)).
      cbn [List.filter Path.keep_part]. exact Hparts.
  - unfold Path.to_str. cbn [Path.root Path.parts app].
    destruct (join [Path.sep] ps) as [|b s] eqn:Hj.
    + cbn in Hparts. subst ps. reflexivity.
    + cbn [hd] in Hhd.
      assert (Hroot : Path.root (Path.of_str (47 :: 47 :: b :: s)) = [47; 47])
        by (apply root_after_two_slashes; exact Hhd).
      destruct (Path.of_str (47 :: 47 :: b :: s)) as [r qs] eqn:E. cbn in Hroot. subst r.
      f_equal. apply (f_equal Path.parts) in E. cbn [Path.of_str Path.parts] in E.
      rewrite <- E.
      change (split Path.sep (47 :: 47 :: b :: s))
        with ([] :: [] :: split Path.sep (b :: s)).
      cbn [List.filter Path.keep_part]. exact Hparts.
Qed.

Lemma good_removelast ps : Forall good_part ps -> Forall good_part (removelast ps).
Proof.
  induction 1 as [|p ps Hp Hps IH]; [constructor|].
  cbn [removelast]. destruct ps; [constructor|]. constructor; assumption.
Qed.

Lemma join_literal base name :
  (negb (contains Path.sep name) && negb (bool_decide (name = []))
   && negb (bool_decide (name = [46])))%bool = true ->
  Path.join base name = Path.mk (Path.root base) (Path.parts base ++ [name]).
Proof.
  intros H. apply andb_prop in H as [H H3]. apply andb_prop in H as [H1 H2].
  apply negb_true_iff in H1, H2, H3.
  apply bool_decide_eq_false_1 in H2. apply bool_decide_eq_false_1 in H3.
  apply join_single; [exact H2| |exact H3].
  intros Hin. apply contains_In in Hin. congruence.
Qed.

(** The directories of a manager made from a database path. *)
Lemma manager_directories db_path enable_spectrogram :
  let self := ProcessingManager.init db_path enable_spectrogram in
  let r := Path.root (Path.of_str db_path) in
  let ps := removelast (Path.parts (Path.of_str db_path)) in
  ProcessingManager.database_root self = Path.mk r ps
  /\ AudioFileManager.project_root (ProcessingManager.file_manager self)
     = Path.mk r (removelast ps)
  /\ AudioFileManager.database_dir (ProcessingManager.file_manager self)
     = Path.mk r (removelast ps ++ [u "database"])
  /\ AudioSegmentGenerator.base_output_dir (ProcessingManager.segment_generator self)
     = Path.mk r (ps ++ [u "audio_segments"])
  /\ Forall good_part ps.
Proof.
  cbv zeta.
  pose proof (of_str_parts_good db_path) as Hgood.
  pose proof (root_of_str_cases db_path) as Hroot.
  pose proof (good_removelast _ Hgood) as Hg1.
  pose proof (good_removelast _ Hg1) as Hg2.
  split; [reflexivity|].
  assert (Hpr : AudioFileManager.project_root
                  (ProcessingManager.file_manager
                     (ProcessingManager.init db_path enable_spectrogram))
                = Path.mk (Path.root (Path.of_str db_path))
                          (removelast (removelast (Path.parts (Path.of_str db_path))))).
  { unfold ProcessingManager.file_manager, AudioFileManager.init.
    cbn [AudioFileManager.project_root].
    apply (of_str_to_str (Path.mk _ _)); assumption. }
  split; [exact Hpr|]. split; [|split; [|exact Hg1]].
  - unfold AudioFileManager.database_dir. rewrite Hpr.
    apply join_literal. vm_compute. reflexivity.
  - unfold ProcessingManager.segment_generator, AudioSegmentGenerator.init.
    cbn [AudioSegmentGenerator.base_output_dir].
    rewrite (join_literal _ (u "audio_segments")) by (vm_compute; reflexivity).
    apply (of_str_to_str (Path.mk _ _)); [exact Hroot|].
    cbn [Path.parts]. apply Forall_app. split; [exact Hg1|].
    constructor; [|constructor]. split; [vm_compute; reflexivity|].
    intros Hin. apply contains_In in Hin. vm_compute in Hin. discriminate.
Qed.

(** X14. The file manager and the generators of a manager agree on
    their directories exactly when the directory of the database file is
    called [database].  The generators write under the directory of the
    database file, while the file manager resolves stored paths under
    [<parent>/database]: when the names agree, a stored relative path
    resolves to the file under the directory of the database file, and the
    segment directory of the file manager is the output directory of the
    segment generator; when they do not, the two directories differ. *)
Theorem X14_manager_directories_agree (db_path : list Z) (enable_spectrogram : bool) :
  let self := ProcessingManager.init db_path enable_spectrogram in
  let fm := ProcessingManager.file_manager self in
  (AudioFileManager.database_dir fm = ProcessingManager.database_root self
   <-> Path.name (ProcessingManager.database_root self) = u "database")
  /\ (Path.name (ProcessingManager.database_root self) = u "database" ->
      AudioFileManager.audio_segments_dir fm
      = AudioSegmentGenerator.base_output_dir (ProcessingManager.segment_generator self)
      /\ forall relative_path,
           AudioFileManager.resolve_relative_path fm relative_path
           = Path.to_str (Path.join (ProcessingManager.database_root self) relative_path))
  /\ (Path.name (ProcessingManager.database_root self) <> u "database" ->
      AudioFileManager.audio_segments_dir fm
      <> AudioSegmentGenerator.base_output_dir (ProcessingManager.segment_generator self)).
Proof.
  cbv zeta.
  destruct (manager_directories db_path enable_spectrogram)
    as (Hroot & _ & Hdb & Hbase & _). cbv zeta in *.
  set (ps := removelast (Path.parts (Path.of_str db_path))) in *.
  set (r := Path.root (Path.of_str db_path)) in *.
  assert (Hiff : AudioFileManager.database_dir
                   (ProcessingManager.file_manager
                      (ProcessingManager.init db_path enable_spectrogram))
                 = ProcessingManager.database_root
                     (ProcessingManager.init db_path enable_spectrogram)
                 <-> Path.name (ProcessingManager.database_root
                                  (ProcessingManager.init db_path enable_spectrogram))
                     = u "database").
  { rewrite Hdb, Hroot. unfold Path.name. cbn [Path.parts]. split.
    - intros [= E]. rewrite <- E. apply last_last.
    - intros E. f_equal.
      destruct ps as [|p ps'] eqn:Eps; [vm_compute in E; discriminate E|].
      rewrite <- E. symmetry. apply app_removelast_last. discriminate. }
  split; [exact Hiff|]. split.
  - intros Hname. apply Hiff in Hname. split.
    + unfold AudioFileManager.audio_segments_dir. rewrite Hname, Hroot, Hbase.
      apply join_literal. vm_compute. reflexivity.
    + intros rel. unfold AudioFileManager.resolve_relative_path.
      rewrite Hname, replace_same. reflexivity.
  - intros Hname E. apply Hname, Hiff.
    unfold AudioFileManager.audio_segments_dir in E. rewrite Hbase, Hdb in E.
    rewrite (join_literal _ (u "audio_segments")) in E by (vm_compute; reflexivity).
    cbn [Path.root Path.parts] in E. injection E as E.
    apply app_inj_tail in E as [E _]. rewrite Hdb, Hroot, E. reflexivity.
Qed.

Lemma X14_manager_directories_agree_witness :
  AudioFileManager.resolve_relative_path
    (ProcessingManager.file_manager (Example.manager true)) Example.relative_wav
  = Path.to_str (Path.join (ProcessingManager.database_root (Example.manager true))
                           Example.relative_wav).
Proof.
  destruct (X14_manager_directories_agree (u "/srv/proj/database/result.db") true)
    as (_ & H & _).
  destruct H as [_ H]; [vm_compute; reflexivity|]. apply H.
Defined.

(** ** The pending detections *)

Lemma str_compare_asym a : forall b,
  ProcessingManager.str_compare a b = Gt -> ProcessingManager.str_compare b a = Lt.
Proof.
  induction a as [|x a IH]; intros [|y b]; cbn; try discriminate; try reflexivity.
  rewrite (Z.compare_antisym x y).
  destruct (x ?= y); cbn; try discriminate; auto.
Qed.

Lemma SFcompare_asym x y :
  SFcompare x y = Some Gt -> SFcompare y x = Some Lt.
Proof.
  destruct x as [sx|sx| |sx mx ex], y as [sy|sy| |sy my ey]; cbn;
    try discriminate; try reflexivity;
    try (destruct sx; discriminate || reflexivity);
    try (destruct sy; discriminate || reflexivity);
    try (destruct sx, sy; discriminate || reflexivity).
  pose proof (Z.compare_antisym ex ey) as Hz.
  pose proof (Pos.compare_cont_antisym mx my Eq) as Hp. cbn [CompOpp] in Hp.
  rewrite Hz, <- Hp.
  destruct sx, sy; try discriminate; try reflexivity;
    destruct (ex ?= ey); cbn; try discriminate; try reflexivity;
    destruct (Pos.compare_cont Eq mx my); cbn; discriminate || reflexivity.
Qed.

Lemma sqlite_compare_asym a b :
  ProcessingManager.sqlite_compare a b = Gt ->
  ProcessingManager.sqlite_compare b a <> Gt.
Proof.
  destruct a as [|x|x|x], b as [|y|y|y]; cbn; try discriminate.
  - rewrite (Z.compare_antisym x y). destruct (x ?= y); cbn; discriminate.
  - destruct (compare_float_int y x) as [[]|]; cbn; discriminate.
  - destruct (compare_float_int x y) as [[]|]; cbn; discriminate.
  - intros H. destruct (SFcompare x y) as [[]|] eqn:E; try discriminate H.
    rewrite (SFcompare_asym _ _ E). cbn. discriminate.
  - intros H. rewrite (str_compare_asym _ _ H). discriminate.
Qed.

(** The order of two rows by their time of creation. *)
Lemma insert_row_sorted r l :
  Sorted (fun a b => ProcessingManager.sqlite_compare (ProcessingManager.created_at a)
                       (ProcessingManager.created_at b) <> Gt) l ->
  Sorted (fun a b => ProcessingManager.sqlite_compare (ProcessingManager.created_at a)
                       (ProcessingManager.created_at b) <> Gt)
         (ProcessingManager.insert_row r l).
Proof.
  induction 1 as [|x l Hl IH Hx]; cbn [ProcessingManager.insert_row].
  - repeat constructor.
  - destruct (ProcessingManager.sqlite_compare (ProcessingManager.created_at r)
                (ProcessingManager.created_at x)) eqn:E.
    + constructor; [constructor; assumption|]. constructor. rewrite E. discriminate.
    + constructor; [constructor; assumption|]. constructor. rewrite E. discriminate.
    + constructor; [exact IH|].
      destruct l as [|y l]; cbn [ProcessingManager.insert_row].
      * constructor. apply sqlite_compare_asym. exact E.
      * destruct (ProcessingManager.sqlite_compare (ProcessingManager.created_at r)
                    (ProcessingManager.created_at y)).
        -- constructor. apply sqlite_compare_asym. exact E.
        -- constructor. apply sqlite_compare_asym. exact E.
        -- inversion Hx; subst. constructor. assumption.
Qed.

Lemma order_by_created_at_sorted l :
  Sorted (fun a b => ProcessingManager.sqlite_compare (ProcessingManager.created_at a)
                       (ProcessingManager.created_at b) <> Gt)
         (ProcessingManager.order_by_created_at l).
Proof.
  induction l as [|r l IH]; cbn; [constructor|]. apply insert_row_sorted. exact IH.
Qed.

Lemma Sorted_map {A B} (R : A -> A -> Prop) (R' : B -> B -> Prop) (f : A -> B) l :
  (forall a b, R a b -> R' (f a) (f b)) -> Sorted R l -> Sorted R' (map f l).
Proof.
  intros HR. induction 1 as [|x l Hl IH Hx]; cbn [map]; constructor; [exact IH|].
  destruct Hx; cbn [map]; constructor. apply HR. assumption.
Qed.

(** X15. The pending detections are exactly the rows of the table whose
    audio path is null, each once, in ascending order of their time of
    creation: no detection in the list is directly followed by one created
    before it.  When sqlite cannot be queried the list is empty. *)
Theorem X15_pending_detections (self : ProcessingManager.t) (w : World.t) :
  let pending := ProcessingManager._get_pending_detections self w in
  (World.table w = None -> pending = [])
  /\ (forall d,
         In d pending
         <-> exists rows,
               World.table w = Some rows
               /\ rows !! ProcessingManager.id d = Some (ProcessingManager.fields d)
               /\ ProcessingManager.is_null (ProcessingManager.fields d)
                    "audio_segment_path" = true)
  /\ List.NoDup (map ProcessingManager.id pending)
  /\ Sorted not_created_after pending.
Proof.
  cbv zeta. split; [|split; [|split]].
  - intros Ht. unfold ProcessingManager._get_pending_detections. rewrite Ht. reflexivity.
  - intros d. apply pending_In.
  - apply pending_ids_distinct.
  - unfold ProcessingManager._get_pending_detections.
    destruct (World.table w) as [rows|]; [|constructor].
    eapply Sorted_map; [|apply order_by_created_at_sorted].
    intros [ka a] [kb b] H. exact H.
Qed.

Lemma X15_pending_detections_witness :
  In Example.detection1
     (ProcessingManager._get_pending_detections (Example.manager true) Example.world0).
Proof.
  destruct (X15_pending_detections (Example.manager true) Example.world0)
    as (_ & H & _).
  apply (proj2 (H Example.detection1)).
  exists {[ 1 := Example.row1 ]}. split; [reflexivity|].
  split; [apply lookup_singleton_eq|]. vm_compute. reflexivity.
Defined.
